(** * ochazuke webhooks: a shallow embedding of the GitHub hook listener

    The development follows [ochazuke/webhooks/helpers.py] and the Flask
    view [issues_hooklistener] of [ochazuke/webhook/__init__.py].

    Conventions.
    - A Python [str] is a [string] holding the UTF-8 encoding of the text;
      [bytes] are [list byte].  Every string operation the program uses
      ([startswith], [split('=')], [==], truthiness, [encode('utf-8')])
      gives the same answer on that encoding.
    - Python values that come out of a JSON body are terms of [value].
    - A raised exception is the left injection of [result]; code that
      touches the database session or the logger lives in the state and
      exception monad [M].
    - An exception whose text the program can log carries what that text
      is made of. *)

From Stdlib Require Import ZArith NArith List String Ascii Bool Lia.
From Stdlib Require Import DecimalString.
From Stdlib.Strings Require Import Byte.
Import ListNotations.

Local Open Scope string_scope.
Local Open Scope Z_scope.

Set Warnings "-register-all".

(** ** Python values *)

(** A binary64 float: not-a-number, an infinity, or [(-1)^neg * m * 2^e]. *)
Inductive pyfloat : Type :=
| FNaN
| FInf (neg : bool)
| FFin (neg : bool) (m : N) (e : Z).

Inductive value : Type :=
| VNone
| VBool (b : bool)
| VInt (n : Z)
| VFloat (f : pyfloat)
| VStr (s : string)
| VList (l : list value)
| VDict (d : list (string * value)).

(** [AttributeError] names the type of the object and the attribute it
    lacks; the two decoding errors carry their text, [str(error)]. *)
Inductive exn : Type :=
| KeyError (key : value)
| TypeError
| AttributeError (type_name attribute : string)
| ValueError
| UnicodeDecodeError (msg : string)
| JSONDecodeError (msg : string)
| UnboundLocalError (name : string)
| SQLAlchemyError
| NoResultFound
| MultipleResultsFound.

(** [except sqlalchemy.exc.SQLAlchemyError]: the class and its subclasses. *)
Definition is_SQLAlchemyError (e : exn) : bool :=
  match e with
  | SQLAlchemyError | NoResultFound | MultipleResultsFound => true
  | _ => false
  end.

Definition result (A : Type) : Type := (exn + A)%type.

Definition float_truthy (f : pyfloat) : bool :=
  match f with
  | FFin _ m _ => negb (N.eqb m 0)
  | _ => true
  end.

Definition is_nil {A : Type} (l : list A) : bool :=
  match l with [] => true | _ :: _ => false end.

(** [bool(s)] for a [str] *)
Definition str_truthy (s : string) : bool := negb (s =? "")%string.

(** [bool(v)] *)
Definition truthy (v : value) : bool :=
  match v with
  | VNone => false
  | VBool b => b
  | VInt n => negb (n =? 0)
  | VFloat f => float_truthy f
  | VStr s => str_truthy s
  | VList l => negb (is_nil l)
  | VDict d => negb (is_nil d)
  end.

(** [v == 'literal'] for a string literal: only a [str] can be equal to it. *)
Definition eq_str (v : value) (lit : string) : bool :=
  match v with
  | VStr s => (s =? lit)%string
  | _ => false
  end.

(** [v in ['a', 'b', ...]] for a list of string literals. *)
Definition in_strs (v : value) (lits : list string) : bool :=
  existsb (eq_str v) lits.

Fixpoint assoc (k : string) (d : list (string * value)) : option value :=
  match d with
  | [] => None
  | (k', v) :: rest => if (k' =? k)%string then Some v else assoc k rest
  end.

(** [v[k]] for a string key [k]. *)
Definition getitem (v : value) (k : string) : result value :=
  match v with
  | VDict d => match assoc k d with
               | Some x => inr x
               | None => inl (KeyError (VStr k))
               end
  | _ => inl TypeError
  end.

(** [type(v).__name__] *)
Definition type_name (v : value) : string :=
  match v with
  | VNone => "NoneType"
  | VBool _ => "bool"
  | VInt _ => "int"
  | VFloat _ => "float"
  | VStr _ => "str"
  | VList _ => "list"
  | VDict _ => "dict"
  end.

(** [v.get(k)]: only a dict has the method. *)
Definition dict_get (v : value) (k : string) : result value :=
  match v with
  | VDict d => match assoc k d with
               | Some x => inr x
               | None => inr VNone
               end
  | _ => inl (AttributeError (type_name v) "get")
  end.

(** ** Werkzeug requests and Flask responses *)

Record Request : Type := mkRequest {
  headers : list (string * string);
  data : list byte
}.

Record Response : Type := mkResponse {
  body : string;
  status : Z
}.

Definition lower_ascii (c : ascii) : ascii :=
  let n := nat_of_ascii c in
  if (65 <=? n)%nat && (n <=? 90)%nat then ascii_of_nat (n + 32) else c.

Fixpoint lower (s : string) : string :=
  match s with
  | EmptyString => EmptyString
  | String c r => String (lower_ascii c) (lower r)
  end.

(** [request.headers.get(name)]: header names are matched without regard
    to case, the first matching line wins. *)
Fixpoint headers_get (hs : list (string * string)) (name : string)
  : option string :=
  match hs with
  | [] => None
  | (n, v) :: rest =>
      if (lower n =? lower name)%string then Some v else headers_get rest name
  end.

(** ** String helpers of the signature check *)

(** [s.split(sep)] for a one-character separator. *)
Fixpoint split (sep : ascii) (s : string) : list string :=
  match s with
  | EmptyString => [EmptyString]
  | String c rest =>
      if Ascii.eqb c sep then EmptyString :: split sep rest
      else match split sep rest with
           | h :: t => String c h :: t
           | [] => [String c EmptyString]
           end
  end.

Fixpoint is_ascii (s : string) : bool :=
  match s with
  | EmptyString => true
  | String c r => (nat_of_ascii c <? 128)%nat && is_ascii r
  end.

(** [hmac.compare_digest(a, b)] on two [str]: a [TypeError] unless both are
    ASCII only, else their equality. *)
Definition compare_digest (a b : string) : result bool :=
  if is_ascii a && is_ascii b then inr (a =? b)%string else inl TypeError.

(** ** The persistent store

    [ochazuke.models] is not part of the sources at hand; the entities are
    taken from the data model of the specification and from the way the
    helpers use them. *)

(** Modelled from the spec: the [Issue] entity of [ochazuke.models]
    (tracker number, title, creation timestamp, open/closed status,
    optional milestone reference, label references). *)
Record Issue : Type := mkIssue {
  issue_number : value;
  issue_title : value;
  issue_created_at : value;
  issue_milestone_id : value;
  issue_is_open : bool;
  issue_labels : list Z
}.

(** Modelled from the spec: the [Label] entity of [ochazuke.models]. *)
Record Label : Type := mkLabel {
  label_id : Z;
  label_name : value
}.

(** Modelled from the spec: the [Milestone] entity of [ochazuke.models]. *)
Record Milestone : Type := mkMilestone {
  milestone_id : Z;
  milestone_title : value
}.

(** Modelled from the spec: the [Event] entity of [ochazuke.models], an
    append-only log record with a system-generated identity. *)
Record Event : Type := mkEvent {
  event_id : Z;
  event_issue_id : value;
  event_actor : value;
  event_action : value;
  event_details : value;
  event_received_at : value
}.

Record Store : Type := mkStore {
  issues : list Issue;
  labels : list Label;
  milestones : list Milestone;
  events : list Event
}.

(** Modelled from the spec: the persistence gateway ([db.session] of
    [ochazuke.models]).  [committed] is what the database holds,
    [session] the unit of work of the running request (the committed rows
    plus every staged change).  [commit_outcomes] lists, for the commits
    to come, whether the database accepts them ([false]: the commit raises
    [SQLAlchemyError]); past the end of the list every commit succeeds.
    [log] collects the messages handed to the logger. *)
Record World : Type := mkWorld {
  committed : Store;
  session : Store;
  commit_outcomes : list bool;
  log : list string
}.

Definition set_session (w : World) (s : Store) : World :=
  mkWorld (committed w) s (commit_outcomes w) (log w).

(** ** The services the program takes from its platform

    [json.loads] and [hmac.new(..., digestmod=hashlib.sha1).hexdigest()]
    belong to the Python standard library, and the hook secret to the
    application configuration ([ochazuke.app.config['HOOK_SECRET_KEY']]).
    [text] is [str(obj)] where the sources at hand do not fix it: the
    [repr] of a float, a list or a dict, the wording of an exception that
    the interpreter, SQLAlchemy or the database chose, and the [__repr__]
    of the entities of [ochazuke.models].
    The program is embedded over any implementation of them; [Reference]
    below provides executable ones. *)

(** What the program hands to [str.format]: a decoded value or a header
    value, a caught exception, or an entity. *)
Inductive object : Type :=
| OValue (v : value)
| OError (e : exn)
| OIssue (bug : Issue)
| OEvent (event : Event).

Class Platform : Type := {
  json_loads : list byte -> result value;
  hmac_sha1_hexdigest : list byte -> list byte -> string;
  HOOK_SECRET_KEY : string;
  text : object -> string
}.

(** ** State and exception monad *)

Definition M (A : Type) : Type := World -> result A * World.

Class PyMonad (F : Type -> Type) : Type := {
  ret : forall {A}, A -> F A;
  bind : forall {A B}, F A -> (A -> F B) -> F B;
  raise : forall {A}, exn -> F A
}.

#[global] Instance PyMonad_result : PyMonad result := {
  ret := fun A a => inr a;
  bind := fun A B r k => match r with inl e => inl e | inr a => k a end;
  raise := fun A e => inl e
}.

#[global] Instance PyMonad_M : PyMonad M := {
  ret := fun A a w => (inr a, w);
  bind := fun A B m k w =>
            match m w with
            | (inl e, w') => (inl e, w')
            | (inr a, w') => k a w'
            end;
  raise := fun A e w => (inl e, w)
}.

Notation "x <- m ;; k" := (bind m (fun x => k))
  (at level 61, m at next level, right associativity).
Notation "m ;; k" := (bind m (fun _ => k))
  (at level 61, right associativity).

(** A computation without effects, run inside [M]. *)
Definition lift {A : Type} (r : result A) : M A := fun w => (r, w).

(** [try: m  except <handles> as error: h error] *)
Definition try_except {A : Type} (m : M A) (handles : exn -> bool)
  (h : exn -> M A) : M A :=
  fun w =>
    match m w with
    | (inl e, w') => if handles e then h e w' else (inl e, w')
    | (inr a, w') => (inr a, w')
    end.

(** Reading a local variable that no assignment has bound yet. *)
Definition local {A : Type} (name : string) (v : option A) : result A :=
  match v with
  | Some a => inr a
  | None => inl (UnboundLocalError name)
  end.

Definition logger_info (msg : string) : M unit :=
  fun w => (inr tt, mkWorld (committed w) (session w) (commit_outcomes w)
                            (log w ++ [msg])).

Definition logger_warning (msg : string) : M unit := logger_info msg.

(** *** Session operations *)

(** [db.session.commit()] *)
Definition session_commit : M unit :=
  fun w =>
    match commit_outcomes w with
    | false :: rest =>
        (inl SQLAlchemyError, mkWorld (committed w) (session w) rest (log w))
    | true :: rest => (inr tt, mkWorld (session w) (session w) rest (log w))
    | [] => (inr tt, mkWorld (session w) (session w) [] (log w))
    end.

(** [db.session.rollback()] *)
Definition session_rollback : M unit :=
  fun w => (inr tt, set_session w (committed w)).

(** [db.session.remove(obj)]: [scoped_session.remove] takes no argument. *)
Definition session_remove {A : Type} (obj : A) : M unit := raise TypeError.

Definition next_id {A : Type} (id : A -> Z) (rows : list A) : Z :=
  1 + fold_right (fun r acc => Z.max (id r) acc) 0 rows.

(** [db.session.add(Label(name))] *)
Definition session_add_label (name : value) : M unit :=
  fun w =>
    let s := session w in
    (inr tt, set_session w
       (mkStore (issues s)
                (labels s ++ [mkLabel (next_id label_id (labels s)) name])
                (milestones s) (events s))).

(** [db.session.add(Milestone(title))] *)
Definition session_add_milestone (title : value) : M unit :=
  fun w =>
    let s := session w in
    (inr tt, set_session w
       (mkStore (issues s) (labels s)
                (milestones s
                   ++ [mkMilestone (next_id milestone_id (milestones s)) title])
                (events s))).

(** [bug = Issue(number, title, created_at, milestone_id)] followed by
    [db.session.add(bug)]; [is_open] defaults to [True].  The result is
    [bug]. *)
Definition session_add_issue (number title created_at milestone : value)
  : M Issue :=
  fun w =>
    let s := session w in
    let bug := mkIssue number title created_at milestone true [] in
    (inr bug, set_session w
       (mkStore (issues s ++ [bug]) (labels s) (milestones s) (events s))).

(** [event = Event(issue_id, actor, action, details, received_at)] followed
    by [db.session.add(event)].  The result is [event]. *)
Definition session_add_event (issue_id actor action details received_at : value)
  : M Event :=
  fun w =>
    let s := session w in
    let event := mkEvent (next_id event_id (events s)) issue_id
                         actor action details received_at in
    (inr event, set_session w
       (mkStore (issues s) (labels s) (milestones s) (events s ++ [event]))).

(** *** Queries and loaded entities *)

Definition pyfloat_eqb (a b : pyfloat) : bool :=
  match a, b with
  | FNaN, FNaN => true
  | FInf x, FInf y => Bool.eqb x y
  | FFin s m e, FFin s' m' e' => Bool.eqb s s' && N.eqb m m' && (e =? e')
  | _, _ => false
  end.

(** Equality of a stored column with a bound parameter. *)
Fixpoint value_eqb (a b : value) : bool :=
  match a, b with
  | VNone, VNone => true
  | VBool x, VBool y => Bool.eqb x y
  | VInt x, VInt y => x =? y
  | VFloat x, VFloat y => pyfloat_eqb x y
  | VStr x, VStr y => (x =? y)%string
  | VList x, VList y =>
      (fix go (l1 l2 : list value) : bool :=
         match l1, l2 with
         | [], [] => true
         | h1 :: t1, h2 :: t2 => value_eqb h1 h2 && go t1 t2
         | _, _ => false
         end) x y
  | VDict x, VDict y =>
      (fix go (l1 l2 : list (string * value)) : bool :=
         match l1, l2 with
         | [], [] => true
         | (k1, h1) :: t1, (k2, h2) :: t2 =>
             (k1 =? k2)%string && value_eqb h1 h2 && go t1 t2
         | _, _ => false
         end) x y
  | _, _ => false
  end.

Fixpoint find_index {A : Type} (p : A -> bool) (l : list A) : option nat :=
  match l with
  | [] => None
  | x :: r => if p x then Some O
              else match find_index p r with
                   | Some i => Some (S i)
                   | None => None
                   end
  end.

Fixpoint update_nth {A : Type} (i : nat) (f : A -> A) (l : list A) : list A :=
  match l, i with
  | [], _ => []
  | x :: r, O => f x :: r
  | x :: r, S j => x :: update_nth j f r
  end.

(** [Issue.query.get(ident)]: the issue of the unit of work with that
    primary key, as a handle on its row, or [None]. *)
Definition Issue_query_get (ident : value) : M (option nat) :=
  fun w =>
    (inr (find_index (fun i => value_eqb (issue_number i) ident)
            (issues (session w))), w).

(** An assignment to the attribute [attribute], or a method call on it, of
    the object [Issue.query.get] returned; on [None] it is an
    [AttributeError]. *)
Definition Issue_update (ref : option nat) (attribute : string)
  (f : Issue -> result Issue) : M unit :=
  fun w =>
    match ref with
    | None => (inl (AttributeError "NoneType" attribute), w)
    | Some i =>
        let s := session w in
        match nth_error (issues s) i with
        | None => (inl (AttributeError "NoneType" attribute), w)
        | Some row =>
            match f row with
            | inl e => (inl e, w)
            | inr row' =>
                (inr tt, set_session w
                   (mkStore (update_nth i (fun _ => row') (issues s))
                            (labels s) (milestones s) (events s)))
            end
        end
    end.

Definition set_title (t : value) (i : Issue) : result Issue :=
  inr (mkIssue (issue_number i) t (issue_created_at i)
               (issue_milestone_id i) (issue_is_open i) (issue_labels i)).

Definition set_is_open (b : bool) (i : Issue) : result Issue :=
  inr (mkIssue (issue_number i) (issue_title i) (issue_created_at i)
               (issue_milestone_id i) b (issue_labels i)).

Definition set_milestone_id (m : value) (i : Issue) : result Issue :=
  inr (mkIssue (issue_number i) (issue_title i) (issue_created_at i)
               m (issue_is_open i) (issue_labels i)).

(** [issue.labels.append(label_id)] *)
Definition labels_append (l : Z) (i : Issue) : result Issue :=
  inr (mkIssue (issue_number i) (issue_title i) (issue_created_at i)
               (issue_milestone_id i) (issue_is_open i) (issue_labels i ++ [l])).

Fixpoint remove_first (l : Z) (ls : list Z) : option (list Z) :=
  match ls with
  | [] => None
  | x :: r => if x =? l then Some r
              else match remove_first l r with
                   | Some r' => Some (x :: r')
                   | None => None
                   end
  end.

(** [issue.labels.remove(label_id)]: a [ValueError] when it is not there. *)
Definition labels_remove (l : Z) (i : Issue) : result Issue :=
  match remove_first l (issue_labels i) with
  | Some ls => inr (mkIssue (issue_number i) (issue_title i)
                            (issue_created_at i) (issue_milestone_id i)
                            (issue_is_open i) ls)
  | None => inl ValueError
  end.

(** [Model.query.filter_by(column=v)]: a query object.  Building it reads
    nothing; only [.one()] and the like load rows. *)
Inductive Query : Type :=
| LabelByName (name : value)
| MilestoneByTitle (title : value).

(** [Model.query.filter_by(v)]: the criteria are keyword-only. *)
Definition filter_by_positional (v : value) : result Query := inl TypeError.

(** [query.attr = v]: binds an attribute of the query object itself; no row
    is loaded and the unit of work does not change. *)
Definition Query_setattr (q : Query) (attr : string) (v : value) : M unit :=
  ret tt.

(** [query.id]: a query object ([BaseQuery] in Flask-SQLAlchemy) has no
    such attribute. *)
Definition Query_id (q : Query) : result value :=
  inl (AttributeError "BaseQuery" "id").

(** [Label.query.filter_by(name=n).one()] *)
Definition Label_one (name : value) : M Label :=
  fun w =>
    match filter (fun l => value_eqb (label_name l) name) (labels (session w))
    with
    | [] => (inl NoResultFound, w)
    | [l] => (inr l, w)
    | _ => (inl MultipleResultsFound, w)
    end.

(** [event_type], the value of a header or [None], as a value. *)
Definition header_value (h : option string) : value :=
  match h with
  | Some s => VStr s
  | None => VNone
  end.

Section Formatting.

Context `{Platform}.

(** [str(obj)].  A [str] is its own text, [None], a [bool] and an [int]
    have their literals, an [AttributeError] has the wording of the
    interpreter and a decoding error the text it was raised with; the
    other texts are the platform's. *)
Definition str_ (obj : object) : string :=
  match obj with
  | OValue VNone => "None"
  | OValue (VBool true) => "True"
  | OValue (VBool false) => "False"
  | OValue (VInt n) => NilZero.string_of_int (Z.to_int n)
  | OValue (VStr s) => s
  | OError (AttributeError type_name attribute) =>
      "'" ++ type_name ++ "' object has no attribute '" ++ attribute ++ "'"
  | OError (UnicodeDecodeError msg) => msg
  | OError (JSONDecodeError msg) => msg
  | _ => text obj
  end.

(** [kwargs[name]] *)
Fixpoint keyword (name : string) (kwargs : list (string * object))
  : option object :=
  match kwargs with
  | [] => None
  | (k, obj) :: rest => if (k =? name)%string then Some obj
                        else keyword name rest
  end.

(** [template.format(...)] from the text [s] of the template on;
    [field] is the name read so far of the replacement field that is
    open, if one is.  Outside a field, a doubled brace stands for one
    brace and a closing brace on its own is a [ValueError]; the text of a
    field up to its closing brace is the name of a keyword argument, a
    [KeyError] when there is none of that name, and the field is replaced
    by [str] of the argument; an opening brace inside a field, and a field
    still open at the end of the template, are a [ValueError].  Fields are
    handled from left to right, and an argument that no field names is not
    looked at.  (Conversions, format specifications, attribute and index
    lookups and positional fields, none of which the program uses, are
    not told from a name.) *)
Fixpoint format_from (kwargs : list (string * object)) (field : option string)
  (s : string) : result string :=
  match s with
  | EmptyString =>
      match field with
      | None => inr EmptyString
      | Some _ => inl ValueError
      end
  | String c r =>
      match field with
      | Some name =>
          if Ascii.eqb c "}" then
            match keyword name kwargs with
            | None => inl (KeyError (VStr name))
            | Some obj =>
                rest <- format_from kwargs None r ;;
                ret (str_ obj ++ rest)
            end
          else if Ascii.eqb c "{" then inl ValueError
          else format_from kwargs (Some (name ++ String c EmptyString)) r
      | None =>
          if Ascii.eqb c "{" then
            match r with
            | String c' r' =>
                if Ascii.eqb c' "{" then
                  rest <- format_from kwargs None r' ;;
                  ret (String c rest)
                else format_from kwargs (Some EmptyString) r
            | EmptyString => inl ValueError
            end
          else if Ascii.eqb c "}" then
            match r with
            | String c' r' =>
                if Ascii.eqb c' "}" then
                  rest <- format_from kwargs None r' ;;
                  ret (String c rest)
                else inl ValueError
            | EmptyString => inl ValueError
            end
          else
            rest <- format_from kwargs None r ;;
            ret (String c rest)
      end
  end.

(** ['...{field}...'.format(field=obj, ...)] *)
Definition format (template : string) (kwargs : list (string * object))
  : result string :=
  format_from kwargs None template.

End Formatting.

Fixpoint contains_at (needle s : string) (fuel : nat) : bool :=
  prefix needle s
  || match fuel, s with
     | S n, String _ r => contains_at needle r n
     | _, _ => false
     end.

(** ['key' in v] *)
Definition contains (v : value) (key : string) : result bool :=
  match v with
  | VDict d => inr (match assoc key d with Some _ => true | None => false end)
  | VList l => inr (existsb (fun x => eq_str x key) l)
  | VStr s => inr (contains_at key s (String.length s))
  | _ => inl TypeError
  end.

(** ['a' or 'b'] on two string literals: the first one unless it is empty. *)
Definition or_ (a b : string) : string :=
  if str_truthy a then a else b.

(** ** [ochazuke/webhooks/helpers.py] *)

Section Helpers.

Context `{Platform}.

Definition get_payload_signature (key : string) (payload : list byte)
  : string :=
  let key := list_byte_of_string key in
  hmac_sha1_hexdigest key payload.

Definition signature_check (key post_signature : string)
  (payload : list byte) : result bool :=
  if prefix "sha1=" post_signature then
    match split "=" post_signature with
    | [sha_name; signature] =>
        if negb (str_truthy signature) then inr false
        else
          let hexmac := get_payload_signature key payload in
          compare_digest hexmac signature
    | _ => inl ValueError
    end
  else inr false.

Definition is_github_hook (request : Request) : result bool :=
  match headers_get (headers request) "X-GitHub-Event" with
  | None => inr false
  | Some _ =>
      match headers_get (headers request) "X-Hub-Signature" with
      | Some post_signature =>
          if str_truthy post_signature then
            let key := HOOK_SECRET_KEY in
            signature_check key post_signature (data request)
          else inr false
      | None => inr false
      end
  end.

Definition is_desirable_issue_event (action changes : value) : M bool :=
  if in_strs action ["opened"; "closed"; "reopened"; "labeled"; "unlabeled";
                     "milestoned"; "unmilestoned"] then ret true
  else if eq_str action "edited" && truthy changes then
    title <- lift (dict_get changes "title") ;;
    if truthy title then ret true else ret false
  else if negb (in_strs action ["assigned"; "unassigned"; "edited"]) then
    msg <- lift (format "Hey, GitHub sent a funky issues-event action: {act}"
                        [("act", OValue action)]) ;;
    logger_info msg ;;
    ret false
  else ret false.

Definition extract_issue_event_info (payload action changes : value)
  : result value :=
  issue <- getitem payload "issue" ;;
  milestone <- getitem issue "milestone" ;;
  milestone_title <- (if truthy milestone then dict_get milestone "title"
                      else ret VNone) ;;
  details <-
    (if in_strs action ["opened"; "closed"; "reopened"; "edited"] then
       if truthy changes then
         title <- dict_get changes "title" ;;
         if truthy title then
           title <- getitem changes "title" ;;
           from <- getitem title "from" ;;
           ret (VDict [("old title", from)])
         else ret VNone
       else ret VNone
     else if eq_str action (or_ "milestoned" "demilestoned") then
       issue <- getitem payload "issue" ;;
       milestone <- getitem issue "milestone" ;;
       title <- getitem milestone "title" ;;
       ret (VDict [("milestone title", title)])
     else
       label <- getitem payload "label" ;;
       name <- getitem label "name" ;;
       ret (VDict [("label name", name)])) ;;
  issue <- getitem payload "issue" ;;
  number <- getitem issue "number" ;;
  title <- getitem issue "title" ;;
  created_at <- getitem issue "created_at" ;;
  sender <- getitem payload "sender" ;;
  login <- getitem sender "login" ;;
  updated_at <- getitem issue "updated_at" ;;
  ret (VDict [("issue_id", number);
              ("title", title);
              ("created_at", created_at);
              ("milestone", milestone_title);
              ("actor", login);
              ("action", action);
              ("details", details);
              ("received_at", updated_at)]).

Definition add_new_issue (info : value) : M unit :=
  milestone_title <- lift (getitem info "milestone") ;;
  milestone <- (if truthy milestone_title then
                  q <- lift (filter_by_positional milestone_title) ;;
                  ret (Some q)
                else ret None) ;;
  issue_id <- lift (getitem info "issue_id") ;;
  title <- lift (getitem info "title") ;;
  created_at <- lift (getitem info "created_at") ;;
  q <- lift (local "milestone" milestone) ;;
  milestone_id <- lift (Query_id q) ;;
  bug <- session_add_issue issue_id title created_at milestone_id ;;
  try_except
    (session_commit ;;
     msg <- lift (format "New issue ({iss}) successfully added to database."
                         [("iss", OIssue bug)]) ;;
     logger_info msg)
    is_SQLAlchemyError
    (fun error =>
       session_rollback ;;
       msg <- lift (format "Yikes! Failed to add issue to database: {err}"
                           [("err", OError error)]) ;;
       logger_warning msg).

Definition add_new_event (info : value) : M unit :=
  issue_id <- lift (getitem info "issue_id") ;;
  actor <- lift (getitem info "actor") ;;
  action <- lift (getitem info "action") ;;
  details <- lift (getitem info "details") ;;
  received_at <- lift (getitem info "received_at") ;;
  event <- session_add_event issue_id actor action details received_at ;;
  try_except
    (session_commit ;;
     msg <- lift (format "New event ({evg}) successfully added to database."
                         [("evt", OEvent event)]) ;;
     logger_info msg)
    is_SQLAlchemyError
    (fun error =>
       session_rollback ;;
       msg <- lift (format "Yikes! Failed to add event to database: {err}"
                           [("err", OError error)]) ;;
       logger_warning msg).

Definition issue_title_edit (info : value) : M unit :=
  issue_id <- lift (getitem info "issue_id") ;;
  bug <- Issue_query_get issue_id ;;
  title <- lift (getitem info "title") ;;
  Issue_update bug "title" (set_title title) ;;
  session_commit.

(** [{'closed': False, 'reopened': True}[action]] *)
Definition status_of (action : value) : result bool :=
  match action with
  | VList _ | VDict _ => inl TypeError
  | _ => if eq_str action "closed" then inr false
         else if eq_str action "reopened" then inr true
         else inl (KeyError action)
  end.

Definition issue_status_change (info action : value) : M unit :=
  issue_id <- lift (getitem info "issue_id") ;;
  bug <- Issue_query_get issue_id ;;
  is_open <- lift (status_of action) ;;
  Issue_update bug "is_open" (set_is_open is_open) ;;
  session_commit.

Definition issue_milestone_change (info : value) : M unit :=
  issue_id <- lift (getitem info "issue_id") ;;
  issue <- Issue_query_get issue_id ;;
  action <- lift (getitem info "action") ;;
  (if eq_str action "milestoned" then
     milestone_id <- lift (getitem info "milestone_id") ;;
     Issue_update issue "milestone_id" (set_milestone_id milestone_id)
   else
     Issue_update issue "milestone_id" (set_milestone_id VNone)) ;;
  session_commit.

Definition issue_label_change (info : value) : M unit :=
  details <- lift (getitem info "details") ;;
  label_name <- lift (getitem details "label name") ;;
  label <- Label_one label_name ;;
  let label_id := label_id label in
  issue_id <- lift (getitem info "issue_id") ;;
  issue <- Issue_query_get issue_id ;;
  action <- lift (getitem info "action") ;;
  (if eq_str action "labeled" then
     Issue_update issue "labels" (labels_append label_id)
   else
     Issue_update issue "labels" (labels_remove label_id)) ;;
  session_commit.

Definition update_db (info action : value) : M unit :=
  (if eq_str action "opened" then add_new_issue info
   else if eq_str action "edited" then issue_title_edit info
   else if eq_str action (or_ "closed" "reopened") then
     issue_status_change info action
   else if eq_str action (or_ "milestoned" "unmilestoned") then
     issue_milestone_change info
   else if eq_str action (or_ "labeled" "unlabeled") then
     issue_label_change info
   else ret tt) ;;
  add_new_event info.

Definition process_label_event_info (payload : value) : M unit :=
  action <- lift (getitem payload "action") ;;
  label <- lift (getitem payload "label") ;;
  label_name <- lift (getitem label "name") ;;
  has_changes <- lift (contains payload "changes") ;;
  prior_name <- (if has_changes then
                   changes <- lift (getitem payload "changes") ;;
                   name <- lift (getitem changes "name") ;;
                   lift (getitem name "from")
                 else ret VNone) ;;
  (if eq_str action "created" then
     session_add_label label_name
   else if truthy prior_name then
     let label := LabelByName prior_name in
     Query_setattr label "name" label_name
   else
     let label := LabelByName label_name in
     session_remove label) ;;
  session_commit.

Definition process_milestone_event_info (payload : value) : M unit :=
  action <- lift (getitem payload "action") ;;
  milestone <- lift (getitem payload "milestone") ;;
  milestone_title <- lift (getitem milestone "title") ;;
  has_changes <- lift (contains payload "changes") ;;
  prior_title <- (if has_changes then
                    changes <- lift (getitem payload "changes") ;;
                    lift (getitem changes "title")
                  else ret VNone) ;;
  (if eq_str action "created" then
     session_add_milestone milestone_title
   else if truthy prior_title then
     let milestone := MilestoneByTitle prior_title in
     Query_setattr milestone "title" milestone_title
   else
     let milestone := MilestoneByTitle milestone_title in
     session_remove milestone) ;;
  session_commit.

End Helpers.

(** ** [ochazuke/webhook/__init__.py] *)

Section Listener.

Context `{Platform}.

Definition MEH_RESPONSE : Response :=
  mkResponse "We may just circular-file that, but thanks!" 202.

Definition NO_AUTH : Response :=
  mkResponse "This is not the hook we seek." 403.

(** [event_type == 'literal'], [event_type] being a header value or [None]. *)
Definition header_is (event_type : option string) (lit : string) : bool :=
  match event_type with
  | Some s => (s =? lit)%string
  | None => false
  end.

(** The handler of [except Exception as error] in the view. *)
Definition wonky_garbage (error : exn) : M unit :=
  msg <- lift (format "Huh? GitHub sent us some wonky garbage, folks: {err}"
                      [("err", OError error)]) ;;
  logger_info msg.

(** The [try] block of the view.  Each of its three statements binds one
    local; the statement that raises leaves its local and the following
    ones unbound, and [except Exception] only logs. *)
Definition read_payload (request : Request)
  : M (option value * option value * option value) :=
  match json_loads (data request) with
  | inl error => wonky_garbage error ;; ret (None, None, None)
  | inr payload =>
      match dict_get payload "action" with
      | inl error => wonky_garbage error ;; ret (Some payload, None, None)
      | inr action =>
          match dict_get payload "changes" with
          | inl error =>
              wonky_garbage error ;; ret (Some payload, Some action, None)
          | inr changes => ret (Some payload, Some action, Some changes)
          end
      end
  end.

(** The view returns a response, or falls off its end ([None]). *)
Definition issues_hooklistener (request : Request) : M (option Response) :=
  ok <- lift (is_github_hook request) ;;
  if negb ok then
    ret (Some (mkResponse "Move along, nothing to see here" 401))
  else
    let event_type := headers_get (headers request) "X-GitHub-Event" in
    locals <- read_payload request ;;
    let '(payload, action, changes) := locals in
    if header_is event_type "issues" then
      action_ <- lift (local "action" action) ;;
      changes_ <- lift (local "changes" changes) ;;
      desirable <- is_desirable_issue_event action_ changes_ ;;
      if desirable then
        payload_ <- lift (local "payload" payload) ;;
        issue_event_info <-
          lift (extract_issue_event_info payload_ action_ changes_) ;;
        (if eq_str action_ "opened" then add_new_issue issue_event_info
         else if eq_str action_ "edited" then issue_title_edit issue_event_info
         else if eq_str action_ (or_ "closed" "reopened") then
           issue_status_change issue_event_info action_
         else if eq_str action_ (or_ "milestoned" "unmilestoned") then
           issue_milestone_change issue_event_info
         else if eq_str action_ (or_ "labeled" "unlabeled") then
           issue_label_change issue_event_info
         else ret tt) ;;
        add_new_event issue_event_info ;;
        ret (Some (mkResponse "Yay! Data! *munch, munch, munch*" 200))
      else ret (Some MEH_RESPONSE)
    else if header_is event_type "label" then
      payload_ <- lift (local "payload" payload) ;;
      process_label_event_info payload_ ;;
      ret None
    else if header_is event_type "milestone" then
      action_ <- lift (local "action" action) ;;
      if in_strs action_ ["created"; "edited"; "deleted"] then
        payload_ <- lift (local "payload" payload) ;;
        process_milestone_event_info payload_ ;;
        ret None
      else ret (Some MEH_RESPONSE)
    else if header_is event_type "ping" then
      ret (Some (mkResponse "pong" 200))
    else
      msg <- lift (format "Hey! GitHub sent us a funky (or new) event: {event}"
                          [("event", OValue (header_value event_type))]) ;;
      logger_info msg ;;
      ret (Some NO_AUTH).

(** One request as the client sees it.  The session is scoped to the
    request: it starts from the rows the database holds and is removed when
    the request ends, which drops every change that was not committed.
    Flask answers 500 when the view raises or returns [None]. *)
Definition serve (request : Request) (w : World) : Z * World :=
  let (r, w') := issues_hooklistener request (set_session w (committed w)) in
  (match r with
   | inr (Some response) => status response
   | _ => 500
   end,
   set_session w' (committed w')).

End Listener.

(** ** Executable platform services

    [Reference.platform] implements the services: HMAC-SHA1 after
    RFC 2104 and FIPS 180-4, a decoder for JSON texts that words its
    errors as the decoder of CPython 3.11 does, and the texts of values
    and exceptions.  With it the view runs on concrete requests. *)

Module Reference.

Local Open Scope list_scope.

(** *** SHA-1 on 32-bit words carried by [Z] *)

Definition mask32 (x : Z) : Z := Z.land x 0xFFFFFFFF.

Definition rotl (n x : Z) : Z :=
  mask32 (Z.lor (Z.shiftl x n) (Z.shiftr x (32 - n))).

Definition byte_Z (b : byte) : Z := Z.of_N (Byte.to_N b).

(** The [n] low bytes of [x], most significant first. *)
Fixpoint be_bytes (n : nat) (x : Z) : list Z :=
  match n with
  | O => []
  | S k => Z.land (Z.shiftr x (8 * Z.of_nat k)) 255 :: be_bytes k x
  end.

Definition pad (msg : list Z) : list Z :=
  let len := Z.of_nat (List.length msg) in
  msg ++ [0x80] ++ repeat 0 (Z.to_nat ((55 - len) mod 64))
      ++ be_bytes 8 (8 * len).

Fixpoint words (bs : list Z) : list Z :=
  match bs with
  | a :: b :: c :: d :: r =>
      Z.lor (Z.shiftl a 24) (Z.lor (Z.shiftl b 16) (Z.lor (Z.shiftl c 8) d))
      :: words r
  | _ => []
  end.

Definition f (t : nat) (b c d : Z) : Z :=
  if (t <? 20)%nat then Z.lor (Z.land b c) (Z.land (Z.lxor b 0xFFFFFFFF) d)
  else if (t <? 40)%nat then Z.lxor (Z.lxor b c) d
  else if (t <? 60)%nat then
    Z.lor (Z.lor (Z.land b c) (Z.land b d)) (Z.land c d)
  else Z.lxor (Z.lxor b c) d.

Definition K (t : nat) : Z :=
  if (t <? 20)%nat then 0x5A827999
  else if (t <? 40)%nat then 0x6ED9EBA1
  else if (t <? 60)%nat then 0x8F1BBCDC
  else 0xCA62C1D6.

Definition digest_state : Type := (Z * Z * Z * Z * Z)%type.

(** [n] rounds from round [t] on; [window] holds the sixteen schedule words
    [W t .. W (t+15)]. *)
Fixpoint rounds (n t : nat) (window : list Z) (s : digest_state)
  : digest_state :=
  match n with
  | O => s
  | S n' =>
      let '(a, b, c, d, e) := s in
      let w := nth 0 window 0 in
      let temp := mask32 (rotl 5 a + f t b c d + e + K t + w) in
      let w16 := rotl 1 (Z.lxor (Z.lxor (nth 13 window 0) (nth 8 window 0))
                                (Z.lxor (nth 2 window 0) (nth 0 window 0))) in
      rounds n' (S t) (tl window ++ [w16]) (temp, a, rotl 30 b, c, d)
  end.

Definition compress (h : digest_state) (block : list Z) : digest_state :=
  let '(h0, h1, h2, h3, h4) := h in
  let '(a, b, c, d, e) := rounds 80 0 block h in
  (mask32 (h0 + a), mask32 (h1 + b), mask32 (h2 + c), mask32 (h3 + d),
   mask32 (h4 + e)).

Fixpoint blocks (fuel : nat) (ws : list Z) (h : digest_state) : digest_state :=
  match fuel, ws with
  | S n, _ :: _ => blocks n (skipn 16 ws) (compress h (firstn 16 ws))
  | _, _ => h
  end.

Definition sha1 (msg : list Z) : list Z :=
  let ws := words (pad msg) in
  let '(h0, h1, h2, h3, h4) :=
    blocks (List.length ws) ws
      (0x67452301, 0xEFCDAB89, 0x98BADCFE, 0x10325476, 0xC3D2E1F0) in
  be_bytes 4 h0 ++ be_bytes 4 h1 ++ be_bytes 4 h2 ++ be_bytes 4 h3
    ++ be_bytes 4 h4.

(** *** HMAC *)

Definition hmac_sha1 (key msg : list Z) : list Z :=
  let key := if (64 <? List.length key)%nat then sha1 key else key in
  let key := key ++ repeat 0 (64 - List.length key) in
  sha1 (map (Z.lxor 0x5C) key ++ sha1 (map (Z.lxor 0x36) key ++ msg)).

Definition hex_digit (n : Z) : ascii :=
  ascii_of_nat (Z.to_nat (if n <? 10 then 48 + n else 87 + n)).

Fixpoint hex (bs : list Z) : string :=
  match bs with
  | [] => EmptyString
  | b :: r => String (hex_digit (b / 16)) (String (hex_digit (b mod 16)) (hex r))
  end.

Definition hexdigest (key msg : list byte) : string :=
  hex (hmac_sha1 (map byte_Z key) (map byte_Z msg)).

(** *** Decoding the body into code points

    [json.loads] on [bytes] picks the encoding from the first bytes
    ([json.detect_encoding]) and decodes with [errors='surrogatepass'],
    so that encoded surrogates pass. *)

Inductive encoding : Type :=
| utf_8 | utf_8_sig | utf_16 | utf_16_be | utf_16_le
| utf_32 | utf_32_be | utf_32_le.

Fixpoint startswith (b p : list Z) : bool :=
  match p, b with
  | [], _ => true
  | x :: p', y :: b' => (x =? y) && startswith b' p'
  | _ :: _, [] => false
  end.

Definition detect_encoding (b : list Z) : encoding :=
  if startswith b [0x00; 0x00; 0xFE; 0xFF] || startswith b [0xFF; 0xFE; 0x00; 0x00]
  then utf_32
  else if startswith b [0xFE; 0xFF] || startswith b [0xFF; 0xFE] then utf_16
  else if startswith b [0xEF; 0xBB; 0xBF] then utf_8_sig
  else
    match b with
    | b0 :: b1 :: b2 :: b3 :: _ =>
        if b0 =? 0 then (if b1 =? 0 then utf_32_be else utf_16_be)
        else if b1 =? 0 then
          (if negb (b2 =? 0) || negb (b3 =? 0) then utf_16_le else utf_32_le)
        else utf_8
    | [b0; b1] =>
        if b0 =? 0 then utf_16_be else if b1 =? 0 then utf_16_le else utf_8
    | _ => utf_8
    end.

Definition between (lo x hi : Z) : bool := (lo <=? x) && (x <=? hi).

Definition cont (b : Z) : bool := between 0x80 b 0xBF.

(** [str(n)] for an [int] *)
Definition dec (n : Z) : string := NilZero.string_of_int (Z.to_int n).

(** What a codec could not decode: the bytes from [start] up to [stop],
    and the reason it gives. *)
Definition undecodable : Type := (Z * Z * string)%type.

Definition push (c : Z) (r : undecodable + list Z) : undecodable + list Z :=
  match r with
  | inr l => inr (c :: l)
  | inl e => inl e
  end.

(** The UTF-8 codec from the byte at [pos] on.  With [surrogatepass] the
    three bytes of an encoded surrogate pass; every other error is
    reported as the codec found it. *)
Fixpoint decode_utf8 (pos : Z) (b : list Z) : undecodable + list Z :=
  match b with
  | [] => inr []
  | b0 :: r =>
      let invalid_start := inl (pos, pos + 1, "invalid start byte") in
      let invalid_continuation (n : Z) :=
        inl (pos, pos + n, "invalid continuation byte") in
      let unexpected_end :=
        inl (pos, pos + Z.of_nat (List.length b), "unexpected end of data") in
      if b0 <? 0x80 then push b0 (decode_utf8 (pos + 1) r)
      else if b0 <? 0xC2 then invalid_start
      else if b0 <? 0xE0 then
        match r with
        | [] => unexpected_end
        | b1 :: r1 =>
            if cont b1
            then push ((b0 - 0xC0) * 64 + (b1 - 0x80))
                      (decode_utf8 (pos + 2) r1)
            else invalid_continuation 1
        end
      else if b0 <? 0xF0 then
        match r with
        | [] => unexpected_end
        | b1 :: r1 =>
            if negb (cont b1)
               || (if b1 <? 0xA0 then b0 =? 0xE0 else b0 =? 0xED)
            then
              match r1 with
              | b2 :: r2 =>
                  if (b0 =? 0xED) && cont b1 && cont b2
                  then push ((b0 - 0xE0) * 4096 + (b1 - 0x80) * 64
                             + (b2 - 0x80))
                            (decode_utf8 (pos + 3) r2)
                  else invalid_continuation 1
              | [] => invalid_continuation 1
              end
            else
              match r1 with
              | [] => unexpected_end
              | b2 :: r2 =>
                  if cont b2
                  then push ((b0 - 0xE0) * 4096 + (b1 - 0x80) * 64
                             + (b2 - 0x80))
                            (decode_utf8 (pos + 3) r2)
                  else invalid_continuation 2
              end
        end
      else if b0 <? 0xF5 then
        match r with
        | [] => unexpected_end
        | b1 :: r1 =>
            if negb (cont b1)
               || (if b1 <? 0x90 then b0 =? 0xF0 else b0 =? 0xF4)
            then invalid_continuation 1
            else
              match r1 with
              | [] => unexpected_end
              | b2 :: r2 =>
                  if negb (cont b2) then invalid_continuation 2
                  else
                    match r2 with
                    | [] => unexpected_end
                    | b3 :: r3 =>
                        if cont b3
                        then push ((b0 - 0xF0) * 262144 + (b1 - 0x80) * 4096
                                   + (b2 - 0x80) * 64 + (b3 - 0x80))
                                  (decode_utf8 (pos + 4) r3)
                        else invalid_continuation 3
                    end
              end
        end
      else invalid_start
  end.

(** The 16-bit units of the body. *)
Fixpoint units16 (big_endian : bool) (pos : Z) (b : list Z)
  : undecodable + list Z :=
  match b with
  | [] => inr []
  | x :: y :: r =>
      push (if big_endian then x * 256 + y else y * 256 + x)
           (units16 big_endian (pos + 2) r)
  | _ => inl (pos, pos + 1, "truncated data")
  end.

Fixpoint pair_surrogates (u : list Z) : list Z :=
  match u with
  | [] => []
  | h :: r =>
      match r with
      | l :: r' =>
          if between 0xD800 h 0xDBFF && between 0xDC00 l 0xDFFF
          then 0x10000 + (h - 0xD800) * 1024 + (l - 0xDC00) :: pair_surrogates r'
          else h :: pair_surrogates r
      | [] => [h]
      end
  end.

Definition decode_utf16 (big_endian : bool) (pos : Z) (b : list Z)
  : undecodable + list Z :=
  match units16 big_endian pos b with
  | inr u => inr (pair_surrogates u)
  | inl e => inl e
  end.

Fixpoint decode_utf32 (big_endian : bool) (pos : Z) (b : list Z)
  : undecodable + list Z :=
  match b with
  | [] => inr []
  | x :: y :: z :: t :: r =>
      let c := if big_endian then ((x * 256 + y) * 256 + z) * 256 + t
               else ((t * 256 + z) * 256 + y) * 256 + x in
      if c <=? 0x10FFFF then push c (decode_utf32 big_endian (pos + 4) r)
      else inl (pos, pos + 4, "code point not in range(0x110000)")
  | _ => inl (pos, pos + Z.of_nat (List.length b), "truncated data")
  end.

(** [str(error)] for the [UnicodeDecodeError] of [codec] on the bytes
    [b]. *)
Definition cannot_decode (codec : string) (b : list Z) (e : undecodable)
  : string :=
  let '(start, stop, reason) := e in
  "'" ++ codec ++ "' codec can't decode "
  ++ (if stop - start =? 1
      then "byte 0x" ++ hex [nth (Z.to_nat start) b 0]
           ++ " in position " ++ dec start
      else "bytes in position " ++ dec start ++ "-" ++ dec (stop - 1))
  ++ ": " ++ reason.

(** [body.decode(detect_encoding(body), 'surrogatepass')]: the code points
    of the text, or the text of the [UnicodeDecodeError]. *)
Definition decode (b : list Z) : string + list Z :=
  let with_codec (codec : string) (input : list Z) (r : undecodable + list Z) :=
    match r with
    | inr s => inr s
    | inl e => inl (cannot_decode codec input e)
    end in
  let utf16 (big_endian : bool) (pos : Z) (input : list Z) :=
    with_codec (if big_endian then "utf-16-be" else "utf-16-le") b
       (decode_utf16 big_endian pos input) in
  let utf32 (big_endian : bool) (pos : Z) (input : list Z) :=
    with_codec (if big_endian then "utf-32-be" else "utf-32-le") b
       (decode_utf32 big_endian pos input) in
  match detect_encoding b with
  | utf_8 => with_codec "utf-8" b (decode_utf8 0 b)
  | utf_8_sig => with_codec "utf-8" (skipn 3 b) (decode_utf8 0 (skipn 3 b))
  | utf_16 => utf16 (startswith b [0xFE; 0xFF]) 2 (skipn 2 b)
  | utf_16_be => utf16 true 0 b
  | utf_16_le => utf16 false 0 b
  | utf_32 => utf32 (startswith b [0x00; 0x00; 0xFE; 0xFF]) 4 (skipn 4 b)
  | utf_32_be => utf32 true 0 b
  | utf_32_le => utf32 false 0 b
  end.

(** The UTF-8 encoding of a code point (a surrogate is encoded like any
    other three-byte code point). *)
Definition chr (n : Z) : ascii := ascii_of_nat (Z.to_nat n).

Fixpoint encode_utf8 (cs : list Z) : string :=
  match cs with
  | [] => EmptyString
  | c :: r =>
      let rest := encode_utf8 r in
      if c <? 0x80 then String (chr c) rest
      else if c <? 0x800 then
        String (chr (0xC0 + c / 64)) (String (chr (0x80 + c mod 64)) rest)
      else if c <? 0x10000 then
        String (chr (0xE0 + c / 4096))
          (String (chr (0x80 + (c / 64) mod 64))
             (String (chr (0x80 + c mod 64)) rest))
      else
        String (chr (0xF0 + c / 262144))
          (String (chr (0x80 + (c / 4096) mod 64))
             (String (chr (0x80 + (c / 64) mod 64))
                (String (chr (0x80 + c mod 64)) rest)))
  end.

(** *** The JSON scanner, on code points *)

Fixpoint skip_ws (s : list Z) : list Z :=
  match s with
  | c :: r =>
      if (c =? 32) || (c =? 9) || (c =? 10) || (c =? 13) then skip_ws r else s
  | [] => []
  end.

Definition hex_value (c : Z) : option Z :=
  if between 48 c 57 then Some (c - 48)
  else if between 97 c 102 then Some (c - 87)
  else if between 65 c 70 then Some (c - 55)
  else None.

Definition hex4 (a b c d : Z) : option Z :=
  match hex_value a, hex_value b, hex_value c, hex_value d with
  | Some x, Some y, Some z, Some t => Some (((x * 16 + y) * 16 + z) * 16 + t)
  | _, _, _, _ => None
  end.

Definition simple_escape (c : Z) : option Z :=
  if c =? 34 then Some 34            (* quote *)
  else if c =? 92 then Some 92       (* backslash *)
  else if c =? 47 then Some 47       (* slash *)
  else if c =? 98 then Some 8        (* b: backspace *)
  else if c =? 102 then Some 12      (* f: form feed *)
  else if c =? 110 then Some 10      (* n: line feed *)
  else if c =? 114 then Some 13      (* r: carriage return *)
  else if c =? 116 then Some 9       (* t: tab *)
  else None.

(** What the scanner rejects: the message of the [JSONDecodeError] and the
    text from the place it names on. *)
Definition rejected : Type := (string * list Z)%type.

Definition push_char {A : Type} (c : Z) (r : rejected + list Z * A)
  : rejected + list Z * A :=
  match r with
  | inr (l, rest) => inr (c :: l, rest)
  | inl e => inl e
  end.

(** The characters of a string literal after its opening quote, and what
    follows the closing quote; [begin] is the text from the opening quote
    on.  An escape of four hexadecimal digits must be followed by one more
    character at least; a high surrogate is joined to the escape of a low
    surrogate that follows it, if that one is followed by one more
    character at least. *)
Fixpoint scanstring (begin s : list Z) : rejected + list Z * list Z :=
  match s with
  | [] => inl ("Unterminated string starting at", begin)
  | c :: r =>
      if c =? 34 then inr ([], r)
      else if c =? 92 then
        match r with
        | [] => inl ("Unterminated string starting at", begin)
        | e :: r1 =>
            if e =? 117 then
              match r1 with
              | h1 :: h2 :: h3 :: h4 :: ((_ :: _) as r2) =>
                  match hex4 h1 h2 h3 h4 with
                  | None => inl ("Invalid \uXXXX escape", r)
                  | Some uni =>
                      match r2 with
                      | b :: ((u :: l1 :: l2 :: l3 :: l4 :: ((_ :: _) as r3))
                              as at_u) =>
                          if between 0xD800 uni 0xDBFF && (b =? 92)
                             && (u =? 117)
                          then
                            match hex4 l1 l2 l3 l4 with
                            | None => inl ("Invalid \uXXXX escape", at_u)
                            | Some uni2 =>
                                if between 0xDC00 uni2 0xDFFF
                                then push_char
                                       (0x10000 + (uni - 0xD800) * 1024
                                        + (uni2 - 0xDC00))
                                       (scanstring begin r3)
                                else push_char uni (scanstring begin r2)
                            end
                          else push_char uni (scanstring begin r2)
                      | _ => push_char uni (scanstring begin r2)
                      end
                  end
              | _ => inl ("Invalid \uXXXX escape", r)
              end
            else
              match simple_escape e with
              | Some x => push_char x (scanstring begin r1)
              | None => inl ("Invalid \escape", s)
              end
        end
      else if c <? 32 then inl ("Invalid control character at", s)
      else push_char c (scanstring begin r)
  end.

Fixpoint digits (s : list Z) : list Z * list Z :=
  match s with
  | c :: r =>
      if between 48 c 57 then let (ds, rest) := digits r in (c - 48 :: ds, rest)
      else ([], s)
  | [] => ([], [])
  end.

Definition number_of (ds : list Z) : Z :=
  fold_left (fun acc d => acc * 10 + d) ds 0.

(** The binary64 nearest to [D * 10^k] (ties to even), [nd] being the
    number of digits of [D]. *)
Definition float_of_decimal (neg : bool) (D k : Z) (nd : Z) : pyfloat :=
  if D =? 0 then FFin neg 0 0
  else if 310 <? k then FInf neg
  else if nd + k <? -330 then FFin neg 0 0
  else
    let num := if 0 <=? k then D * 10 ^ k else D in
    let den := if 0 <=? k then 1 else 10 ^ (- k) in
    let L := Z.log2 num - Z.log2 den in
    let above := if 0 <=? L then den * 2 ^ L <=? num
                 else den <=? num * 2 ^ (- L) in
    let e := Z.max ((if above then L else L - 1) - 52) (-1074) in
    let n := if 0 <=? e then num else num * 2 ^ (- e) in
    let d := if 0 <=? e then den * 2 ^ e else den in
    let q := n / d in
    let r := n mod d in
    let q := if (d <? 2 * r) || ((d =? 2 * r) && Z.odd q) then q + 1 else q in
    let e := if q =? 2 ^ 53 then e + 1 else e in
    let q := if q =? 2 ^ 53 then 2 ^ 52 else q in
    if q =? 0 then FFin neg 0 0
    else if 971 <? e then FInf neg
    else FFin neg (Z.to_N q) e.

(** A number at the head of [s]: an optional minus; a zero, or a nonzero
    digit and more digits; then a point and digits, if there is at least
    one digit; then [e] or [E], an optional sign and digits, again only
    with at least one digit.  Without fraction and exponent the number is
    an [int], else a [float]. *)
Definition match_number (s : list Z) : option (value * list Z) :=
  let (neg, s1) := match s with
                   | 45 :: r => (true, r)
                   | _ => (false, s)
                   end in
  let int_part :=
    match s1 with
    | c :: r => if c =? 48 then Some ([0], r)
                else if between 49 c 57 then Some (digits s1)
                else None
    | [] => None
    end in
  match int_part with
  | None => None
  | Some (ip, r) =>
      let (frac, r1) :=
        match r with
        | 46 :: rf => let (fs, rest) := digits rf in
                      if is_nil fs then ([], r) else (fs, rest)
        | _ => ([], r)
        end in
      let '(has_exp, ex, r2) :=
        match r1 with
        | c :: re =>
            if (c =? 101) || (c =? 69) then
              let '(eneg, rd) := match re with
                                 | 45 :: x => (true, x)
                                 | 43 :: x => (false, x)
                                 | _ => (false, re)
                                 end in
              let (es, rest) := digits rd in
              if is_nil es then (false, 0, r1)
              else (true, if eneg then - number_of es else number_of es, rest)
            else (false, 0, r1)
        | [] => (false, 0, r1)
        end in
      if is_nil frac && negb has_exp
      then Some (VInt (if neg then - number_of ip else number_of ip), r2)
      else Some (VFloat (float_of_decimal neg (number_of (ip ++ frac))
                           (ex - Z.of_nat (List.length frac))
                           (Z.of_nat (List.length (ip ++ frac)))), r2)
  end.

(** [d[k] = v] *)
Fixpoint dict_set (k : string) (v : value) (d : list (string * value))
  : list (string * value) :=
  match d with
  | [] => [(k, v)]
  | (k', v') :: r => if (k' =? k)%string then (k', v) :: r
                     else (k', v') :: dict_set k v r
  end.

Definition literal (name : string) : list Z :=
  map byte_Z (list_byte_of_string name).

(** [scan_once]: the value at the head of [s] and the text after it;
    [members] and [elements] read what follows the opening bracket of a
    non-empty object or array. *)
Fixpoint scan_once (fuel : nat) (s : list Z) : rejected + value * list Z :=
  match fuel with
  | O => inl ("Expecting value", s)
  | S n =>
      match s with
      | [] => inl ("Expecting value", s)
      | c :: r =>
          if c =? 34 then
            match scanstring s r with
            | inr (cs, rest) => inr (VStr (encode_utf8 cs), rest)
            | inl e => inl e
            end
          else if c =? 123 then
            match skip_ws r with
            | 125 :: rest => inr (VDict [], rest)
            | r' => members n [] r'
            end
          else if c =? 91 then
            match skip_ws r with
            | 93 :: rest => inr (VList [], rest)
            | r' => elements n [] r'
            end
          else if startswith s (literal "null") then inr (VNone, skipn 4 s)
          else if startswith s (literal "true") then
            inr (VBool true, skipn 4 s)
          else if startswith s (literal "false") then
            inr (VBool false, skipn 5 s)
          else if startswith s (literal "NaN") then
            inr (VFloat FNaN, skipn 3 s)
          else if startswith s (literal "Infinity") then
            inr (VFloat (FInf false), skipn 8 s)
          else if startswith s (literal "-Infinity") then
            inr (VFloat (FInf true), skipn 9 s)
          else
            match match_number s with
            | Some found => inr found
            | None => inl ("Expecting value", s)
            end
      end
  end
with members (fuel : nat) (acc : list (string * value)) (s : list Z)
  : rejected + value * list Z :=
  match fuel with
  | O => inl ("Expecting value", s)
  | S n =>
      match s with
      | 34 :: r =>
          match scanstring s r with
          | inr (cs, r1) =>
              match skip_ws r1 with
              | 58 :: r2 =>
                  match scan_once n (skip_ws r2) with
                  | inr (v, r3) =>
                      let acc := dict_set (encode_utf8 cs) v acc in
                      match skip_ws r3 with
                      | 125 :: rest => inr (VDict acc, rest)
                      | 44 :: r4 => members n acc (skip_ws r4)
                      | at_delimiter =>
                          inl ("Expecting ',' delimiter", at_delimiter)
                      end
                  | inl e => inl e
                  end
              | at_colon => inl ("Expecting ':' delimiter", at_colon)
              end
          | inl e => inl e
          end
      | _ =>
          inl ("Expecting property name enclosed in double quotes", s)
      end
  end
with elements (fuel : nat) (acc : list value) (s : list Z)
  : rejected + value * list Z :=
  match fuel with
  | O => inl ("Expecting value", s)
  | S n =>
      match scan_once n s with
      | inr (v, r1) =>
          match skip_ws r1 with
          | 93 :: rest => inr (VList (acc ++ [v]), rest)
          | 44 :: r2 => elements n (acc ++ [v]) (skip_ws r2)
          | at_delimiter => inl ("Expecting ',' delimiter", at_delimiter)
          end
      | inl e => inl e
      end
  end.

(** The characters of the line that [s] ends in. *)
Fixpoint last_line (s line : list Z) : list Z :=
  match s with
  | [] => line
  | c :: r => if c =? 10 then last_line r [] else last_line r (line ++ [c])
  end.

(** [str(error)] for the [JSONDecodeError] that the scanner raises on the
    text [doc]: the message, then the line, the column and the index of
    the place it names. *)
Definition cannot_scan (doc : list Z) (e : rejected) : string :=
  let (msg, rest) := e in
  let pos := (List.length doc - List.length rest)%nat in
  let before := firstn pos doc in
  let lineno := S (List.length (filter (Z.eqb 10) before)) in
  let colno := S (List.length (last_line before [])) in
  msg ++ ": line " ++ dec (Z.of_nat lineno)
      ++ " column " ++ dec (Z.of_nat colno)
      ++ " (char " ++ dec (Z.of_nat pos) ++ ")".

(** [json.loads(body)] *)
Definition loads (body : list byte) : result value :=
  match decode (map byte_Z body) with
  | inl msg => inl (UnicodeDecodeError msg)
  | inr s =>
      match scan_once (2 * List.length s + 2) (skip_ws s) with
      | inr (v, rest) =>
          match skip_ws rest with
          | [] => inr v
          | extra => inl (JSONDecodeError (cannot_scan s ("Extra data", extra)))
          end
      | inl e => inl (JSONDecodeError (cannot_scan s e))
      end
  end.

(** *** The text of a value: [repr]

    [str] of a list or of a dict is its [repr], which shows every item by
    its [repr]; [str] of a float is its [repr] too. *)

(** The code points of a [str]. *)
Definition code_points (s : string) : list Z :=
  let bytes := map byte_Z (list_byte_of_string s) in
  match decode_utf8 0 bytes with
  | inr cs => cs
  | inl _ => bytes
  end.

(** The code points from U+007F on that [str.isprintable] turns down
    (Unicode 14.0: the categories Other and Separator), as ranges. *)
Definition unprintable : list (Z * Z) :=
  [(127, 160); (173, 173); (888, 889); (896, 899); (907, 907); (909, 909);
   (930, 930); (1328, 1328); (1367, 1368); (1419, 1420); (1424, 1424);
   (1480, 1487); (1515, 1518); (1525, 1541); (1564, 1564); (1757, 1757);
   (1806, 1807); (1867, 1868); (1970, 1983); (2043, 2044); (2094, 2095);
   (2111, 2111); (2140, 2141); (2143, 2143); (2155, 2159); (2191, 2199);
   (2274, 2274); (2436, 2436); (2445, 2446); (2449, 2450); (2473, 2473);
   (2481, 2481); (2483, 2485); (2490, 2491); (2501, 2502); (2505, 2506);
   (2511, 2518); (2520, 2523); (2526, 2526); (2532, 2533); (2559, 2560);
   (2564, 2564); (2571, 2574); (2577, 2578); (2601, 2601); (2609, 2609);
   (2612, 2612); (2615, 2615); (2618, 2619); (2621, 2621); (2627, 2630);
   (2633, 2634); (2638, 2640); (2642, 2648); (2653, 2653); (2655, 2661);
   (2679, 2688); (2692, 2692); (2702, 2702); (2706, 2706); (2729, 2729);
   (2737, 2737); (2740, 2740); (2746, 2747); (2758, 2758); (2762, 2762);
   (2766, 2767); (2769, 2783); (2788, 2789); (2802, 2808); (2816, 2816);
   (2820, 2820); (2829, 2830); (2833, 2834); (2857, 2857); (2865, 2865);
   (2868, 2868); (2874, 2875); (2885, 2886); (2889, 2890); (2894, 2900);
   (2904, 2907); (2910, 2910); (2916, 2917); (2936, 2945); (2948, 2948);
   (2955, 2957); (2961, 2961); (2966, 2968); (2971, 2971); (2973, 2973);
   (2976, 2978); (2981, 2983); (2987, 2989); (3002, 3005); (3011, 3013);
   (3017, 3017); (3022, 3023); (3025, 3030); (3032, 3045); (3067, 3071);
   (3085, 3085); (3089, 3089); (3113, 3113); (3130, 3131); (3141, 3141);
   (3145, 3145); (3150, 3156); (3159, 3159); (3163, 3164); (3166, 3167);
   (3172, 3173); (3184, 3190); (3213, 3213); (3217, 3217); (3241, 3241);
   (3252, 3252); (3258, 3259); (3269, 3269); (3273, 3273); (3278, 3284);
   (3287, 3292); (3295, 3295); (3300, 3301); (3312, 3312); (3315, 3327);
   (3341, 3341); (3345, 3345); (3397, 3397); (3401, 3401); (3408, 3411);
   (3428, 3429); (3456, 3456); (3460, 3460); (3479, 3481); (3506, 3506);
   (3516, 3516); (3518, 3519); (3527, 3529); (3531, 3534); (3541, 3541);
   (3543, 3543); (3552, 3557); (3568, 3569); (3573, 3584); (3643, 3646);
   (3676, 3712); (3715, 3715); (3717, 3717); (3723, 3723); (3748, 3748);
   (3750, 3750); (3774, 3775); (3781, 3781); (3783, 3783); (3790, 3791);
   (3802, 3803); (3808, 3839); (3912, 3912); (3949, 3952); (3992, 3992);
   (4029, 4029); (4045, 4045); (4059, 4095); (4294, 4294); (4296, 4300);
   (4302, 4303); (4681, 4681); (4686, 4687); (4695, 4695); (4697, 4697);
   (4702, 4703); (4745, 4745); (4750, 4751); (4785, 4785); (4790, 4791);
   (4799, 4799); (4801, 4801); (4806, 4807); (4823, 4823); (4881, 4881);
   (4886, 4887); (4955, 4956); (4989, 4991); (5018, 5023); (5110, 5111);
   (5118, 5119); (5760, 5760); (5789, 5791); (5881, 5887); (5910, 5918);
   (5943, 5951); (5972, 5983); (5997, 5997); (6001, 6001); (6004, 6015);
   (6110, 6111); (6122, 6127); (6138, 6143); (6158, 6158); (6170, 6175);
   (6265, 6271); (6315, 6319); (6390, 6399); (6431, 6431); (6444, 6447);
   (6460, 6463); (6465, 6467); (6510, 6511); (6517, 6527); (6572, 6575);
   (6602, 6607); (6619, 6621); (6684, 6685); (6751, 6751); (6781, 6782);
   (6794, 6799); (6810, 6815); (6830, 6831); (6863, 6911); (6989, 6991);
   (7039, 7039); (7156, 7163); (7224, 7226); (7242, 7244); (7305, 7311);
   (7355, 7356); (7368, 7375); (7419, 7423); (7958, 7959); (7966, 7967);
   (8006, 8007); (8014, 8015); (8024, 8024); (8026, 8026); (8028, 8028);
   (8030, 8030); (8062, 8063); (8117, 8117); (8133, 8133); (8148, 8149);
   (8156, 8156); (8176, 8177); (8181, 8181); (8191, 8207); (8232, 8239);
   (8287, 8303); (8306, 8307); (8335, 8335); (8349, 8351); (8385, 8399);
   (8433, 8447); (8588, 8591); (9255, 9279); (9291, 9311); (11124, 11125);
   (11158, 11158); (11508, 11512); (11558, 11558); (11560, 11564);
   (11566, 11567); (11624, 11630); (11633, 11646); (11671, 11679);
   (11687, 11687); (11695, 11695); (11703, 11703); (11711, 11711);
   (11719, 11719); (11727, 11727); (11735, 11735); (11743, 11743);
   (11870, 11903); (11930, 11930); (12020, 12031); (12246, 12271);
   (12284, 12288); (12352, 12352); (12439, 12440); (12544, 12548);
   (12592, 12592); (12687, 12687); (12772, 12783); (12831, 12831);
   (42125, 42127); (42183, 42191); (42540, 42559); (42744, 42751);
   (42955, 42959); (42962, 42962); (42964, 42964); (42970, 42993);
   (43053, 43055); (43066, 43071); (43128, 43135); (43206, 43213);
   (43226, 43231); (43348, 43358); (43389, 43391); (43470, 43470);
   (43482, 43485); (43519, 43519); (43575, 43583); (43598, 43599);
   (43610, 43611); (43715, 43738); (43767, 43776); (43783, 43784);
   (43791, 43792); (43799, 43807); (43815, 43815); (43823, 43823);
   (43884, 43887); (44014, 44015); (44026, 44031); (55204, 55215);
   (55239, 55242); (55292, 63743); (64110, 64111); (64218, 64255);
   (64263, 64274); (64280, 64284); (64311, 64311); (64317, 64317);
   (64319, 64319); (64322, 64322); (64325, 64325); (64451, 64466);
   (64912, 64913); (64968, 64974); (64976, 65007); (65050, 65055);
   (65107, 65107); (65127, 65127); (65132, 65135); (65141, 65141);
   (65277, 65280); (65471, 65473); (65480, 65481); (65488, 65489);
   (65496, 65497); (65501, 65503); (65511, 65511); (65519, 65531);
   (65534, 65535); (65548, 65548); (65575, 65575); (65595, 65595);
   (65598, 65598); (65614, 65615); (65630, 65663); (65787, 65791);
   (65795, 65798); (65844, 65846); (65935, 65935); (65949, 65951);
   (65953, 65999); (66046, 66175); (66205, 66207); (66257, 66271);
   (66300, 66303); (66340, 66348); (66379, 66383); (66427, 66431);
   (66462, 66462); (66500, 66503); (66518, 66559); (66718, 66719);
   (66730, 66735); (66772, 66775); (66812, 66815); (66856, 66863);
   (66916, 66926); (66939, 66939); (66955, 66955); (66963, 66963);
   (66966, 66966); (66978, 66978); (66994, 66994); (67002, 67002);
   (67005, 67071); (67383, 67391); (67414, 67423); (67432, 67455);
   (67462, 67462); (67505, 67505); (67515, 67583); (67590, 67591);
   (67593, 67593); (67638, 67638); (67641, 67643); (67645, 67646);
   (67670, 67670); (67743, 67750); (67760, 67807); (67827, 67827);
   (67830, 67834); (67868, 67870); (67898, 67902); (67904, 67967);
   (68024, 68027); (68048, 68049); (68100, 68100); (68103, 68107);
   (68116, 68116); (68120, 68120); (68150, 68151); (68155, 68158);
   (68169, 68175); (68185, 68191); (68256, 68287); (68327, 68330);
   (68343, 68351); (68406, 68408); (68438, 68439); (68467, 68471);
   (68498, 68504); (68509, 68520); (68528, 68607); (68681, 68735);
   (68787, 68799); (68851, 68857); (68904, 68911); (68922, 69215);
   (69247, 69247); (69290, 69290); (69294, 69295); (69298, 69375);
   (69416, 69423); (69466, 69487); (69514, 69551); (69580, 69599);
   (69623, 69631); (69710, 69713); (69750, 69758); (69821, 69821);
   (69827, 69839); (69865, 69871); (69882, 69887); (69941, 69941);
   (69960, 69967); (70007, 70015); (70112, 70112); (70133, 70143);
   (70162, 70162); (70207, 70271); (70279, 70279); (70281, 70281);
   (70286, 70286); (70302, 70302); (70314, 70319); (70379, 70383);
   (70394, 70399); (70404, 70404); (70413, 70414); (70417, 70418);
   (70441, 70441); (70449, 70449); (70452, 70452); (70458, 70458);
   (70469, 70470); (70473, 70474); (70478, 70479); (70481, 70486);
   (70488, 70492); (70500, 70501); (70509, 70511); (70517, 70655);
   (70748, 70748); (70754, 70783); (70856, 70863); (70874, 71039);
   (71094, 71095); (71134, 71167); (71237, 71247); (71258, 71263);
   (71277, 71295); (71354, 71359); (71370, 71423); (71451, 71452);
   (71468, 71471); (71495, 71679); (71740, 71839); (71923, 71934);
   (71943, 71944); (71946, 71947); (71956, 71956); (71959, 71959);
   (71990, 71990); (71993, 71994); (72007, 72015); (72026, 72095);
   (72104, 72105); (72152, 72153); (72165, 72191); (72264, 72271);
   (72355, 72367); (72441, 72703); (72713, 72713); (72759, 72759);
   (72774, 72783); (72813, 72815); (72848, 72849); (72872, 72872);
   (72887, 72959); (72967, 72967); (72970, 72970); (73015, 73017);
   (73019, 73019); (73022, 73022); (73032, 73039); (73050, 73055);
   (73062, 73062); (73065, 73065); (73103, 73103); (73106, 73106);
   (73113, 73119); (73130, 73439); (73465, 73647); (73649, 73663);
   (73714, 73726); (74650, 74751); (74863, 74863); (74869, 74879);
   (75076, 77711); (77811, 77823); (78895, 82943); (83527, 92159);
   (92729, 92735); (92767, 92767); (92778, 92781); (92863, 92863);
   (92874, 92879); (92910, 92911); (92918, 92927); (92998, 93007);
   (93018, 93018); (93026, 93026); (93048, 93052); (93072, 93759);
   (93851, 93951); (94027, 94030); (94088, 94094); (94112, 94175);
   (94181, 94191); (94194, 94207); (100344, 100351); (101590, 101631);
   (101641, 110575); (110580, 110580); (110588, 110588); (110591, 110591);
   (110883, 110927); (110931, 110947); (110952, 110959); (111356, 113663);
   (113771, 113775); (113789, 113791); (113801, 113807); (113818, 113819);
   (113824, 118527); (118574, 118575); (118599, 118607); (118724, 118783);
   (119030, 119039); (119079, 119080); (119155, 119162); (119275, 119295);
   (119366, 119519); (119540, 119551); (119639, 119647); (119673, 119807);
   (119893, 119893); (119965, 119965); (119968, 119969); (119971, 119972);
   (119975, 119976); (119981, 119981); (119994, 119994); (119996, 119996);
   (120004, 120004); (120070, 120070); (120075, 120076); (120085, 120085);
   (120093, 120093); (120122, 120122); (120127, 120127); (120133, 120133);
   (120135, 120137); (120145, 120145); (120486, 120487); (120780, 120781);
   (121484, 121498); (121504, 121504); (121520, 122623); (122655, 122879);
   (122887, 122887); (122905, 122906); (122914, 122914); (122917, 122917);
   (122923, 123135); (123181, 123183); (123198, 123199); (123210, 123213);
   (123216, 123535); (123567, 123583); (123642, 123646); (123648, 124895);
   (124903, 124903); (124908, 124908); (124911, 124911); (124927, 124927);
   (125125, 125126); (125143, 125183); (125260, 125263); (125274, 125277);
   (125280, 126064); (126133, 126208); (126270, 126463); (126468, 126468);
   (126496, 126496); (126499, 126499); (126501, 126502); (126504, 126504);
   (126515, 126515); (126520, 126520); (126522, 126522); (126524, 126529);
   (126531, 126534); (126536, 126536); (126538, 126538); (126540, 126540);
   (126544, 126544); (126547, 126547); (126549, 126550); (126552, 126552);
   (126554, 126554); (126556, 126556); (126558, 126558); (126560, 126560);
   (126563, 126563); (126565, 126566); (126571, 126571); (126579, 126579);
   (126584, 126584); (126589, 126589); (126591, 126591); (126602, 126602);
   (126620, 126624); (126628, 126628); (126634, 126634); (126652, 126703);
   (126706, 126975); (127020, 127023); (127124, 127135); (127151, 127152);
   (127168, 127168); (127184, 127184); (127222, 127231); (127406, 127461);
   (127491, 127503); (127548, 127551); (127561, 127567); (127570, 127583);
   (127590, 127743); (128728, 128732); (128749, 128751); (128765, 128767);
   (128884, 128895); (128985, 128991); (129004, 129007); (129009, 129023);
   (129036, 129039); (129096, 129103); (129114, 129119); (129160, 129167);
   (129198, 129199); (129202, 129279); (129620, 129631); (129646, 129647);
   (129653, 129655); (129661, 129663); (129671, 129679); (129709, 129711);
   (129723, 129727); (129734, 129743); (129754, 129759); (129768, 129775);
   (129783, 129791); (129939, 129939); (129995, 130031); (130042, 131071);
   (173792, 173823); (177977, 177983); (178206, 178207); (183970, 183983);
   (191457, 194559); (195102, 196607); (201547, 917759); (918000, 1114111)].

Definition printable (c : Z) : bool :=
  negb (existsb (fun r => between (fst r) c (snd r)) unprintable).

(** [n] hexadecimal digits of [c], most significant first. *)
Fixpoint hex_digits (n : nat) (c : Z) : list Z :=
  match n with
  | O => []
  | S k =>
      Z.of_nat (nat_of_ascii (hex_digit ((c / 16 ^ Z.of_nat k) mod 16)))
      :: hex_digits k c
  end.

(** The text of one character inside the quotes [quote]. *)
Definition repr_char (quote c : Z) : list Z :=
  if (c =? quote) || (c =? 92) then [92; c]
  else if c =? 9 then [92; 116]
  else if c =? 10 then [92; 110]
  else if c =? 13 then [92; 114]
  else if (c <? 32) || (c =? 127) then [92; 120] ++ hex_digits 2 c
  else if c <? 127 then [c]
  else if printable c then [c]
  else if c <=? 0xFF then [92; 120] ++ hex_digits 2 c
  else if c <=? 0xFFFF then [92; 117] ++ hex_digits 4 c
  else [92; 85] ++ hex_digits 8 c.

(** [repr(s)] for a [str]: in apostrophes, unless it holds an apostrophe
    and no double quote. *)
Definition repr_str (s : string) : string :=
  let cs := code_points s in
  let quote := if existsb (Z.eqb 39) cs && negb (existsb (Z.eqb 34) cs)
               then 34 else 39 in
  encode_utf8 ([quote] ++ flat_map (repr_char quote) cs ++ [quote]).

(** The binary64 [m * 2^e], with [m] of 53 bits when [e] allows. *)
Fixpoint normalized (fuel : nat) (m e : Z) : Z * Z :=
  match fuel with
  | O => (m, e)
  | S n =>
      if (m <? 2 ^ 52) && (-1074 <? e) then normalized n (2 * m) (e - 1)
      else if (2 ^ 53 <=? m) && Z.even m then normalized n (m / 2) (e + 1)
      else (m, e)
  end.

(** The least [k], from [k] on, with [num / den < 10^k]; the search
    starts below the decimal logarithm, which the binary one bounds. *)
Fixpoint decimal_point (fuel : nat) (num den k : Z) : Z :=
  match fuel with
  | O => k
  | S n =>
      if (if 0 <=? k then num <? den * 10 ^ k else num * 10 ^ (- k) <? den)
      then k
      else decimal_point n num den (k + 1)
  end.

(** The shortest decimal [D * 10^k] that reads back as the float
    [m * 2^e], and the nearest to it among the shortest ones: trying one
    digit, then two, and so on from [n] digits. *)
Fixpoint shortest (fuel : nat) (m e num den point : Z) (n : Z) : Z * Z :=
  match fuel with
  | O => (m, e)
  | S fuel' =>
      let k := point - n in
      let N := if 0 <=? k then num else num * 10 ^ (- k) in
      let Dn := if 0 <=? k then den * 10 ^ k else den in
      let low := N / Dn in
      let high := low + 1 in
      let reads_back (D : Z) :=
        match float_of_decimal false D k n with
        | FFin _ m' e' => (Z.of_N m' =? m) && (e' =? e)
        | _ => false
        end in
      let nearer_low :=
        (2 * N <? (2 * low + 1) * Dn)
        || ((2 * N =? (2 * low + 1) * Dn) && Z.even low) in
      if reads_back low && (negb (reads_back high) || nearer_low)
      then (low, k)
      else if reads_back high then (high, k)
      else shortest fuel' m e num den point (n + 1)
  end.

Fixpoint strip_zeros (fuel : nat) (D k : Z) : Z * Z :=
  match fuel with
  | O => (D, k)
  | S n => if (D mod 10 =? 0) && negb (D =? 0) then strip_zeros n (D / 10) (k + 1)
           else (D, k)
  end.

Definition zeros (n : Z) : string :=
  string_of_list_ascii (repeat "0"%char (Z.to_nat n)).

(** [repr(f)] for a float: the shortest digits that read back, in
    positional notation when the decimal point falls within them or
    at most four places before or sixteen after their start, else with an
    exponent. *)
Definition repr_float (f : pyfloat) : string :=
  match f with
  | FNaN => "nan"
  | FInf neg => if neg then "-inf" else "inf"
  | FFin neg m e =>
      let sign := if neg then "-" else "" in
      if (m =? 0)%N then sign ++ "0.0"
      else
        let (m, e) := normalized 2200 (Z.of_N m) e in
        let num := if 0 <=? e then m * 2 ^ e else m in
        let den := if 0 <=? e then 1 else 2 ^ (- e) in
        let below := ((Z.log2 num - Z.log2 den - 1) * 30103) / 100000 - 1 in
        let point := decimal_point 8 num den below in
        let (D, k) := shortest 17 m e num den point 1 in
        let (D, k) := strip_zeros 20 D k in
        let digits := dec D in
        let n := Z.of_nat (String.length digits) in
        let point := n + k in
        if (point <=? -4) || (16 <? point) then
          let exponent := point - 1 in
          sign ++ substring 0 1 digits
               ++ (if n =? 1 then ""
                   else "." ++ substring 1 (String.length digits) digits)
               ++ "e" ++ (if exponent <? 0 then "-" else "+")
               ++ (if Z.abs exponent <? 10 then "0" else "")
               ++ dec (Z.abs exponent)
        else if point <=? 0 then
          sign ++ "0." ++ zeros (- point) ++ digits
        else if n <=? point then
          sign ++ digits ++ zeros (point - n) ++ ".0"
        else
          sign ++ substring 0 (Z.to_nat point) digits ++ "."
               ++ substring (Z.to_nat point) (String.length digits) digits
  end.

(** [', '.join(items)] *)
Fixpoint join (items : list string) : string :=
  match items with
  | [] => ""
  | [x] => x
  | x :: rest => x ++ ", " ++ join rest
  end.

(** [repr(v)] *)
Fixpoint repr (v : value) : string :=
  match v with
  | VNone => "None"
  | VBool b => if b then "True" else "False"
  | VInt n => dec n
  | VFloat f => repr_float f
  | VStr s => repr_str s
  | VList l => "[" ++ join (map repr l) ++ "]"
  | VDict d =>
      "{" ++ join (map (fun kv => (repr_str (fst kv) ++ ": "
                                   ++ repr (snd kv))%string) d)
          ++ "}"
  end.

(** [str(v)] for a value: a [str] is its own text, every other value has
    the text of its [repr]. *)
Definition str_value (v : value) : string :=
  match v with
  | VStr s => s
  | _ => repr v
  end.

(** [str(obj)].  A [KeyError] shows the [repr] of its key, an
    [AttributeError] and the decoding errors are worded as in [str_].  The
    wording of the other exceptions is not fixed by the sources at hand: an
    [UnboundLocalError] and the errors of [.one()] have the wording of
    CPython 3.11 and of SQLAlchemy 1.4, the error of a refused commit the
    text [database_error] of the database, and the errors that the model
    raises without a text have the empty text of an exception built
    without arguments.  An entity has the [__repr__] Flask-SQLAlchemy
    gives a model by default, its class and its primary key. *)
Definition text (database_error : string) (obj : object) : string :=
  match obj with
  | OValue v => str_value v
  | OError (KeyError key) => repr key
  | OError (AttributeError type_name attribute) =>
      "'" ++ type_name ++ "' object has no attribute '" ++ attribute ++ "'"
  | OError (UnicodeDecodeError msg) => msg
  | OError (JSONDecodeError msg) => msg
  | OError (UnboundLocalError name) =>
      "cannot access local variable '" ++ name
      ++ "' where it is not associated with a value"
  | OError SQLAlchemyError => database_error
  | OError NoResultFound => "No row was found when one was required"
  | OError MultipleResultsFound =>
      "Multiple rows were found when exactly one was required"
  | OError TypeError => ""
  | OError ValueError => ""
  | OIssue bug => "<Issue " ++ str_value (issue_number bug) ++ ">"
  | OEvent event => "<Event " ++ dec (event_id event) ++ ">"
  end.

#[global] Instance platform (secret database_error : string) : Platform := {
  json_loads := loads;
  hmac_sha1_hexdigest := hexdigest;
  HOOK_SECRET_KEY := secret;
  text := text database_error
}.

End Reference.

(** ** Sample data for concrete runs *)

Definition no_rows : Store := mkStore [] [] [] [].

(** A database with the rows [s], a fresh session, no commit that fails and
    an empty log. *)
Definition world_of (s : Store) : World := mkWorld s s [] [].

(** A text in which every apostrophe stands for a double quote, as bytes. *)
Definition quoted (s : string) : list byte :=
  map (fun c => if Ascii.eqb c "'" then byte_of_ascii (ascii_of_nat 34)
                else byte_of_ascii c)
      (list_ascii_of_string s).

(** The payload GitHub sends for an issue event, cut down to the fields the
    extractor reads; [milestone] is the issue's milestone object. *)
Definition issue_payload (action : string) (number : Z) (milestone : value)
  : value :=
  VDict [("action", VStr action);
         ("issue", VDict [("number", VInt number);
                          ("title", VStr "Site broken on load");
                          ("created_at", VStr "2018-05-15T01:00:00Z");
                          ("updated_at", VStr "2018-05-16T02:00:00Z");
                          ("milestone", milestone)]);
         ("sender", VDict [("login", VStr "alice")])].

(** The hook secret of the sample runs, and the platform configured with
    it; its database words a refused commit [database is locked]. *)
Definition secret : string := "s3cret".

Definition github : Platform :=
  Reference.platform secret "database is locked".

(** The request GitHub sends for [body]: the name of the event and the
    HMAC-SHA1 of the body under the hook secret. *)
Definition signed (category : string) (body : list byte) : Request :=
  mkRequest
    [("X-GitHub-Event", category);
     ("X-Hub-Signature",
      "sha1=" ++ Reference.hexdigest (list_byte_of_string secret) body)]
    body.

(** The body whose JSON value is [issue_payload]; [number] and [milestone]
    are JSON texts. *)
Definition issue_body (action number milestone : string) : list byte :=
  quoted ("{'action': '" ++ action ++ "', 'issue': {'number': " ++ number
          ++ ", 'title': 'Site broken on load'"
          ++ ", 'created_at': '2018-05-15T01:00:00Z'"
          ++ ", 'updated_at': '2018-05-16T02:00:00Z'"
          ++ ", 'milestone': " ++ milestone ++ "}"
          ++ ", 'sender': {'login': 'alice'}}").

(** The body of a label notification that renames [bug] to [defect]. *)
Definition rename_body : list byte :=
  quoted ("{'action': 'edited', 'changes': {'name': {'from': 'bug'}}"
          ++ ", 'label': {'name': 'defect'}}").

Definition rename_payload : value :=
  VDict [("action", VStr "edited");
         ("changes", VDict [("name", VDict [("from", VStr "bug")])]);
         ("label", VDict [("name", VStr "defect")])].

(** The stored row of the sample issue. *)
Definition the_issue (number : Z) (milestone : value) (is_open : bool)
  : Issue :=
  mkIssue (VInt number) (VStr "Site broken on load")
          (VStr "2018-05-15T01:00:00Z") milestone is_open [].

(** ** Vocabulary of the properties *)

Section Vocabulary.

Context `{Platform}.

(** [request] passes the hook validation, names the event [category] and
    carries the JSON object [payload] whose action is [action]. *)
Definition is_notification (category : string) (request : Request)
  (payload : value) (action : string) : Prop :=
  is_github_hook request = inr true
  /\ headers_get (headers request) "X-GitHub-Event" = Some category
  /\ json_loads (data request) = inr payload
  /\ dict_get payload "action" = inr (VStr action).

End Vocabulary.

(** The issues, labels and milestones of two stores are the same rows. *)
Definition same_entities (s s' : Store) : Prop :=
  issues s = issues s' /\ labels s = labels s'
  /\ milestones s = milestones s'.

Section TransitionVocabulary.

Context `{Platform}.

(** The transition the view applies to the extracted record: its chain of
    tests between the extraction and [add_new_event]. *)
Definition transition (info action : value) : M unit :=
  if eq_str action "opened" then add_new_issue info
  else if eq_str action "edited" then issue_title_edit info
  else if eq_str action (or_ "closed" "reopened") then
    issue_status_change info action
  else if eq_str action (or_ "milestoned" "unmilestoned") then
    issue_milestone_change info
  else if eq_str action (or_ "labeled" "unlabeled") then
    issue_label_change info
  else ret tt.

End TransitionVocabulary.

(** ** Vocabulary of the further properties *)

Section SignatureVocabulary.

Context `{Platform}.

(** The signature header GitHub computes for the body of [request]. *)
Definition expected_signature (request : Request) : string :=
  "sha1=" ++ get_payload_signature HOOK_SECRET_KEY (data request).

End SignatureVocabulary.

(** [m], run in a world that satisfies [P], ends in a world and with a
    result (a value or an exception) that satisfy [Q]. *)
Definition hoare {A : Type} (P : World -> Prop) (m : M A)
  (Q : result A -> World -> Prop) : Prop :=
  forall w, P w -> Q (fst (m w)) (snd (m w)).

(** [m] keeps [P], whether it returns or raises. *)
Definition preserves {A : Type} (P : World -> Prop) (m : M A) : Prop :=
  hoare P m (fun _ => P).

(** What identifies an issue: its number and the time it was created. *)
Definition identity (i : Issue) : value * value :=
  (issue_number i, issue_created_at i).

(** An update of an issue row that keeps its identity. *)
Definition keeps_identity (f : Issue -> result Issue) : Prop :=
  forall i i', f i = inr i' -> identity i' = identity i.

(** The store [s'] holds what [s] holds and possibly more: the same issues
    in the same order, up to their mutable columns, and the labels,
    milestones and events of [s] followed by new rows. *)
Definition extends (s s' : Store) : Prop :=
  map identity (issues s') = map identity (issues s)
  /\ (exists l, labels s' = labels s ++ l)%list
  /\ (exists l, milestones s' = milestones s ++ l)%list
  /\ (exists l, events s' = events s ++ l)%list.

(** Both the database and the unit of work extend [s]. *)
Definition within (s : Store) (w : World) : Prop :=
  extends s (session w) /\ extends s (committed w).

(** Neither the database nor the unit of work has another event log than
    [log0]. *)
Definition events_are (log0 : list Event) (w : World) : Prop :=
  events (session w) = log0 /\ events (committed w) = log0.

(** A property of worlds that the logger, the commit, the rollback, the
    update of an issue row and the insertion of a label or a milestone
    keep. *)
Record stable (P : World -> Prop) : Prop := mkStable {
  stable_log : forall msg, preserves P (logger_info msg);
  stable_commit : preserves P session_commit;
  stable_rollback : preserves P session_rollback;
  stable_update : forall ref attribute f,
      keeps_identity f -> preserves P (Issue_update ref attribute f);
  stable_add_label : forall name, preserves P (session_add_label name);
  stable_add_milestone :
    forall title, preserves P (session_add_milestone title)
}.

(** The outcome Flask turns into a 500: an exception, or no response. *)
Definition is_failure (r : result (option Response)) : Prop :=
  match r with
  | inr (Some _) => False
  | _ => True
  end.

(** The next commit is one the database accepts. *)
Definition commit_accepted (w : World) : Prop :=
  hd true (commit_outcomes w) = true.

(** The row [i] with another title, status or milestone. *)
Definition with_title (t : value) (i : Issue) : Issue :=
  mkIssue (issue_number i) t (issue_created_at i)
          (issue_milestone_id i) (issue_is_open i) (issue_labels i).

Definition with_status (b : bool) (i : Issue) : Issue :=
  mkIssue (issue_number i) (issue_title i) (issue_created_at i)
          (issue_milestone_id i) b (issue_labels i).

Definition with_milestone (m : value) (i : Issue) : Issue :=
  mkIssue (issue_number i) (issue_title i) (issue_created_at i)
          m (issue_is_open i) (issue_labels i).

(** The store [s] with other issues, or with one more label, milestone or
    event. *)
Definition with_issues (l : list Issue) (s : Store) : Store :=
  mkStore l (labels s) (milestones s) (events s).

(** The store [s] with its issue row [i] changed by [f]. *)
Definition with_issue (i : nat) (f : Issue -> Issue) (s : Store) : Store :=
  with_issues (update_nth i f (issues s)) s.

Definition with_label (l : Label) (s : Store) : Store :=
  mkStore (issues s) (labels s ++ [l]) (milestones s) (events s).

Definition with_milestone_row (m : Milestone) (s : Store) : Store :=
  mkStore (issues s) (labels s) (milestones s ++ [m]) (events s).

Definition with_event (e : Event) (s : Store) : Store :=
  mkStore (issues s) (labels s) (milestones s) (events s ++ [e]).

(** The event [e] records what the record [info] says. *)
Definition records (e : Event) (info : value) : Prop :=
  getitem info "issue_id" = inr (event_issue_id e)
  /\ getitem info "actor" = inr (event_actor e)
  /\ getitem info "action" = inr (event_action e)
  /\ getitem info "details" = inr (event_details e)
  /\ getitem info "received_at" = inr (event_received_at e).

(** The world after an accepted commit that leaves [s] in the database. *)
Definition after_commit (s : Store) (w : World) : World :=
  mkWorld s s (tl (commit_outcomes w)) (log w).

(** The row of the unit of work that [Issue.query.get(number)] returns. *)
Definition issue_at (number : value) (w : World) : option nat :=
  find_index (fun row => value_eqb (issue_number row) number)
             (issues (session w)).

(** The labels of the unit of work named [name]. *)
Definition labels_named (name : value) (w : World) : list Label :=
  filter (fun l => value_eqb (label_name l) name) (labels (session w)).

(** The row [i] with other label references. *)
Definition with_labels (ls : list Z) (i : Issue) : Issue :=
  mkIssue (issue_number i) (issue_title i) (issue_created_at i)
          (issue_milestone_id i) (issue_is_open i) ls.

(** [info] is the record of a label event on the issue [number]: its
    detail names the label [name], its action is [action]. *)
Definition label_event (info : value) (number name : value)
  (action : string) : Prop :=
  getitem info "issue_id" = inr number
  /\ getitem info "details" = inr (VDict [("label name", name)])
  /\ getitem info "action" = inr (VStr action).

(** What the transition of an [edited], a [closed] or a [labeled]
    notification does to the row of its issue, in the world [w] it runs
    in: [f] gives the row the title of the record [info], closes it, or
    adds to its label references the one label of that world that the
    record names. *)
Definition mutates (action : string) (info : value) (w : World)
  (f : Issue -> Issue) : Prop :=
  (action = "edited"
   /\ exists title, getitem info "title" = inr title /\ f = with_title title)
  \/ (action = "closed" /\ f = with_status false)
  \/ (action = "labeled"
      /\ exists name label,
           getitem info "details" = inr (VDict [("label name", name)])
           /\ labels_named name w = [label]
           /\ f = fun row =>
                    with_labels (issue_labels row ++ [label_id label])%list
                                row).

(** ** More sample data *)

(** The value of a computation that succeeds. *)
Definition the (r : result value) : value :=
  match r with
  | inr v => v
  | inl _ => VNone
  end.

(** The payload of a body, as the reference decoder reads it. *)
Definition decoded (body : list byte) : value := the (Reference.loads body).

(** The body of an issue notification that changes the title. *)
Definition edited_body : list byte :=
  quoted ("{'action': 'edited'"
          ++ ", 'changes': {'title': {'from': 'Site broken'}}"
          ++ ", 'issue': {'number': 42"
          ++ ", 'title': 'Site broken on load'"
          ++ ", 'created_at': '2018-05-15T01:00:00Z'"
          ++ ", 'updated_at': '2018-05-16T02:00:00Z'"
          ++ ", 'milestone': null}"
          ++ ", 'sender': {'login': 'alice'}}").

(** The body of an issue notification that adds the label [bug]. *)
Definition labeled_body : list byte :=
  quoted ("{'action': 'labeled'"
          ++ ", 'issue': {'number': 42"
          ++ ", 'title': 'Site broken on load'"
          ++ ", 'created_at': '2018-05-15T01:00:00Z'"
          ++ ", 'updated_at': '2018-05-16T02:00:00Z'"
          ++ ", 'milestone': null}"
          ++ ", 'label': {'name': 'bug'}"
          ++ ", 'sender': {'login': 'alice'}}").

(** The bodies of a label and of two milestone notifications. *)
Definition label_created_body : list byte :=
  quoted "{'action': 'created', 'label': {'name': 'bug'}}".

Definition milestone_created_body : list byte :=
  quoted "{'action': 'created', 'milestone': {'title': 'M1'}}".

Definition milestone_edited_body : list byte :=
  quoted ("{'action': 'edited', 'changes': {'title': {'from': 'M0'}}"
          ++ ", 'milestone': {'title': 'M1'}}").

(** A database that holds the sample issue 42 and nothing else. *)
Definition one_issue (is_open : bool) : Store :=
  mkStore [the_issue 42 VNone is_open] [] [] [].

(** * Properties *)

Section SignatureFacts.

Context `{Platform}.

Lemma split_nonempty (sep : ascii) (s : string) : split sep s <> [].
Proof.
  destruct s as [|c r]; simpl; [discriminate|].
  destruct (Ascii.eqb c sep); [discriminate|].
  destruct (split sep r); discriminate.
Qed.

(** Splitting at a separator that stands between two texts splits both. *)
Lemma split_app (sep : ascii) (a b : string) :
  split sep (a ++ String sep b) = (split sep a ++ split sep b)%list.
Proof.
  induction a as [|c a IH]; simpl.
  - rewrite Ascii.eqb_refl. reflexivity.
  - destruct (Ascii.eqb c sep).
    + rewrite IH. reflexivity.
    + rewrite IH. destruct (split sep a) eqn:E.
      * exfalso. exact (split_nonempty sep a E).
      * reflexivity.
Qed.

(** X1.  A header without the [sha1=] prefix is turned down without an
    exception. *)
Lemma signature_check_without_prefix (key post_signature : string)
  (payload : list byte) :
  prefix "sha1=" post_signature = false ->
  signature_check key post_signature payload = inr false.
Proof.
  intros E. unfold signature_check. rewrite E. reflexivity.
Qed.

(** C5.  [signature_check] does raise on a malformed header: when the text
    after [sha1=] holds a further [=], [post_signature.split('=')] has three
    parts or more and unpacking them into [sha_name, signature] is a
    [ValueError], whatever the key and the payload.  The header
    [sha1=a=b] is the instance [digest = "a"], [more = "b"]. *)
Theorem signature_check_raises_on_second_equals
  (key digest more : string) (payload : list byte) :
  signature_check key ("sha1=" ++ digest ++ String "=" more) payload
  = inl ValueError.
Proof.
  unfold signature_check.
  change ("sha1=" ++ digest ++ String "=" more)
    with (String "s" (String "h" (String "a" (String "1"
            (String "=" (digest ++ String "=" more)))))).
  cbn.
  replace (prefix "" (digest ++ String "=" more)) with true
    by (destruct (digest ++ String "=" more); reflexivity).
  rewrite split_app.
  destruct (split "=" digest) as [|x xs] eqn:Ea;
    [exfalso; exact (split_nonempty _ _ Ea)|].
  destruct (split "=" more) as [|y ys] eqn:Eb;
    [exfalso; exact (split_nonempty _ _ Eb)|].
  destruct xs; reflexivity.
Qed.

(** C10.  A request without an [X-Hub-Signature] header is not a GitHub
    hook, whatever its body and whether or not it names an event. *)
Theorem is_github_hook_without_signature (request : Request) :
  headers_get (headers request) "X-Hub-Signature" = None ->
  is_github_hook request = inr false.
Proof.
  intros E. unfold is_github_hook.
  destruct (headers_get (headers request) "X-GitHub-Event"); [|reflexivity].
  rewrite E. reflexivity.
Qed.

End SignatureFacts.

Section ExtractionFacts.

Context `{Platform}.

(** Case analysis on the next lookup the program makes. *)
Ltac step :=
  match goal with
  | |- context [getitem ?a ?k] => destruct (getitem a k) eqn:?
  | |- context [dict_get ?a ?k] => destruct (dict_get a k) eqn:?
  | |- context [truthy ?a] => destruct (truthy a) eqn:?
  end.

(** C6 (as amended).  The seven listed actions are desirable and
    [assigned], [unassigned] are not, whatever the changes; an [edited]
    action with a changes map is desirable exactly when the map binds
    [title] to a truthy value: a missing key, or a key bound to [None], an
    empty container, zero or [False], is not desirable. *)
Theorem is_desirable_issue_event_classes :
  Forall (fun action => forall changes w,
            is_desirable_issue_event (VStr action) changes w = (inr true, w))
         ["opened"; "closed"; "reopened"; "labeled"; "unlabeled";
          "milestoned"; "unmilestoned"]
  /\ Forall (fun action => forall changes w,
               is_desirable_issue_event (VStr action) changes w
               = (inr false, w))
            ["assigned"; "unassigned"]
  /\ (forall d w,
        is_desirable_issue_event (VStr "edited") (VDict d) w
        = (inr match assoc "title" d with
               | Some title => truthy title
               | None => false
               end, w)).
Proof.
  repeat split.
  - repeat constructor.
  - repeat constructor.
  - intros d w. unfold is_desirable_issue_event. cbn.
    destruct d as [|kv d]; cbn; [reflexivity|].
    unfold lift. destruct kv as [k v]. cbn.
    destruct (k =? "title")%string; cbn.
    + destruct (truthy v); reflexivity.
    + destruct (assoc "title" d) as [t|]; cbn;
        [destruct (truthy t)|]; reflexivity.
Qed.

(** C6, the claim as written fails: the changes map [{'title': None}] has
    the [title] key and the [edited] action is still not desirable. *)
Lemma edited_with_null_title_counterexample :
  assoc "title" [("title", VNone)] = Some VNone
  /\ is_desirable_issue_event (H := github) (VStr "edited")
       (VDict [("title", VNone)]) (world_of no_rows)
     = (inr false, world_of no_rows).
Proof. split; reflexivity. Qed.

(** The sibling branch: for [milestoned] the detail is the milestone
    title. *)
Lemma extract_milestoned_details :
  extract_issue_event_info
    (issue_payload "milestoned" 7 (VDict [("title", VStr "M1")]))
    (VStr "milestoned") VNone
  = inr (VDict [("issue_id", VInt 7);
                ("title", VStr "Site broken on load");
                ("created_at", VStr "2018-05-15T01:00:00Z");
                ("milestone", VStr "M1");
                ("actor", VStr "alice");
                ("action", VStr "milestoned");
                ("details", VDict [("milestone title", VStr "M1")]);
                ("received_at", VStr "2018-05-16T02:00:00Z")]).
Proof. reflexivity. Qed.

(** C7.  For [unmilestoned] the extractor never puts the milestone title
    into the detail: [action == ('milestoned' or 'demilestoned')] only
    matches [milestoned], so the action falls to the label branch.  On the
    payload GitHub sends, which has no [label], that is a [KeyError]; and
    whenever a record does come out, its detail is the name of the
    payload's label. *)
Theorem extract_unmilestoned_details :
  extract_issue_event_info
    (issue_payload "unmilestoned" 7 (VDict [("title", VStr "M1")]))
    (VStr "unmilestoned") VNone
  = inl (KeyError (VStr "label"))
  /\ (forall payload changes,
        match extract_issue_event_info payload (VStr "unmilestoned") changes
        with
        | inr info =>
            exists label name,
              getitem payload "label" = inr label
              /\ getitem label "name" = inr name
              /\ getitem info "details" = inr (VDict [("label name", name)])
        | inl _ => True
        end).
Proof.
  split; [reflexivity|].
  intros payload changes. unfold extract_issue_event_info. cbn.
  repeat (step; cbn; try exact I).
  all: eauto.
Qed.

End ExtractionFacts.

Section ListenerFacts.

Context `{Platform}.

#[local] Arguments is_github_hook : simpl never.
#[local] Arguments is_desirable_issue_event : simpl never.
#[local] Arguments extract_issue_event_info : simpl never.
#[local] Arguments add_new_issue : simpl never.
#[local] Arguments add_new_event : simpl never.
#[local] Arguments issue_title_edit : simpl never.
#[local] Arguments issue_status_change : simpl never.
#[local] Arguments issue_milestone_change : simpl never.
#[local] Arguments issue_label_change : simpl never.
#[local] Arguments process_label_event_info : simpl never.
#[local] Arguments process_milestone_event_info : simpl never.

Ltac branch :=
  match goal with
  | |- context [getitem ?a ?k] => destruct (getitem a k) eqn:?
  | |- context [dict_get ?a ?k] => destruct (dict_get a k) eqn:?
  | |- context [contains ?a ?k] => destruct (contains a k) eqn:?
  | |- context [truthy ?a] => destruct (truthy a) eqn:?
  | |- context [in_strs ?a ?l] => destruct (in_strs a l) eqn:?
  | |- context [eq_str ?a ?l] => destruct (eq_str a l) eqn:?
  | |- context [commit_outcomes ?w] => destruct (commit_outcomes w) as [|[] ?] eqn:?
  end.

Lemma dict_get_total (payload : value) (k k' : string) (v : value) :
  dict_get payload k = inr v -> exists v', dict_get payload k' = inr v'.
Proof.
  destruct payload; try discriminate. intros _. cbn.
  destruct (assoc k' d); eauto.
Qed.

Lemma dict_get_getitem (payload : value) (k s : string) :
  dict_get payload k = inr (VStr s) -> getitem payload k = inr (VStr s).
Proof.
  destruct payload; try discriminate. cbn.
  destruct (assoc k d); [trivial | discriminate].
Qed.

(** The three locals are bound once the body is a JSON object. *)
Lemma read_payload_object (request : Request) (payload action : value)
  (w : World) :
  json_loads (data request) = inr payload ->
  dict_get payload "action" = inr action ->
  exists changes,
    dict_get payload "changes" = inr changes
    /\ read_payload request w
       = (inr (Some payload, Some action, Some changes), w).
Proof.
  intros Hj Ha. destruct (dict_get_total _ _ "changes" _ Ha) as [c Hc].
  exists c. split; [exact Hc|].
  unfold read_payload. rewrite Hj, Ha, Hc. reflexivity.
Qed.

(** The classifier logs nothing when it answers [True]. *)
Lemma is_desirable_true (action changes : value) (w : World) :
  fst (is_desirable_issue_event action changes w) = inr true ->
  is_desirable_issue_event action changes w = (inr true, w).
Proof.
  unfold is_desirable_issue_event, lift, logger_info. cbn.
  repeat (first [branch | match goal with
                          | |- context [if ?b then _ else _] => destruct b
                          end]; cbn; try discriminate; auto).
Qed.

(** What the view does with a desirable issue notification. *)
Lemma view_on_desirable (request : Request) (payload changes : value)
  (action : string) (w : World) :
  is_notification "issues" request payload action ->
  dict_get payload "changes" = inr changes ->
  fst (is_desirable_issue_event (VStr action) changes w) = inr true ->
  issues_hooklistener request w
  = (issue_event_info <-
       lift (extract_issue_event_info payload (VStr action) changes) ;;
     transition issue_event_info (VStr action) ;;
     add_new_event issue_event_info ;;
     ret (Some (mkResponse "Yay! Data! *munch, munch, munch*" 200))) w.
Proof.
  intros (Hh & He & Hj & Ha) Hc Hd.
  destruct (read_payload_object request payload _ w Hj Ha) as (c & Hc' & Hr).
  rewrite Hc in Hc'. injection Hc' as <-.
  unfold issues_hooklistener. cbn. rewrite Hh. cbn. rewrite He, Hr. cbn.
  rewrite (is_desirable_true _ _ _ Hd). cbn. reflexivity.
Qed.

(** The record the extractor builds has exactly its eight keys. *)
Lemma extract_shape (payload action changes info : value) :
  extract_issue_event_info payload action changes = inr info ->
  exists number title created_at milestone actor details received_at,
    info = VDict [("issue_id", number);
                  ("title", title);
                  ("created_at", created_at);
                  ("milestone", milestone);
                  ("actor", actor);
                  ("action", action);
                  ("details", details);
                  ("received_at", received_at)].
Proof.
  unfold extract_issue_event_info. cbn.
  destruct (getitem payload "issue") as [|issue]; [discriminate|].
  destruct (getitem issue "milestone") as [|milestone]; [discriminate|].
  match goal with
  | |- match ?t with _ => _ end = _ -> _ =>
      destruct t as [|milestone_title]; [discriminate|]
  end.
  match goal with
  | |- match ?d with _ => _ end = _ -> _ =>
      destruct d as [|details]; [discriminate|]
  end.
  repeat (branch; try discriminate).
  intros E; injection E as <-; eauto 10.
Qed.

(** Appending the event never touches an issue, a label or a milestone. *)
Lemma add_new_event_frame (info : value) (w : World) :
  same_entities (session w) (committed w) ->
  same_entities (committed (snd (add_new_event info w))) (committed w)
  /\ same_entities (session (snd (add_new_event info w))) (committed w).
Proof.
  intros (Hi & Hl & Hm).
  unfold add_new_event, try_except, session_add_event, session_commit,
    session_rollback, logger_warning, logger_info, lift, same_entities.
  cbn.
  repeat (branch; cbn; auto).
Qed.


(** The seven listed actions are desirable whatever the changes. *)
Lemma listed_action_is_desirable (action : string) (changes : value)
  (w : World) :
  In action ["opened"; "closed"; "reopened"; "labeled"; "unlabeled";
             "milestoned"; "unmilestoned"] ->
  fst (is_desirable_issue_event (VStr action) changes w) = inr true.
Proof.
  intros Hin. repeat (destruct Hin as [<-|Hin]; [reflexivity|]).
  destruct Hin.
Qed.

(** An issue notification whose transition does nothing leaves every
    issue, label and milestone of the database as it was. *)
Lemma serve_event_only (request : Request) (payload : value)
  (action : string) (w : World) :
  is_notification "issues" request payload action ->
  (forall changes w,
     fst (is_desirable_issue_event (VStr action) changes w) = inr true) ->
  (forall info w, transition info (VStr action) w = (inr tt, w)) ->
  same_entities (committed (snd (serve request w))) (committed w).
Proof.
  intros Hn Hd Ht.
  destruct Hn as (Hh & He & Hj & Ha).
  destruct (dict_get_total _ _ "changes" _ Ha) as [c Hc].
  unfold serve.
  rewrite (view_on_desirable request payload c action _
             (conj Hh (conj He (conj Hj Ha))) Hc (Hd _ _)).
  cbn.
  destruct (extract_issue_event_info payload (VStr action) c) as [e|info];
    cbn; [repeat split|].
  rewrite Ht.
  pose proof (add_new_event_frame info (set_session w (committed w))) as F.
  destruct (add_new_event info (set_session w (committed w))) as [[e|[]] w'];
    cbn in *; apply F; repeat split.
Qed.

(** C1.  A [reopened] notification is never routed to the status change:
    [action == ('closed' or 'reopened')] is [action == 'closed'], so no
    test of the dispatch matches, the transition does nothing and the
    request only appends its Event.  Every issue keeps the status (and all
    the other columns) it had. *)
Theorem reopened_is_not_routed (request : Request) (payload : value)
  (w : World) :
  is_notification "issues" request payload "reopened" ->
  (forall info w', transition info (VStr "reopened") w' = (inr tt, w'))
  /\ same_entities (committed (snd (serve request w))) (committed w).
Proof.
  intros Hn. split; [reflexivity|].
  apply (serve_event_only request payload "reopened" w Hn);
    [|reflexivity].
  intros. apply listed_action_is_desirable. cbn. tauto.
Qed.

(** On the record the extractor builds, the [milestoned] branch of
    [issue_milestone_change] reads a key the record does not have. *)
Lemma issue_milestone_change_milestoned (payload changes info : value)
  (w : World) :
  extract_issue_event_info payload (VStr "milestoned") changes = inr info ->
  issue_milestone_change info w = (inl (KeyError (VStr "milestone_id")), w).
Proof.
  intros E. apply extract_shape in E.
  destruct E as (n & t & c & m & a & d & r & ->).
  reflexivity.
Qed.

(** A [milestoned] notification persists nothing and ends in a server
    error. *)
Lemma serve_milestoned (request : Request) (payload : value) (w : World) :
  is_notification "issues" request payload "milestoned" ->
  fst (serve request w) = 500
  /\ committed (snd (serve request w)) = committed w.
Proof.
  intros Hn.
  pose proof Hn as (_ & _ & _ & Ha).
  destruct (dict_get_total _ _ "changes" _ Ha) as [c Hc].
  unfold serve.
  rewrite (view_on_desirable request payload c "milestoned" _ Hn Hc)
    by reflexivity.
  cbn.
  destruct (extract_issue_event_info payload (VStr "milestoned") c)
    as [e|info] eqn:E; cbn; [split; reflexivity|].
  unfold transition. cbn.
  rewrite (issue_milestone_change_milestoned _ _ _ _ E). cbn.
  split; reflexivity.
Qed.

(** C2.  A [milestoned] notification followed by an [unmilestoned] one
    clears nothing: the first one stops with a [KeyError] in
    [issue_milestone_change] before anything is committed, and the second
    one is never routed to [issue_milestone_change], because
    [action == ('milestoned' or 'unmilestoned')] is
    [action == 'milestoned'].  Every issue keeps the milestone reference it
    had before the two requests. *)
Theorem milestoned_then_unmilestoned (request1 request2 : Request)
  (payload1 payload2 : value) (w : World) :
  is_notification "issues" request1 payload1 "milestoned" ->
  is_notification "issues" request2 payload2 "unmilestoned" ->
  (forall info w', transition info (VStr "unmilestoned") w' = (inr tt, w'))
  /\ issues (committed (snd (serve request2 (snd (serve request1 w)))))
     = issues (committed w).
Proof.
  intros H1 H2. split; [reflexivity|].
  destruct (serve_milestoned request1 payload1 w H1) as [_ E1].
  destruct (serve_event_only request2 payload2 "unmilestoned"
              (snd (serve request1 w)) H2) as (Ei & _).
  - intros. apply listed_action_is_desirable. cbn. tauto.
  - reflexivity.
  - rewrite Ei, E1. reflexivity.
Qed.

(** C3.  A body that [json.loads] rejects, on a request with a valid
    signature for an issue, label or milestone event, is logged and then
    the view reads a local the [try] block never bound: the request ends
    in an unhandled [UnboundLocalError], that is a 500, not in a 200-class
    acknowledgment.  Nothing is persisted. *)
Theorem malformed_body_is_a_server_error (request : Request)
  (category : string) (error : exn) (w : World) :
  is_github_hook request = inr true ->
  headers_get (headers request) "X-GitHub-Event" = Some category ->
  In category ["issues"; "label"; "milestone"] ->
  json_loads (data request) = inl error ->
  (exists name,
     fst (issues_hooklistener request w) = inl (UnboundLocalError name))
  /\ fst (serve request w) = 500
  /\ committed (snd (serve request w)) = committed w.
Proof.
  intros Hh He Hc Hj.
  unfold serve, issues_hooklistener, read_payload. cbn.
  rewrite Hh. cbn. rewrite He, Hj. cbn.
  destruct Hc as [<-|[<-|[<-|[]]]]; cbn; eauto.
Qed.

(** C8.  A label notification whose action is not [created] changes no
    row.  With a prior name, [Label.query.filter_by(name=prior_name)] is
    kept as a query object, the new name is bound to an attribute of that
    object and the commit has nothing to write: the label is not renamed.
    Without a prior name [db.session.remove(label)] raises.  Either way the
    view returns no response and the request ends in a 500. *)
Theorem label_rename_is_lost (request : Request) (payload : value)
  (action : string) (w : World) :
  is_notification "label" request payload action ->
  eq_str (VStr action) "created" = false ->
  fst (serve request w) = 500
  /\ committed (snd (serve request w)) = committed w.
Proof.
  intros (Hh & He & Hj & Ha) Hc.
  destruct (read_payload_object request payload _
              (set_session w (committed w)) Hj Ha) as (c & _ & Hr).
  unfold serve, issues_hooklistener. cbn. rewrite Hh. cbn.
  rewrite He, Hr. cbn.
  unfold process_label_event_info. cbn.
  rewrite (dict_get_getitem _ _ _ Ha). cbn.
  unfold lift, Query_setattr, session_remove, session_commit. cbn.
  cbn in Hc. rewrite Hc.
  repeat (first [branch | match goal with
                          | |- context [if ?b then _ else _] => destruct b
                          end]; cbn; auto).
Qed.

(** C9 (as amended).  Whenever the hook validation turns a request down,
    be it for a missing event header, a missing or empty signature header,
    a header without the [sha1=] prefix or a digest that differs from the
    HMAC of the body, the answer is 401 and nothing is persisted. *)
Theorem rejected_hook_is_answered_401 (request : Request) (w : World) :
  is_github_hook request = inr false ->
  fst (serve request w) = 401
  /\ committed (snd (serve request w)) = committed w.
Proof.
  intros Hh. unfold serve, issues_hooklistener. cbn. rewrite Hh. cbn.
  split; reflexivity.
Qed.


Lemma find_index_nth_error {A : Type} (p : A -> bool) (l : list A) (i : nat) :
  find_index p l = Some i -> exists x, nth_error l i = Some x.
Proof.
  revert i. induction l as [|a l IH]; intros i; cbn; [discriminate|].
  destruct (p a).
  - intros [= <-]. exists a. reflexivity.
  - destruct (find_index p l) as [j|]; [|discriminate].
    intros [= <-]. cbn. apply IH. reflexivity.
Qed.

Lemma update_nth_at {A : Type} (f : A -> A) (l : list A) (i : nat) (x : A) :
  nth_error l i = Some x ->
  update_nth i (fun _ => f x) l = update_nth i f l.
Proof.
  revert i. induction l as [|a l IH]; intros [|i]; cbn; try discriminate.
  - intros [= ->]. reflexivity.
  - intros E. rewrite (IH _ E). reflexivity.
Qed.

Lemma append_empty (s : string) : (s ++ "")%string = s.
Proof. induction s as [|c s IH]; cbn; [|rewrite IH]; reflexivity. Qed.

(** Once its commit fails, [add_new_event] rolls the Event back, logs a
    warning that ends with the text of the error, and returns as if nothing
    had happened. *)
Lemma add_new_event_rolled_back (payload action changes info : value)
  (w : World) (rest : list bool) :
  extract_issue_event_info payload action changes = inr info ->
  commit_outcomes w = false :: rest ->
  add_new_event info w
  = (inr tt,
     mkWorld (committed w) (committed w) rest
       (log w ++ [("Yikes! Failed to add event to database: "
                   ++ str_ (OError SQLAlchemyError))%string])).
Proof.
  intros E Hc. apply extract_shape in E.
  destruct E as (n & t & c & m & a & d & r & ->).
  unfold add_new_event, try_except, session_add_event, session_commit,
    session_rollback, logger_warning, logger_info, lift.
  cbn. rewrite Hc. cbn. rewrite append_empty. reflexivity.
Qed.

Lemma is_desirable_any_world (action changes : value) (w w' : World) :
  fst (is_desirable_issue_event action changes w)
  = fst (is_desirable_issue_event action changes w').
Proof.
  unfold is_desirable_issue_event, lift, logger_info. cbn.
  repeat (first [branch | match goal with
                          | |- context [if ?b then _ else _] => destruct b
                          end]; cbn; auto).
Qed.

(** X2.  [add_new_issue] never stages an issue.  With a milestone title
    it stops at [Milestone.query.filter_by(milestone_title)], whose
    criteria are keyword-only; without one, [milestone] is unbound when
    [milestone.id] is read.  It raises in every case and leaves the session
    as it found it. *)
Lemma add_new_issue_always_raises (info : value) (w : World) :
  exists e, add_new_issue info w = (inl e, w).
Proof.
  unfold add_new_issue, lift, filter_by_positional. cbn.
  repeat (branch; cbn; eauto).
Qed.

End ListenerFacts.

(** * Concrete runs on the reference platform *)

(** RFC 2202, test case 2. *)
Example hmac_sha1_rfc2202 :
  Reference.hexdigest (list_byte_of_string "Jefe")
    (list_byte_of_string "what do ya want for nothing?")
  = "effcdf6ae5eb2fa2d27416d5f184df9c259a7c79".
Proof. vm_compute. reflexivity. Qed.

Example signed_reopened_headers :
  headers (signed "issues" (issue_body "reopened" "42" "null"))
  = [("X-GitHub-Event", "issues");
     ("X-Hub-Signature", "sha1=e244a80f305c730577fef08c8f2ab52ab601917c")].
Proof. vm_compute. reflexivity. Qed.

Example loads_issue_body :
  Reference.loads (issue_body "milestoned" "7" "{'title': 'M1'}")
  = inr (issue_payload "milestoned" 7 (VDict [("title", VStr "M1")])).
Proof. vm_compute. reflexivity. Qed.

Example loads_not_json :
  Reference.loads (list_byte_of_string "not json")
  = inl (JSONDecodeError "Expecting value: line 1 column 1 (char 0)").
Proof. vm_compute. reflexivity. Qed.

Example loads_open_array :
  Reference.loads (quoted "{'action': [1, 2")
  = inl (JSONDecodeError "Expecting ',' delimiter: line 1 column 17 (char 16)").
Proof. vm_compute. reflexivity. Qed.

Example repr_of_a_list :
  Reference.repr (VList [VStr "it's"; VNone; VBool true; VInt (-3);
                         VFloat (FFin false 3 (-1));
                         VDict [("k", VFloat (FFin false 1 70))]])
  = String (ascii_of_nat 91) (String (ascii_of_nat 34) "it's")
    ++ String (ascii_of_nat 34)
         ", None, True, -3, 1.5, {'k': 1.1805916207174113e+21}]".
Proof. vm_compute. reflexivity. Qed.

(** On the reference platform, [str_] is the platform's [text]. *)
Lemma str_on_the_reference_platform (secret database_error : string)
  (obj : object) :
  str_ (H := Reference.platform secret database_error) obj
  = Reference.text database_error obj.
Proof.
  destruct obj as [v|e|bug|event]; [destruct v|destruct e| |]; reflexivity.
Qed.

(** The lines the sample requests leave in the log: a body that is not
    JSON, a body that is JSON but no object, an event the view does not
    know, and an Event the database refuses. *)
Example log_of_a_malformed_body :
  log (snd (serve (H := github)
              (signed "issues" (list_byte_of_string "not json"))
              (world_of no_rows)))
  = ["Huh? GitHub sent us some wonky garbage, folks: "
     ++ "Expecting value: line 1 column 1 (char 0)"].
Proof. vm_compute. reflexivity. Qed.

Example log_of_a_body_that_is_a_list :
  log (snd (serve (H := github)
              (signed "issues" (list_byte_of_string "[]"))
              (world_of no_rows)))
  = ["Huh? GitHub sent us some wonky garbage, folks: "
     ++ "'list' object has no attribute 'get'"].
Proof. vm_compute. reflexivity. Qed.

Example log_of_an_unknown_event :
  serve (H := github) (signed "push" (quoted "{'ref': 'refs/heads/main'}"))
    (world_of no_rows)
  = (403, mkWorld no_rows no_rows []
            ["Hey! GitHub sent us a funky (or new) event: push"]).
Proof. vm_compute. reflexivity. Qed.

Example log_of_a_refused_event :
  log (snd (serve (H := github)
              (signed "issues" (issue_body "closed" "42" "null"))
              (mkWorld (mkStore [the_issue 42 VNone true] [] [] [])
                       (mkStore [the_issue 42 VNone true] [] [] [])
                       [true; false] [])))
  = ["Yikes! Failed to add event to database: database is locked"].
Proof. vm_compute. reflexivity. Qed.

(** C1 at its failing input: issue 42 is closed in the database, GitHub
    reports that it was reopened, and it is still closed afterwards; the
    Event is stored and the request ends in a 500. *)
Lemma reopened_is_not_routed_witness :
  let request := signed "issues" (issue_body "reopened" "42" "null") in
  let w := world_of (mkStore [the_issue 42 VNone false] [] [] []) in
  let w' := snd (serve (H := github) request w) in
  same_entities (committed w') (committed w)
  /\ issues (committed w') = [the_issue 42 VNone false]
  /\ List.length (events (committed w')) = 1%nat
  /\ fst (serve (H := github) request w) = 500.
Proof.
  cbv zeta. split.
  - apply (reopened_is_not_routed (H := github) _
             (issue_payload "reopened" 42 VNone)).
    split; [|split; [|split]]; vm_compute; reflexivity.
  - vm_compute. split; [|split]; reflexivity.
Defined.

(** C2 at its failing input: issue 7 refers to milestone 3; after a
    [milestoned] and an [unmilestoned] notification it still does, and
    both requests ended in a 500. *)
Lemma milestoned_then_unmilestoned_witness :
  let request1 :=
    signed "issues" (issue_body "milestoned" "7" "{'title': 'M1'}") in
  let request2 := signed "issues" (issue_body "unmilestoned" "7" "null") in
  let w := world_of (mkStore [the_issue 7 (VInt 3) true] []
                             [mkMilestone 3 (VStr "M1")] []) in
  let w1 := snd (serve (H := github) request1 w) in
  let w2 := snd (serve (H := github) request2 w1) in
  issues (committed w2) = issues (committed w)
  /\ map issue_milestone_id (issues (committed w2)) = [VInt 3]
  /\ fst (serve (H := github) request1 w) = 500
  /\ fst (serve (H := github) request2 w1) = 500.
Proof.
  cbv zeta. split.
  - apply (milestoned_then_unmilestoned (H := github) _ _
             (issue_payload "milestoned" 7 (VDict [("title", VStr "M1")]))
             (issue_payload "unmilestoned" 7 VNone)).
    + split; [|split; [|split]]; vm_compute; reflexivity.
    + split; [|split; [|split]]; vm_compute; reflexivity.
  - vm_compute. split; [|split]; reflexivity.
Defined.

(** C3 at its failing input: a signed issue notification whose body is
    [not json]. *)
Lemma malformed_body_is_a_server_error_witness :
  let request := signed "issues" (list_byte_of_string "not json") in
  let w := world_of no_rows in
  (exists name,
     fst (issues_hooklistener (H := github) request w)
     = inl (UnboundLocalError name))
  /\ fst (serve (H := github) request w) = 500
  /\ committed (snd (serve (H := github) request w)) = committed w.
Proof.
  cbv zeta.
  apply (malformed_body_is_a_server_error (H := github) _ "issues"
           (JSONDecodeError "Expecting value: line 1 column 1 (char 0)")).
  - vm_compute. reflexivity.
  - vm_compute. reflexivity.
  - left. reflexivity.
  - vm_compute. reflexivity.
Defined.

(** C4, the claim as written fails: issue 42 is open, GitHub reports that
    it was closed, the database accepts the commit of the status change
    and refuses the commit of the Event.  The issue is persisted as closed,
    no Event is, and the request is answered 200. *)
Lemma closed_without_its_event_counterexample :
  let request := signed "issues" (issue_body "closed" "42" "null") in
  let s := mkStore [the_issue 42 VNone true] [] [] [] in
  let w := mkWorld s s [true; false] [] in
  let w' := snd (serve (H := github) request w) in
  fst (serve (H := github) request w) = 200
  /\ issues (committed w') = [the_issue 42 VNone false]
  /\ events (committed w') = [].
Proof. vm_compute. split; [|split]; reflexivity. Qed.

(** C8 at its failing input: the database holds the label [bug], GitHub
    reports that it was renamed to [defect], and the label is still named
    [bug] afterwards. *)
Lemma label_rename_is_lost_witness :
  let request := signed "label" rename_body in
  let w := world_of (mkStore [] [mkLabel 1 (VStr "bug")] [] []) in
  (fst (serve (H := github) request w) = 500
   /\ committed (snd (serve (H := github) request w)) = committed w)
  /\ labels (committed (snd (serve (H := github) request w)))
     = [mkLabel 1 (VStr "bug")].
Proof.
  cbv zeta. split.
  - apply (label_rename_is_lost (H := github) _ rename_payload "edited").
    + split; [|split; [|split]]; vm_compute; reflexivity.
    + reflexivity.
  - vm_compute. reflexivity.
Defined.

(** C9, the claim as written fails: the request names its event, its
    digest is not the HMAC of the body, and the answer is 401, not 403. *)
Lemma invalid_signature_counterexample :
  let request :=
    mkRequest [("X-GitHub-Event", "issues");
               ("X-Hub-Signature",
                "sha1=0000000000000000000000000000000000000000")]
              (issue_body "closed" "42" "null") in
  headers_get (headers request) "X-GitHub-Event" = Some "issues"
  /\ is_github_hook (H := github) request = inr false
  /\ fst (serve (H := github) request (world_of no_rows)) = 401
  /\ (fst (serve (H := github) request (world_of no_rows)) =? 403) = false.
Proof. vm_compute. split; [|split; [|split]]; reflexivity. Qed.

(** C9 (as amended) on a request whose signature names another scheme. *)
Lemma rejected_hook_is_answered_401_witness :
  let request :=
    mkRequest [("X-GitHub-Event", "issues");
               ("X-Hub-Signature", "md5=d41d8cd98f00b204e9800998ecf8427e")]
              (issue_body "closed" "42" "null") in
  fst (serve (H := github) request (world_of no_rows)) = 401
  /\ committed (snd (serve (H := github) request (world_of no_rows)))
     = committed (world_of no_rows).
Proof.
  cbv zeta. apply (rejected_hook_is_answered_401 (H := github)).
  vm_compute. reflexivity.
Defined.

(** C10 on a request that names its event and carries no signature. *)
Lemma is_github_hook_without_signature_witness :
  let request :=
    mkRequest [("X-GitHub-Event", "issues")]
              (issue_body "closed" "42" "null") in
  headers_get (headers request) "X-Hub-Signature" = None
  /\ is_github_hook (H := github) request = inr false.
Proof.
  cbv zeta. split; [reflexivity|].
  apply (is_github_hook_without_signature (H := github)). reflexivity.
Defined.

(** X1 on a header that names another scheme. *)
Lemma signature_check_without_prefix_witness :
  prefix "sha1=" "md5=d41d8cd98f00b204e9800998ecf8427e" = false
  /\ signature_check (H := github) secret
       "md5=d41d8cd98f00b204e9800998ecf8427e"
       (issue_body "closed" "42" "null")
     = inr false.
Proof.
  split; [reflexivity|].
  apply (signature_check_without_prefix (H := github)). reflexivity.
Defined.

(** * Further properties *)

(** ** The hook validation *)

Section ValidationFacts.

Context `{Platform}.

Lemma split_single (sep : ascii) (s b : string) :
  split sep s = [b] -> s = b.
Proof.
  revert b. induction s as [|c s IH]; intros b; cbn.
  - intros [= <-]. reflexivity.
  - destruct (Ascii.eqb c sep).
    + destruct (split sep s) eqn:E; [|discriminate].
      exfalso. exact (split_nonempty sep s E).
    + destruct (split sep s) as [|h t] eqn:E;
        [exfalso; exact (split_nonempty sep s E)|].
      intros [= <- ->]. rewrite (IH h eq_refl). reflexivity.
Qed.

Lemma prefix_app (p s : string) :
  prefix p s = true -> exists r, s = p ++ r.
Proof.
  revert s. induction p as [|a p IH]; intros s; cbn.
  - intros _. exists s. reflexivity.
  - destruct s as [|b s]; [discriminate|]. simpl.
    destruct (ascii_dec a b) as [<-|]; intros E; [|discriminate E].
    destruct (IH s E) as [r ->]. exists r. reflexivity.
Qed.

Lemma signature_check_no_prefix (key post_signature : string)
  (payload : list byte) :
  prefix "sha1=" post_signature = false ->
  signature_check key post_signature payload = inr false.
Proof.
  intros E. unfold signature_check. rewrite E. reflexivity.
Qed.

(** What [signature_check] does with a header that has the prefix. *)
Lemma signature_check_prefixed (key rest : string) (payload : list byte) :
  signature_check key ("sha1=" ++ rest) payload
  = match split "=" rest with
    | [signature] =>
        if negb (str_truthy signature) then inr false
        else compare_digest (get_payload_signature key payload) signature
    | _ => inl ValueError
    end.
Proof.
  unfold signature_check. cbn.
  replace (prefix "" rest) with true by (destruct rest; reflexivity).
  reflexivity.
Qed.

Lemma signature_check_true (key post_signature : string)
  (payload : list byte) :
  signature_check key post_signature payload = inr true ->
  post_signature = "sha1=" ++ get_payload_signature key payload.
Proof.
  intros E.
  destruct (prefix "sha1=" post_signature) eqn:Ep.
  - destruct (prefix_app _ _ Ep) as [rest ->].
    rewrite signature_check_prefixed in E.
    destruct (split "=" rest) as [|signature [|]] eqn:Es; try discriminate.
    apply split_single in Es. subst rest.
    destruct (negb (str_truthy signature)); [discriminate|].
    unfold compare_digest in E.
    destruct (is_ascii _ && is_ascii _); [|discriminate].
    injection E as E. apply String.eqb_eq in E. rewrite E. reflexivity.
  - rewrite (signature_check_no_prefix key _ payload Ep) in E.
    discriminate.
Qed.

Lemma is_github_hook_true (request : Request) :
  is_github_hook request = inr true ->
  (exists category,
     headers_get (headers request) "X-GitHub-Event" = Some category)
  /\ headers_get (headers request) "X-Hub-Signature"
     = Some (expected_signature request).
Proof.
  unfold is_github_hook, expected_signature.
  destruct (headers_get (headers request) "X-GitHub-Event") as [c|];
    [|discriminate].
  destruct (headers_get (headers request) "X-Hub-Signature") as [s|];
    [|discriminate].
  destruct (str_truthy s); [|discriminate].
  intros E. apply signature_check_true in E. subst s. eauto.
Qed.

(** X3.  The hook validation accepts a request only if it names an event
    and its signature header is exactly [sha1=] followed by the hex HMAC of
    the body under the hook secret. *)
Theorem accepted_hook_is_signed (request : Request) :
  is_github_hook request = inr true ->
  (exists category,
     headers_get (headers request) "X-GitHub-Event" = Some category)
  /\ headers_get (headers request) "X-Hub-Signature"
     = Some (expected_signature request).
Proof. exact (is_github_hook_true request). Qed.

(** X4.  Conversely, a request that names an event and carries the
    expected signature is accepted, provided the hex digest is what a hex
    digest is: not empty, ASCII, and without an equals sign. *)
Theorem signed_request_is_accepted (request : Request) (category : string) :
  let hexmac := get_payload_signature HOOK_SECRET_KEY (data request) in
  headers_get (headers request) "X-GitHub-Event" = Some category ->
  headers_get (headers request) "X-Hub-Signature"
  = Some (expected_signature request) ->
  str_truthy hexmac = true ->
  is_ascii hexmac = true ->
  split "=" hexmac = [hexmac] ->
  is_github_hook request = inr true.
Proof.
  cbv zeta. intros He Hs Hn Ha Hp.
  unfold is_github_hook. rewrite He, Hs.
  unfold expected_signature.
  change (str_truthy ("sha1=" ++ ?x)) with true. cbv iota.
  rewrite signature_check_prefixed, Hp, Hn. cbn.
  unfold compare_digest. rewrite Ha, String.eqb_refl. reflexivity.
Qed.

(** X5.  A request whose signature header is not the expected one never
    changes the database, whatever its event and its body: it is answered
    401, or 500 when the header makes the check raise. *)
Theorem unsigned_request_changes_nothing (request : Request) (w : World) :
  headers_get (headers request) "X-Hub-Signature"
  <> Some (expected_signature request) ->
  committed (snd (serve request w)) = committed w
  /\ (fst (serve request w) = 401 \/ fst (serve request w) = 500).
Proof.
  intros Hs. unfold serve, issues_hooklistener. cbn.
  destruct (is_github_hook request) as [e|[|]] eqn:E; cbn.
  - auto.
  - exfalso. apply Hs. apply (is_github_hook_true request E).
  - auto.
Qed.

(** X6.  A request without the event header is answered 401 and changes
    nothing, even when its signature header is one on which the signature
    check would raise. *)
Theorem request_without_event_is_answered_401 (request : Request)
  (w : World) :
  headers_get (headers request) "X-GitHub-Event" = None ->
  is_github_hook request = inr false
  /\ fst (serve request w) = 401
  /\ committed (snd (serve request w)) = committed w.
Proof.
  intros He.
  assert (E : is_github_hook request = inr false)
    by (unfold is_github_hook; rewrite He; reflexivity).
  unfold serve, issues_hooklistener. cbn. rewrite E. cbn. auto.
Qed.

End ValidationFacts.

(** ** A Hoare logic for the helpers *)

Section HoareRules.

Context {A B : Type} (P : World -> Prop).

Lemma hoare_ret (a : A) (Q : result A -> World -> Prop) :
  (forall w, P w -> Q (inr a) w) -> hoare P (ret a) Q.
Proof. intros HQ w Hw. apply HQ, Hw. Qed.

Lemma hoare_raise (e : exn) (Q : result A -> World -> Prop) :
  (forall w, P w -> Q (inl e) w) -> hoare P (raise e) Q.
Proof. intros HQ w Hw. apply HQ, Hw. Qed.

Lemma hoare_lift (r : result A) (Q : result A -> World -> Prop) :
  (forall w, P w -> Q r w) -> hoare P (lift r) Q.
Proof. intros HQ w Hw. apply HQ, Hw. Qed.

Lemma hoare_bind (m : M A) (k : A -> M B) (Q : result A -> World -> Prop)
  (R : result B -> World -> Prop) :
  hoare P m Q ->
  (forall e w, Q (inl e) w -> R (inl e) w) ->
  (forall a, hoare (Q (inr a)) (k a) R) ->
  hoare P (x <- m ;; k x) R.
Proof.
  intros Hm He Hk w Hw. specialize (Hm w Hw). cbn.
  destruct (m w) as [[e|a] w']; cbn in *.
  - apply He, Hm.
  - apply Hk, Hm.
Qed.

(** The usual case: [m] keeps [P], and an exception in a world that
    satisfies [P] is a fine outcome. *)
Lemma hoare_bind_pres (m : M A) (k : A -> M B)
  (R : result B -> World -> Prop) :
  preserves P m ->
  (forall e w, P w -> R (inl e) w) ->
  (forall a, hoare P (k a) R) ->
  hoare P (x <- m ;; k x) R.
Proof. intros Hm He Hk. exact (hoare_bind m k _ R Hm He Hk). Qed.

Lemma preserves_bind (m : M A) (k : A -> M B) :
  preserves P m -> (forall a, preserves P (k a)) ->
  preserves P (x <- m ;; k x).
Proof. intros Hm Hk. apply hoare_bind_pres; auto. Qed.

Lemma preserves_try_except (m : M A) (handles : exn -> bool)
  (h : exn -> M A) :
  preserves P m -> (forall e, preserves P (h e)) ->
  preserves P (try_except m handles h).
Proof.
  intros Hm Hh w Hw. specialize (Hm w Hw). unfold try_except.
  destruct (m w) as [[e|a] w']; cbn in *; [|exact Hm].
  destruct (handles e); [apply Hh, Hm | exact Hm].
Qed.

End HoareRules.

Lemma preserves_ret {A : Type} (P : World -> Prop) (a : A) :
  preserves P (ret a).
Proof. apply hoare_ret. auto. Qed.

Lemma preserves_raise {A : Type} (P : World -> Prop) (e : exn) :
  preserves P (raise (A := A) e).
Proof. apply hoare_raise. auto. Qed.

Lemma preserves_lift {A : Type} (P : World -> Prop) (r : result A) :
  preserves P (lift r).
Proof. apply hoare_lift. auto. Qed.

(** One step of a proof that a helper keeps a property: split a sequence,
    a conditional or a case analysis, or close a leaf. *)
Ltac keep :=
  first
    [ apply preserves_ret
    | apply preserves_raise
    | apply preserves_lift
    | apply preserves_bind; [|intros ?]
    | apply preserves_try_except; [|intros ?]
    | match goal with
      | |- preserves _ (if ?b then _ else _) => destruct b
      | |- preserves _ (match ?x with _ => _ end) => destruct x
      end ].

Lemma keeps_identity_set_title (t : value) : keeps_identity (set_title t).
Proof. intros i i' [= <-]. reflexivity. Qed.

Lemma keeps_identity_set_is_open (b : bool) :
  keeps_identity (set_is_open b).
Proof. intros i i' [= <-]. reflexivity. Qed.

Lemma keeps_identity_set_milestone_id (m : value) :
  keeps_identity (set_milestone_id m).
Proof. intros i i' [= <-]. reflexivity. Qed.

Lemma keeps_identity_labels_append (l : Z) :
  keeps_identity (labels_append l).
Proof. intros i i' [= <-]. reflexivity. Qed.

Lemma keeps_identity_labels_remove (l : Z) :
  keeps_identity (labels_remove l).
Proof.
  intros i i'. unfold labels_remove.
  destruct (remove_first l (issue_labels i)); [|discriminate].
  intros [= <-]. reflexivity.
Qed.

Section Preservation.

Context `{Platform}.

Variable P : World -> Prop.
Hypothesis P_stable : stable P.

Lemma add_new_issue_unchanged (info : value) (w : World) :
  snd (add_new_issue info w) = w.
Proof.
  unfold add_new_issue, lift, filter_by_positional. cbn.
  repeat (match goal with
          | |- context [getitem ?a ?k] => destruct (getitem a k)
          | |- context [truthy ?a] => destruct (truthy a)
          end; cbn; auto).
Qed.

Lemma preserves_add_new_issue (info : value) :
  preserves P (add_new_issue info).
Proof. intros w Hw. rewrite add_new_issue_unchanged. exact Hw. Qed.

Lemma preserves_Issue_query_get (ident : value) :
  preserves P (Issue_query_get ident).
Proof. intros w Hw. exact Hw. Qed.

Lemma preserves_Label_one (name : value) : preserves P (Label_one name).
Proof.
  intros w Hw. unfold Label_one.
  destruct (filter _ _) as [|? [|]]; exact Hw.
Qed.

Lemma preserves_issue_title_edit (info : value) :
  preserves P (issue_title_edit info).
Proof.
  unfold issue_title_edit. repeat keep.
  - apply preserves_Issue_query_get.
  - apply (stable_update P P_stable), keeps_identity_set_title.
  - apply (stable_commit P P_stable).
Qed.

Lemma preserves_issue_status_change (info action : value) :
  preserves P (issue_status_change info action).
Proof.
  unfold issue_status_change. repeat keep.
  - apply preserves_Issue_query_get.
  - apply (stable_update P P_stable), keeps_identity_set_is_open.
  - apply (stable_commit P P_stable).
Qed.

Lemma preserves_issue_milestone_change (info : value) :
  preserves P (issue_milestone_change info).
Proof.
  unfold issue_milestone_change. repeat keep.
  - apply preserves_Issue_query_get.
  - apply (stable_update P P_stable), keeps_identity_set_milestone_id.
  - apply (stable_update P P_stable), keeps_identity_set_milestone_id.
  - apply (stable_commit P P_stable).
Qed.

Lemma preserves_issue_label_change (info : value) :
  preserves P (issue_label_change info).
Proof.
  unfold issue_label_change. repeat keep.
  - apply preserves_Label_one.
  - apply preserves_Issue_query_get.
  - apply (stable_update P P_stable), keeps_identity_labels_append.
  - apply (stable_update P P_stable), keeps_identity_labels_remove.
  - apply (stable_commit P P_stable).
Qed.

Lemma preserves_transition (info action : value) :
  preserves P (transition info action).
Proof.
  unfold transition.
  repeat match goal with
         | |- preserves _ (if ?b then _ else _) => destruct b
         end.
  - apply preserves_add_new_issue.
  - apply preserves_issue_title_edit.
  - apply preserves_issue_status_change.
  - apply preserves_issue_milestone_change.
  - apply preserves_issue_label_change.
  - apply preserves_ret.
Qed.

Lemma preserves_is_desirable_issue_event (action changes : value) :
  preserves P (is_desirable_issue_event action changes).
Proof.
  unfold is_desirable_issue_event. repeat keep.
  apply (stable_log P P_stable).
Qed.

Lemma preserves_process_label_event_info (payload : value) :
  preserves P (process_label_event_info payload).
Proof.
  unfold process_label_event_info, Query_setattr, session_remove.
  repeat keep.
  - apply (stable_add_label P P_stable).
  - apply (stable_commit P P_stable).
Qed.

Lemma preserves_process_milestone_event_info (payload : value) :
  preserves P (process_milestone_event_info payload).
Proof.
  unfold process_milestone_event_info, Query_setattr, session_remove.
  repeat keep.
  - apply (stable_add_milestone P P_stable).
  - apply (stable_commit P P_stable).
Qed.

Lemma preserves_read_payload (request : Request) :
  preserves P (read_payload request).
Proof.
  unfold read_payload, wonky_garbage.
  repeat keep; apply (stable_log P P_stable).
Qed.

(** The view keeps [P] up to the insertion of the Event: if every outcome
    in a world that satisfies [P] is fine, and so is what the last two
    statements of the issue branch do, then the outcome of the view is
    fine. *)
Lemma hoare_issues_hooklistener (request : Request)
  (R : result (option Response) -> World -> Prop) :
  (forall r w, P w -> R r w) ->
  (forall info,
     hoare P
       (add_new_event info ;;
        ret (Some (mkResponse "Yay! Data! *munch, munch, munch*" 200)))
       R) ->
  hoare P (issues_hooklistener request) R.
Proof.
  intros HR Hevent. unfold issues_hooklistener.
  repeat first
    [ apply hoare_ret; intros; apply HR; assumption
    | apply Hevent
    | match goal with
      | |- hoare _ (if ?b then _ else _) _ => destruct b
      | |- hoare _ (let '(_, _) := ?x in _) _ => destruct x
      | |- hoare _ (let _ := _ in _) _ => cbv zeta
      end
    | apply hoare_bind_pres;
      [ first [ apply preserves_lift
              | apply preserves_read_payload
              | apply preserves_is_desirable_issue_event
              | apply preserves_transition
              | apply preserves_process_label_event_info
              | apply preserves_process_milestone_event_info
              | apply (stable_log P P_stable) ]
      | intros; apply HR; assumption
      | intros ? ] ].
Qed.

End Preservation.

(** ** What no request can do to the database *)

Section Invariants.

Context `{Platform}.

Lemma map_identity_update_nth (i : nat) (row' : Issue) (l : list Issue)
  (row : Issue) :
  nth_error l i = Some row -> identity row' = identity row ->
  map identity (update_nth i (fun _ => row') l) = map identity l.
Proof.
  revert i. induction l as [|a l IH]; intros [|i]; cbn; try discriminate.
  - intros [= ->] ->. reflexivity.
  - intros E Hi. rewrite (IH _ E Hi). reflexivity.
Qed.

Lemma extends_refl (s : Store) : extends s s.
Proof.
  repeat split; try reflexivity; exists []; rewrite app_nil_r; reflexivity.
Qed.

(** Case analysis on the row an update finds. *)
Ltac updated :=
  match goal with
  | |- context [Issue_update ?ref _ ?f ?w] =>
      unfold Issue_update; destruct ref as [i|]; [|assumption];
      destruct (nth_error (issues (session w)) i) as [row|] eqn:Erow;
      [|assumption];
      destruct (f row) as [|row'] eqn:Ef; [assumption|]
  end.

Lemma stable_events_are (log0 : list Event) : stable (events_are log0).
Proof.
  split.
  - intros msg w Hw. exact Hw.
  - intros w [Hs Hc]. unfold session_commit.
    destruct (commit_outcomes w) as [|[] ?]; split; cbn; assumption.
  - intros w [Hs Hc]. split; cbn; assumption.
  - intros ref attribute f _ w Hw. updated. exact Hw.
  - intros name w Hw. exact Hw.
  - intros title w Hw. exact Hw.
Qed.

Lemma stable_within (s : Store) : stable (within s).
Proof.
  split.
  - intros msg w Hw. exact Hw.
  - intros w [Hs Hc]. unfold session_commit.
    destruct (commit_outcomes w) as [|[] ?]; split; cbn; assumption.
  - intros w [Hs Hc]. split; cbn; assumption.
  - intros ref attribute f Hf w Hw. updated.
    destruct Hw as [(Hi & Hl & Hm & He) Hc]. split; [|exact Hc].
    unfold extends.
    cbn [snd set_session session issues labels milestones events].
    repeat split; try assumption.
    rewrite (map_identity_update_nth i row' _ row Erow (Hf _ _ Ef)).
    exact Hi.
  - intros name w [(Hi & [l Hl] & Hm & He) Hc]. split; [|exact Hc].
    cbn. repeat split; try assumption.
    eexists. rewrite Hl, <- app_assoc. reflexivity.
  - intros title w [(Hi & Hl & [l Hm] & He) Hc]. split; [|exact Hc].
    cbn. repeat split; try assumption.
    eexists. rewrite Hm, <- app_assoc. reflexivity.
Qed.

Lemma preserves_within_add_new_event (s : Store) (info : value) :
  preserves (within s) (add_new_event info).
Proof.
  pose proof (stable_within s) as St.
  unfold add_new_event. repeat keep.
  - intros w [(Hi & Hl & Hm & [l He]) Hc]. split; [|exact Hc].
    cbn. repeat split; try assumption.
    eexists. rewrite He, <- app_assoc. reflexivity.
  - apply (stable_commit _ St).
  - apply (stable_rollback _ St).
  - apply (stable_log _ St).
Qed.

(** X7.  No request deletes, renumbers or reorders an issue, and none
    inserts one.  After any request the database holds the same issues in
    the same order, each with the number and the creation time it had (its
    title, status, milestone and labels are what a request may change),
    and the labels, the milestones and the events it held, unchanged,
    possibly followed by new rows. *)
Theorem serve_extends_the_database (request : Request) (w : World) :
  extends (committed w) (committed (snd (serve request w))).
Proof.
  unfold serve.
  pose proof (hoare_issues_hooklistener (within (committed w))
                (stable_within _) request (fun _ => within (committed w)))
    as Hv.
  specialize (Hv (fun _ _ Hw => Hw)).
  specialize (Hv (fun info =>
                    preserves_bind _ _ _
                      (preserves_within_add_new_event _ info)
                      (fun _ => preserves_ret _ _))).
  specialize (Hv (set_session w (committed w))
                (conj (extends_refl _) (extends_refl _))).
  destruct (issues_hooklistener request (set_session w (committed w)))
    as [r w'].
  exact (proj2 Hv).
Qed.

(** Appending the Event: it returns only when nothing was stored, and it
    stores at most the one Event. *)
Lemma hoare_add_new_event (log0 : list Event) (info : value) :
  hoare (events_are log0)
    (add_new_event info ;;
     ret (Some (mkResponse "Yay! Data! *munch, munch, munch*" 200)))
    (fun r w =>
       events (committed w) = log0
       \/ (is_failure r /\ exists e, events (committed w) = (log0 ++ [e])%list)).
Proof.
  intros w [Hs Hc].
  unfold add_new_event, try_except, session_add_event, session_commit,
    session_rollback, logger_warning, logger_info, lift.
  cbn.
  repeat (match goal with
          | |- context [getitem ?a ?k] => destruct (getitem a k)
          | |- context [commit_outcomes ?w] =>
              destruct (commit_outcomes w) as [|[] ?]
          end; cbn; auto).
  all: right; split; [exact I|]; rewrite Hs; eauto.
Qed.

(** X8.  A request stores at most one Event, at the end of the log, and
    a request that does store one is answered 500: the view answers
    200, 202, 401 or 403 only when the log of events is what it was. *)
Theorem stored_event_is_answered_500 (request : Request) (w : World) :
  events (committed (snd (serve request w))) = events (committed w)
  \/ (fst (serve request w) = 500
      /\ exists e, events (committed (snd (serve request w)))
                   = (events (committed w) ++ [e])%list).
Proof.
  unfold serve.
  pose proof (hoare_issues_hooklistener (events_are (events (committed w)))
                (stable_events_are _) request
                (fun r w' =>
                   events (committed w') = events (committed w)
                   \/ (is_failure r
                       /\ exists e, events (committed w')
                                    = (events (committed w) ++ [e])%list)))
    as Hv.
  specialize (Hv (fun _ _ Hw => or_introl (proj2 Hw))).
  specialize (Hv (hoare_add_new_event _)).
  specialize (Hv (set_session w (committed w)) (conj eq_refl eq_refl)).
  destruct (issues_hooklistener request (set_session w (committed w)))
    as [r w'].
  cbn in *. destruct Hv as [E|[Hf E]]; [left; exact E|right].
  split; [|exact E].
  destruct r as [e|[resp|]]; [reflexivity|destruct Hf|reflexivity].
Qed.

End Invariants.

(** ** The extractor *)

Section ExtractorFacts.

(** Case analysis on the next lookup of the extractor. *)
Ltac lookup :=
  match goal with
  | |- context [getitem ?a ?k] => destruct (getitem a k) eqn:?
  | |- context [dict_get ?a ?k] => destruct (dict_get a k) eqn:?
  | |- context [truthy ?a] => destruct (truthy a) eqn:?
  end.

(** The next lookup of the extractor succeeds, or no record comes out. *)
Ltac next :=
  match goal with
  | |- match ?d with _ => _ end = _ -> _ => destruct d eqn:?; [discriminate|]
  end.

(** X9.  Every field of the record the extractor returns is the field of
    the payload it is named after: number, title and creation time of the
    issue, the login of the sender, the update time of the issue as the
    time of reception, the action it was given, and as milestone the title
    of the issue's milestone, or [None] when the issue has none. *)
Theorem extract_copies_the_payload (payload action changes info : value) :
  extract_issue_event_info payload action changes = inr info ->
  exists issue sender milestone,
    getitem payload "issue" = inr issue
    /\ getitem payload "sender" = inr sender
    /\ getitem issue "milestone" = inr milestone
    /\ getitem info "issue_id" = getitem issue "number"
    /\ getitem info "title" = getitem issue "title"
    /\ getitem info "created_at" = getitem issue "created_at"
    /\ getitem info "received_at" = getitem issue "updated_at"
    /\ getitem info "actor" = getitem sender "login"
    /\ getitem info "action" = inr action
    /\ getitem info "milestone"
       = (if truthy milestone then dict_get milestone "title"
          else inr VNone).
Proof.
  unfold extract_issue_event_info. cbn.
  destruct (getitem payload "issue") as [|issue] eqn:Ei; [discriminate|].
  destruct (getitem issue "milestone") as [|milestone] eqn:Em;
    [discriminate|].
  destruct (if truthy milestone then dict_get milestone "title"
            else inr VNone) as [|milestone_title] eqn:Et; [discriminate|].
  match goal with
  | |- match ?d with _ => _ end = _ -> _ =>
      destruct d as [|details]; [discriminate|]
  end.
  destruct (getitem issue "number") as [|number] eqn:E1; [discriminate|].
  destruct (getitem issue "title") as [|title] eqn:E2; [discriminate|].
  destruct (getitem issue "created_at") as [|created_at] eqn:E3;
    [discriminate|].
  destruct (getitem payload "sender") as [|sender] eqn:Es; [discriminate|].
  destruct (getitem sender "login") as [|login] eqn:E4; [discriminate|].
  destruct (getitem issue "updated_at") as [|updated_at] eqn:E5;
    [discriminate|].
  intros [= <-]. exists issue, sender, milestone.
  rewrite Et. cbn. repeat split; congruence.
Qed.

(** X10.  The detail of an [opened], [closed], [reopened] or [edited]
    event is the old title, [{'old title': changes['title']['from']}],
    when the changes bind [title] to a truthy value, and [None] in every
    other case. *)
Theorem extract_old_title (payload changes info : value) (action : string) :
  In action ["opened"; "closed"; "reopened"; "edited"] ->
  extract_issue_event_info payload (VStr action) changes = inr info ->
  getitem info "details"
  = (if truthy changes then
       title <- dict_get changes "title" ;;
       if truthy title then
         from <- getitem title "from" ;;
         ret (VDict [("old title", from)])
       else ret VNone
     else ret VNone).
Proof.
  intros Hin.
  assert (Ha : in_strs (VStr action)
                 ["opened"; "closed"; "reopened"; "edited"] = true).
  { repeat (destruct Hin as [<-|Hin]; [reflexivity|]). destruct Hin. }
  unfold extract_issue_event_info. rewrite Ha. cbn.
  destruct (getitem payload "issue") as [|issue]; [discriminate|].
  destruct (getitem issue "milestone") as [|milestone]; [discriminate|].
  destruct (if truthy milestone then dict_get milestone "title"
            else inr VNone) as [|milestone_title]; [discriminate|].
  destruct (truthy changes).
  - destruct (dict_get changes "title") as [|title] eqn:Et; [discriminate|].
    destruct (truthy title) eqn:Ett.
    + assert (Eg : getitem changes "title" = inr title).
      { destruct changes; try discriminate. cbn in *.
        destruct (assoc "title" d); [exact Et|].
        injection Et as <-. discriminate. }
      rewrite Eg.
      destruct (getitem title "from") as [|from]; [discriminate|].
      repeat next. intros [= <-]. reflexivity.
    + repeat next. intros [= <-]. reflexivity.
  - repeat next. intros [= <-]. reflexivity.
Qed.

(** X11.  For a [milestoned] event the detail is the title of the issue's
    milestone; when the payload gives the issue no milestone ([null]),
    the extractor raises [TypeError]. *)
Theorem extract_milestoned (payload changes : value) :
  match extract_issue_event_info payload (VStr "milestoned") changes with
  | inr info =>
      exists issue milestone title,
        getitem payload "issue" = inr issue
        /\ getitem issue "milestone" = inr milestone
        /\ getitem milestone "title" = inr title
        /\ getitem info "details" = inr (VDict [("milestone title", title)])
  | inl e =>
      forall issue,
        getitem payload "issue" = inr issue ->
        getitem issue "milestone" = inr VNone -> e = TypeError
  end.
Proof.
  destruct (extract_issue_event_info payload (VStr "milestoned") changes)
    as [e|info] eqn:E.
  - intros issue Hi Hm. unfold extract_issue_event_info in E.
    cbn in E. rewrite Hi in E. cbn in E. rewrite Hm in E. cbn in E.
    congruence.
  - revert E. unfold extract_issue_event_info. cbn.
    destruct (getitem payload "issue") as [|issue] eqn:Ei; [discriminate|].
    destruct (getitem issue "milestone") as [|milestone] eqn:Em;
      [discriminate|].
    destruct (if truthy milestone then dict_get milestone "title"
              else inr VNone) as [|milestone_title]; [discriminate|].
    destruct (getitem milestone "title") as [|title] eqn:Eg;
      [discriminate|].
    cbn. repeat next. intros [= <-].
    exists issue, milestone, title. auto.
Qed.

End ExtractorFacts.

(** ** What the view answers *)

Section ViewFacts.

Context `{Platform}.

#[local] Arguments is_github_hook : simpl never.
#[local] Arguments is_desirable_issue_event : simpl never.
#[local] Arguments extract_issue_event_info : simpl never.
#[local] Arguments add_new_event : simpl never.
#[local] Arguments add_new_issue : simpl never.
#[local] Arguments issue_title_edit : simpl never.
#[local] Arguments issue_status_change : simpl never.
#[local] Arguments issue_milestone_change : simpl never.
#[local] Arguments issue_label_change : simpl never.
#[local] Arguments process_label_event_info : simpl never.
#[local] Arguments process_milestone_event_info : simpl never.

Lemma read_payload_committed (request : Request) (w : World) :
  committed (snd (read_payload request w)) = committed w.
Proof.
  unfold read_payload, wonky_garbage, lift, logger_info. cbn.
  destruct (json_loads (data request)) as [|payload]; [reflexivity|].
  destruct (dict_get payload "action"); [reflexivity|].
  destruct (dict_get payload "changes"); reflexivity.
Qed.

Lemma is_desirable_committed (action changes : value) (w : World) :
  committed (snd (is_desirable_issue_event action changes w)) = committed w.
Proof.
  unfold is_desirable_issue_event, lift, logger_info. cbn.
  repeat (match goal with
          | |- context [if ?b then _ else _] => destruct b
          | |- context [dict_get ?a ?k] => destruct (dict_get a k)
          end; cbn; auto).
Qed.

Lemma not_in_eqb (s : string) (l : list string) (x : string) :
  ~ In s l -> In x l -> (s =? x)%string = false.
Proof.
  intros Hn Hx. apply String.eqb_neq. intros ->. exact (Hn Hx).
Qed.

Lemma read_payload_returns (request : Request) (w : World) :
  exists locals, fst (read_payload request w) = inr locals.
Proof.
  unfold read_payload, wonky_garbage, lift, logger_info. cbn.
  destruct (json_loads (data request)) as [|payload]; [cbn; eauto|].
  destruct (dict_get payload "action"); [cbn; eauto|].
  destruct (dict_get payload "changes"); cbn; eauto.
Qed.

Lemma view_on_other_event (request : Request) (category : string)
  (w : World) :
  is_github_hook request = inr true ->
  headers_get (headers request) "X-GitHub-Event" = Some category ->
  ~ In category ["issues"; "label"; "milestone"] ->
  exists w',
    issues_hooklistener request w
    = (inr (Some (if (category =? "ping")%string then mkResponse "pong" 200
                  else NO_AUTH)), w')
    /\ committed w' = committed w.
Proof.
  intros Hh He Hn.
  assert (E1 := not_in_eqb category _ "issues" Hn ltac:(cbn; tauto)).
  assert (E2 := not_in_eqb category _ "label" Hn ltac:(cbn; tauto)).
  assert (E3 := not_in_eqb category _ "milestone" Hn ltac:(cbn; tauto)).
  unfold issues_hooklistener. cbn. rewrite Hh. cbn. rewrite He.
  pose proof (read_payload_committed request w) as Ec.
  destruct (read_payload_returns request w) as [[[p a] c] Er].
  destruct (read_payload request w) as [r w1]. cbn in Er, Ec. subst r.
  cbn. rewrite E1, E2, E3.
  destruct (category =? "ping")%string; cbn; eauto.
Qed.

(** X12.  An event that is neither [issues], [label] nor [milestone] is
    never processed, whatever the body, valid JSON or not: [ping] is
    answered 200 with [pong], any other event 403, and the database is
    left alone. *)
Theorem other_events_are_not_processed (request : Request)
  (category : string) (w : World) :
  is_github_hook request = inr true ->
  headers_get (headers request) "X-GitHub-Event" = Some category ->
  ~ In category ["issues"; "label"; "milestone"] ->
  fst (issues_hooklistener request w)
  = inr (Some (if (category =? "ping")%string then mkResponse "pong" 200
               else NO_AUTH))
  /\ fst (serve request w) = (if (category =? "ping")%string then 200 else 403)
  /\ committed (snd (serve request w)) = committed w.
Proof.
  intros Hh He Hn. split; [|split].
  - destruct (view_on_other_event request category w Hh He Hn)
      as (w' & -> & _). reflexivity.
  - unfold serve.
    destruct (view_on_other_event request category
                (set_session w (committed w)) Hh He Hn) as (w' & -> & _).
    cbn. destruct (category =? "ping")%string; reflexivity.
  - unfold serve.
    destruct (view_on_other_event request category
                (set_session w (committed w)) Hh He Hn) as (w' & -> & Ec).
    exact Ec.
Qed.

(** X13.  An issue notification that the classifier does not find
    desirable ([assigned], [unassigned], an edit that leaves the title
    alone, an unknown action) is answered 202 and nothing is persisted. *)
Theorem undesirable_issue_event_is_acknowledged (request : Request)
  (payload changes : value) (action : string) (w : World) :
  is_notification "issues" request payload action ->
  dict_get payload "changes" = inr changes ->
  fst (is_desirable_issue_event (VStr action) changes w) = inr false ->
  fst (serve request w) = 202
  /\ committed (snd (serve request w)) = committed w.
Proof.
  intros (Hh & He & Hj & Ha) Hc Hd.
  rewrite (is_desirable_any_world _ _ w (set_session w (committed w))) in Hd.
  destruct (read_payload_object request payload _
              (set_session w (committed w)) Hj Ha) as (c & Hc' & Hr).
  rewrite Hc in Hc'. injection Hc' as <-.
  unfold serve, issues_hooklistener. cbn. rewrite Hh. cbn.
  rewrite He, Hr. cbn.
  pose proof (is_desirable_committed (VStr action) changes
                (set_session w (committed w))) as Ec.
  destruct (is_desirable_issue_event (VStr action) changes
              (set_session w (committed w))) as [[e|[|]] w1];
    cbn in *; try discriminate.
  split; [reflexivity|exact Ec].
Qed.

Lemma add_new_issue_fails (info : value) (w : World) :
  exists e, add_new_issue info w = (inl e, w).
Proof.
  unfold add_new_issue, lift, filter_by_positional. cbn.
  repeat (match goal with
          | |- context [getitem ?a ?k] => destruct (getitem a k)
          | |- context [truthy ?a] => destruct (truthy a)
          end; cbn; eauto).
Qed.

(** X14.  An [opened] notification never creates anything: the view runs
    [add_new_issue], which raises before it stages the issue, so the
    request ends in a 500 and neither an Issue nor an Event is stored. *)
Theorem opened_issue_is_never_stored (request : Request) (payload : value)
  (w : World) :
  is_notification "issues" request payload "opened" ->
  fst (serve request w) = 500
  /\ committed (snd (serve request w)) = committed w.
Proof.
  intros Hn.
  pose proof Hn as (_ & _ & _ & Ha).
  destruct (dict_get_total _ _ "changes" _ Ha) as [c Hc].
  unfold serve.
  rewrite (view_on_desirable request payload c "opened" _ Hn Hc)
    by reflexivity.
  cbn.
  destruct (extract_issue_event_info payload (VStr "opened") c)
    as [e|info]; cbn; [split; reflexivity|].
  unfold transition. cbn.
  destruct (add_new_issue_fails info (set_session w (committed w)))
    as [e ->].
  cbn. split; reflexivity.
Qed.

Lemma session_commit_accepted (w : World) :
  commit_accepted w ->
  session_commit w
  = (inr tt, mkWorld (session w) (session w) (tl (commit_outcomes w))
               (log w)).
Proof.
  unfold commit_accepted, session_commit.
  destruct (commit_outcomes w) as [|[] ?]; cbn; (reflexivity || discriminate).
Qed.

(** With its commit accepted, [add_new_event] stores the Event and then
    raises: the message it formats names a field [evg] that no argument
    provides. *)
Lemma add_new_event_stored (payload action changes info : value)
  (w : World) :
  extract_issue_event_info payload action changes = inr info ->
  commit_accepted w ->
  exists e,
    records e info
    /\ add_new_event info w
       = (inl (KeyError (VStr "evg")),
          mkWorld (with_event e (session w)) (with_event e (session w))
                  (tl (commit_outcomes w)) (log w)).
Proof.
  intros E Hc. apply extract_shape in E.
  destruct E as (n & t & c & m & a & d & r & ->).
  eexists (mkEvent _ n a action d r). split; [repeat split|].
  unfold add_new_event, try_except, session_add_event, lift. cbn.
  rewrite session_commit_accepted by exact Hc. reflexivity.
Qed.

(** X15.  When the transition of a desirable issue notification has
    returned and the database accepts the commit of the Event, the Event
    is stored behind whatever the transition left in the session, it
    records the issue, the actor, the action, the detail and the time of
    the extracted record, and the request is nevertheless answered 500. *)
Theorem stored_event_follows_the_mutation (request : Request)
  (payload changes info : value) (action : string) (w w1 : World) :
  is_notification "issues" request payload action ->
  dict_get payload "changes" = inr changes ->
  fst (is_desirable_issue_event (VStr action) changes w) = inr true ->
  extract_issue_event_info payload (VStr action) changes = inr info ->
  transition info (VStr action) (set_session w (committed w)) = (inr tt, w1) ->
  commit_accepted w1 ->
  fst (serve request w) = 500
  /\ exists e,
       records e info
       /\ committed (snd (serve request w)) = with_event e (session w1).
Proof.
  intros Hn Hc Hd He Ht Ha.
  rewrite (is_desirable_any_world _ _ w (set_session w (committed w))) in Hd.
  unfold serve.
  rewrite (view_on_desirable request payload changes action _ Hn Hc Hd).
  cbn. rewrite He. cbn. rewrite Ht.
  destruct (add_new_event_stored _ _ _ _ w1 He Ha) as (e & Hr & ->).
  cbn. split; [reflexivity|]. exists e. split; [exact Hr|reflexivity].
Qed.

(** X16.  For a desirable issue notification the view does what
    [update_db] does with the extracted record: its chain of tests is the
    one of [update_db], followed by the same [add_new_event]. *)
Theorem view_runs_update_db (request : Request) (payload changes : value)
  (action : string) (w : World) :
  is_notification "issues" request payload action ->
  dict_get payload "changes" = inr changes ->
  fst (is_desirable_issue_event (VStr action) changes w) = inr true ->
  issues_hooklistener request w
  = (issue_event_info <-
       lift (extract_issue_event_info payload (VStr action) changes) ;;
     update_db issue_event_info (VStr action) ;;
     ret (Some (mkResponse "Yay! Data! *munch, munch, munch*" 200))) w.
Proof.
  intros Hn Hc Hd.
  rewrite (view_on_desirable request payload changes action w Hn Hc Hd).
  cbn.
  destruct (extract_issue_event_info payload (VStr action) changes)
    as [e|info]; cbn; [reflexivity|].
  unfold update_db, transition. cbn.
  destruct (if (action =? "opened")%string then _ else _) as [[e|[]] w1];
    reflexivity.
Qed.

End ViewFacts.

(** ** The transitions, one by one *)

Section TransitionFacts.

Lemma commit_after (w : World) :
  commit_accepted w -> session_commit w = (inr tt, after_commit (session w) w).
Proof.
  unfold commit_accepted, session_commit, after_commit.
  destruct (commit_outcomes w) as [|[] ?]; cbn; (reflexivity || discriminate).
Qed.

(** Updating the row that the lookup found, then committing. *)
Lemma update_and_commit (attribute : string) (number : value) (i : nat)
  (f : Issue -> Issue) (w : World) :
  issue_at number w = Some i ->
  commit_accepted w ->
  (x <- Issue_update (Some i) attribute (fun row => inr (f row)) ;;
   session_commit) w
  = (inr tt,
     after_commit (with_issues (update_nth i f (issues (session w)))
                               (session w)) w).
Proof.
  intros Hf Hc. destruct (find_index_nth_error _ _ _ Hf) as [row Hrow].
  cbn. unfold Issue_update. rewrite Hrow. cbn.
  rewrite commit_after by exact Hc. cbn.
  rewrite (update_nth_at f _ _ _ Hrow). reflexivity.
Qed.

(** X17.  [issue_title_edit] gives the issue that [info['issue_id']]
    names the title [info['title']] and commits; the other rows and the
    other columns stay as they are. *)
Theorem issue_title_edit_sets_the_title (info number title : value)
  (i : nat) (w : World) :
  getitem info "issue_id" = inr number ->
  getitem info "title" = inr title ->
  issue_at number w = Some i ->
  commit_accepted w ->
  issue_title_edit info w
  = (inr tt,
     after_commit (with_issues (update_nth i (with_title title)
                                  (issues (session w)))
                               (session w)) w).
Proof.
  intros Hn Ht Hf Hc.
  rewrite <- (update_and_commit "title" number i (with_title title) w Hf Hc).
  unfold issue_title_edit, lift, Issue_query_get. cbn.
  rewrite Hn, Ht. fold (issue_at number w). rewrite Hf. reflexivity.
Qed.

(** X18.  Called with [closed] or [reopened], [issue_status_change] sets
    the status of the issue to closed or to open and commits: the helper
    does reopen an issue, when it is called. *)
Theorem issue_status_change_sets_the_status (info number : value)
  (action : string) (is_open : bool) (i : nat) (w : World) :
  In (action, is_open) [("closed", false); ("reopened", true)] ->
  getitem info "issue_id" = inr number ->
  issue_at number w = Some i ->
  commit_accepted w ->
  issue_status_change info (VStr action) w
  = (inr tt,
     after_commit (with_issues (update_nth i (with_status is_open)
                                  (issues (session w)))
                               (session w)) w).
Proof.
  intros Ha Hn Hf Hc.
  rewrite <- (update_and_commit "is_open" number i (with_status is_open) w
                Hf Hc).
  unfold issue_status_change, lift, Issue_query_get. cbn.
  rewrite Hn. fold (issue_at number w). rewrite Hf.
  destruct Ha as [[= <- <-]|[[= <- <-]|[]]]; reflexivity.
Qed.

(** X19.  [issue_milestone_change] clears the milestone of the issue for
    every action other than [milestoned]; for [milestoned] it sets the
    milestone to [info['milestone_id']], and raises [KeyError] without
    staging anything when [info] has no such key. *)
Theorem issue_milestone_change_sets_or_clears (info number action : value)
  (i : nat) (w : World) :
  getitem info "issue_id" = inr number ->
  getitem info "action" = inr action ->
  issue_at number w = Some i ->
  commit_accepted w ->
  issue_milestone_change info w
  = if eq_str action "milestoned" then
      match getitem info "milestone_id" with
      | inr m =>
          (inr tt,
           after_commit (with_issues (update_nth i (with_milestone m)
                                        (issues (session w)))
                                     (session w)) w)
      | inl e => (inl e, w)
      end
    else
      (inr tt,
       after_commit (with_issues (update_nth i (with_milestone VNone)
                                    (issues (session w)))
                                 (session w)) w).
Proof.
  intros Hn Ha Hf Hc.
  unfold issue_milestone_change, lift, Issue_query_get. cbn.
  rewrite Hn, Ha. fold (issue_at number w). rewrite Hf.
  destruct (eq_str action "milestoned").
  - destruct (getitem info "milestone_id") as [e|m]; [reflexivity|].
    rewrite <- (update_and_commit "milestone_id" number i (with_milestone m)
                  w Hf Hc).
    reflexivity.
  - rewrite <- (update_and_commit "milestone_id" number i
                  (with_milestone VNone) w Hf Hc).
    reflexivity.
Qed.

Lemma find_index_update_nth {A : Type} (p : A -> bool) (f : A -> A)
  (i : nat) (l : list A) :
  (forall x, p (f x) = p x) ->
  find_index p (update_nth i f l) = find_index p l.
Proof.
  intros Hp. revert i. induction l as [|a l IH]; intros [|i]; cbn;
    try reflexivity.
  - rewrite Hp. reflexivity.
  - rewrite IH. reflexivity.
Qed.

Lemma update_nth_twice {A : Type} (f g : A -> A) (i : nat) (l : list A) :
  update_nth i g (update_nth i f l) = update_nth i (fun x => g (f x)) l.
Proof.
  revert i. induction l as [|a l IH]; intros [|i]; cbn; try reflexivity.
  rewrite IH. reflexivity.
Qed.

Lemma update_nth_id {A : Type} (f : A -> A) (i : nat) (l : list A) (x : A) :
  nth_error l i = Some x -> f x = x -> update_nth i f l = l.
Proof.
  revert i. induction l as [|a l IH]; intros [|i]; cbn; try discriminate.
  - intros [= ->] ->. reflexivity.
  - intros E Hx. rewrite (IH _ E Hx). reflexivity.
Qed.

Lemma remove_first_last (l : Z) (ls : list Z) :
  ~ In l ls -> remove_first l (ls ++ [l]) = Some ls.
Proof.
  induction ls as [|x ls IH]; cbn; intros Hn.
  - rewrite Z.eqb_refl. reflexivity.
  - destruct (x =? l) eqn:E.
    + apply Z.eqb_eq in E. exfalso. apply Hn. left. exact E.
    + rewrite IH by (intros Hin; apply Hn; right; exact Hin). reflexivity.
Qed.

(** What [issue_label_change] does once its lookups have succeeded. *)
Lemma issue_label_change_found (info number name : value) (action : string)
  (label : Label) (i : nat) (row : Issue) (w : World) :
  label_event info number name action ->
  labels_named name w = [label] ->
  issue_at number w = Some i ->
  nth_error (issues (session w)) i = Some row ->
  commit_accepted w ->
  issue_label_change info w
  = match (if eq_str (VStr action) "labeled"
           then labels_append (label_id label) row
           else labels_remove (label_id label) row) with
    | inr row' =>
        (inr tt,
         after_commit (with_issues (update_nth i (fun _ => row')
                                      (issues (session w)))
                                   (session w)) w)
    | inl e => (inl e, w)
    end.
Proof.
  intros (Hn & Hd & Ha) Hl Hf Hrow Hc.
  unfold issue_label_change, lift, Label_one, Issue_query_get. cbn.
  rewrite Hd. cbn. fold (labels_named name w). rewrite Hl. cbn.
  rewrite Hn, Ha. fold (issue_at number w). rewrite Hf.
  unfold Issue_update. cbn [eq_str].
  destruct (action =? "labeled")%string; rewrite Hrow.
  - cbn. rewrite commit_after by exact Hc. reflexivity.
  - destruct (labels_remove (label_id label) row); [reflexivity|].
    cbn. rewrite commit_after by exact Hc. reflexivity.
Qed.

(** X20.  Labelling and then unlabelling, by two calls of
    [issue_label_change], is a round trip: when the store holds exactly
    one label of that name, the issue exists, it does not carry the label
    yet and both commits are accepted, the issues are afterwards what they
    were before. *)
Theorem issue_label_change_round_trip (labeled unlabeled number name : value)
  (label : Label) (i : nat) (row : Issue) (w : World) :
  label_event labeled number name "labeled" ->
  label_event unlabeled number name "unlabeled" ->
  labels_named name w = [label] ->
  issue_at number w = Some i ->
  nth_error (issues (session w)) i = Some row ->
  ~ In (label_id label) (issue_labels row) ->
  commit_accepted w ->
  hd true (tl (commit_outcomes w)) = true ->
  exists w1 w2,
    issue_label_change labeled w = (inr tt, w1)
    /\ nth_error (issues (committed w1)) i
       = Some (with_labels (issue_labels row ++ [label_id label]) row)
    /\ issue_label_change unlabeled w1 = (inr tt, w2)
    /\ issues (committed w2) = issues (session w).
Proof.
  intros Hl Hu Hn Hf Hrow Hnew Hc1 Hc2.
  set (row1 := with_labels (issue_labels row ++ [label_id label]) row).
  set (w1 := after_commit
               (with_issues (update_nth i (fun _ => row1)
                               (issues (session w))) (session w)) w).
  assert (Hrow1 : nth_error (issues (session w1)) i = Some row1).
  { cbn. clear - Hrow. revert i Hrow.
    induction (issues (session w)) as [|a l IH]; intros [|i]; cbn;
      try discriminate; auto. }
  assert (Hf1 : issue_at number w1 = Some i).
  { unfold issue_at in *. cbn.
    rewrite <- Hf. clear - Hrow Hf.
    revert i Hrow Hf. induction (issues (session w)) as [|a l IH];
      intros [|i]; cbn; try discriminate.
    - intros [= ->]. reflexivity.
    - intros Hrow. destruct (value_eqb (issue_number a) number);
        [discriminate|].
      destruct (find_index _ l) as [j|] eqn:Ej; [|discriminate].
      intros [= ->]. rewrite (IH _ Hrow eq_refl). reflexivity. }
  exists w1.
  eexists. split; [|split; [exact Hrow1|split]].
  - rewrite (issue_label_change_found _ _ _ _ _ _ _ _ Hl Hn Hf Hrow Hc1).
    reflexivity.
  - rewrite (issue_label_change_found _ _ _ _ label i row1 w1 Hu Hn Hf1
               Hrow1 Hc2).
    cbn. unfold labels_remove. cbn.
    rewrite (remove_first_last _ _ Hnew). reflexivity.
  - cbn. rewrite update_nth_twice.
    apply (update_nth_id _ _ _ row Hrow). destruct row. reflexivity.
Qed.

End TransitionFacts.

(** ** The mutation and its Event are two transactions *)

Section TwoTransactions.

Context `{Platform}.

#[local] Arguments is_github_hook : simpl never.
#[local] Arguments is_desirable_issue_event : simpl never.
#[local] Arguments extract_issue_event_info : simpl never.
#[local] Arguments add_new_event : simpl never.
#[local] Arguments transition : simpl never.

(** The transition of an [edited], a [closed] or a [labeled] notification
    whose lookups succeed updates the row of the issue and commits. *)
Lemma transition_mutates (info number : value) (action : string)
  (f : Issue -> Issue) (i : nat) (w : World) :
  getitem info "issue_id" = inr number ->
  getitem info "action" = inr (VStr action) ->
  issue_at number w = Some i ->
  commit_accepted w ->
  mutates action info w f ->
  transition info (VStr action) w
  = (inr tt,
     after_commit (with_issues (update_nth i f (issues (session w)))
                               (session w)) w).
Proof.
  intros Hn Ha Hf Hc
    [(-> & title & Ht & ->)|[(-> & ->)|(-> & name & label & Hd & Hl & ->)]].
  - change (transition info (VStr "edited") w) with (issue_title_edit info w).
    rewrite <- (update_and_commit "title" number i (with_title title) w
                  Hf Hc).
    unfold issue_title_edit, lift, Issue_query_get. cbn.
    rewrite Hn, Ht. fold (issue_at number w). rewrite Hf. reflexivity.
  - change (transition info (VStr "closed") w)
      with (issue_status_change info (VStr "closed") w).
    rewrite <- (update_and_commit "is_open" number i (with_status false) w
                  Hf Hc).
    unfold issue_status_change, lift, Issue_query_get. cbn.
    rewrite Hn. fold (issue_at number w). rewrite Hf. reflexivity.
  - change (transition info (VStr "labeled") w)
      with (issue_label_change info w).
    destruct (find_index_nth_error _ _ _ Hf) as [row Hrow].
    rewrite (issue_label_change_found info number name "labeled" label i
               row w (conj Hn (conj Hd Ha)) Hl Hf Hrow Hc).
    cbn.
    rewrite <- (update_nth_at
                  (fun row => with_labels (issue_labels row ++ [label_id label])
                                          row) _ _ _ Hrow).
    reflexivity.
Qed.

(** C4 (as amended).  The issue mutation and the Event append are two
    transactions.  For an [edited], a [closed] or a [labeled] notification
    whose issue (and label) the database holds, the transition updates the
    row of the issue and commits it on its own: when the database accepts
    that commit and refuses the next one, the transition leaves the mutated
    row in the database, [add_new_event] rolls back the Event alone, the
    request is answered 200, and the database holds the rows it held with
    the one issue mutated and no Event more.  The request made exactly
    those two commits. *)
Theorem event_failure_keeps_the_mutation (request : Request)
  (payload changes info number : value) (action : string)
  (f : Issue -> Issue) (i : nat) (w : World) (rest : list bool) :
  is_notification "issues" request payload action ->
  dict_get payload "changes" = inr changes ->
  fst (is_desirable_issue_event (VStr action) changes w) = inr true ->
  extract_issue_event_info payload (VStr action) changes = inr info ->
  getitem info "issue_id" = inr number ->
  issue_at number (set_session w (committed w)) = Some i ->
  mutates action info (set_session w (committed w)) f ->
  commit_outcomes w = true :: false :: rest ->
  transition info (VStr action) (set_session w (committed w))
  = (inr tt,
     mkWorld (with_issue i f (committed w)) (with_issue i f (committed w))
             (false :: rest) (log w))
  /\ fst (serve request w) = 200
  /\ committed (snd (serve request w)) = with_issue i f (committed w)
  /\ commit_outcomes (snd (serve request w)) = rest.
Proof.
  intros Hn Hc Hd He Hi Hf Hm Ho.
  set (s1 := with_issue i f (committed w)).
  assert (Ha : getitem info "action" = inr (VStr action)).
  { pose proof (extract_shape _ _ _ _ He)
      as (n & t & c & m & a & d & r & ->). reflexivity. }
  assert (Ht : transition info (VStr action) (set_session w (committed w))
               = (inr tt, mkWorld s1 s1 (false :: rest) (log w))).
  { rewrite (transition_mutates info number action f i _ Hi Ha Hf);
      [|unfold commit_accepted; cbn; rewrite Ho; reflexivity|exact Hm].
    unfold after_commit. cbn. rewrite Ho. reflexivity. }
  split; [exact Ht|].
  rewrite (is_desirable_any_world _ _ w (set_session w (committed w))) in Hd.
  unfold serve.
  rewrite (view_on_desirable request payload changes action _ Hn Hc Hd).
  cbn. rewrite He. cbn. rewrite Ht.
  rewrite (add_new_event_rolled_back _ _ _ _ _ rest He) by reflexivity.
  cbn. repeat split; reflexivity.
Qed.

End TwoTransactions.

(** ** Lookups that miss, and the label and milestone events *)

Section EntityFacts.

Context `{Platform}.

#[local] Arguments is_github_hook : simpl never.
#[local] Arguments is_desirable_issue_event : simpl never.
#[local] Arguments extract_issue_event_info : simpl never.
#[local] Arguments add_new_event : simpl never.

(** X21.  An [edited] or [closed] notification for an issue the database
    does not hold ends in a 500: the lookup returns [None], the assignment
    to its attribute raises [AttributeError], and nothing is persisted,
    not even the Event. *)
Theorem unknown_issue_is_a_server_error (request : Request)
  (payload changes info number : value) (action : string) (w : World) :
  is_notification "issues" request payload action ->
  In action ["edited"; "closed"] ->
  dict_get payload "changes" = inr changes ->
  fst (is_desirable_issue_event (VStr action) changes w) = inr true ->
  extract_issue_event_info payload (VStr action) changes = inr info ->
  getitem info "issue_id" = inr number ->
  issue_at number (set_session w (committed w)) = None ->
  fst (serve request w) = 500
  /\ committed (snd (serve request w)) = committed w.
Proof.
  intros Hn Hin Hc Hd He Hi Hf.
  rewrite (is_desirable_any_world _ _ w (set_session w (committed w))) in Hd.
  unfold serve.
  rewrite (view_on_desirable request payload changes action _ Hn Hc Hd).
  cbn. rewrite He. cbn.
  apply extract_shape in He.
  destruct He as (n & t & c & m & a & d & r & ->).
  cbn in Hi. injection Hi as ->.
  unfold issue_at in Hf. cbn in Hf.
  destruct Hin as [<-|[<-|[]]]; cbn; rewrite Hf; cbn; split; reflexivity.
Qed.

(** X22.  A [labeled] notification that names a label the database does
    not hold ends in a 500: [.one()] raises [NoResultFound], and nothing
    is persisted, not even the Event. *)
Theorem unknown_label_is_a_server_error (request : Request)
  (payload changes info number name : value) (w : World) :
  is_notification "issues" request payload "labeled" ->
  dict_get payload "changes" = inr changes ->
  extract_issue_event_info payload (VStr "labeled") changes = inr info ->
  label_event info number name "labeled" ->
  labels_named name (set_session w (committed w)) = [] ->
  fst (serve request w) = 500
  /\ committed (snd (serve request w)) = committed w.
Proof.
  intros Hn Hc He (_ & Hd & _) Hl.
  unfold serve.
  rewrite (view_on_desirable request payload changes "labeled" _ Hn Hc)
    by reflexivity.
  cbn. rewrite He. cbn.
  unfold issue_label_change, lift, Label_one. cbn. rewrite Hd. cbn.
  unfold labels_named in Hl. cbn in Hl. rewrite Hl. cbn.
  split; reflexivity.
Qed.

(** X23.  A [created] label notification without changes stores one new
    label, named as the payload says, behind the labels the database
    holds; the view returns no response, so the request is answered
    500. *)
Theorem created_label_is_stored (request : Request)
  (payload label name : value) (w : World) :
  is_notification "label" request payload "created" ->
  getitem payload "label" = inr label ->
  getitem label "name" = inr name ->
  contains payload "changes" = inr false ->
  commit_accepted w ->
  fst (serve request w) = 500
  /\ committed (snd (serve request w))
     = with_label (mkLabel (next_id label_id (labels (committed w))) name)
                  (committed w).
Proof.
  intros (Hh & He & Hj & Ha) Hl Hname Hc Hok.
  destruct (read_payload_object request payload _
              (set_session w (committed w)) Hj Ha) as (c & _ & Hr).
  unfold serve, issues_hooklistener. cbn. rewrite Hh. cbn.
  rewrite He, Hr. cbn.
  rewrite (dict_get_getitem _ _ _ Ha), Hl. cbn. rewrite Hname, Hc. cbn.
  unfold session_commit. cbn.
  unfold commit_accepted in Hok.
  destruct (commit_outcomes w) as [|[] ?]; try discriminate;
    cbn; split; reflexivity.
Qed.

(** X24.  A [created] milestone notification without changes stores one
    new milestone, titled as the payload says, behind the milestones the
    database holds; the view returns no response, so the request is
    answered 500. *)
Theorem created_milestone_is_stored (request : Request)
  (payload milestone title : value) (w : World) :
  is_notification "milestone" request payload "created" ->
  getitem payload "milestone" = inr milestone ->
  getitem milestone "title" = inr title ->
  contains payload "changes" = inr false ->
  commit_accepted w ->
  fst (serve request w) = 500
  /\ committed (snd (serve request w))
     = with_milestone_row
         (mkMilestone (next_id milestone_id (milestones (committed w))) title)
         (committed w).
Proof.
  intros (Hh & He & Hj & Ha) Hm Ht Hc Hok.
  destruct (read_payload_object request payload _
              (set_session w (committed w)) Hj Ha) as (c & _ & Hr).
  unfold serve, issues_hooklistener. cbn. rewrite Hh. cbn.
  rewrite He, Hr. cbn.
  rewrite (dict_get_getitem _ _ _ Ha), Hm. cbn. rewrite Ht, Hc. cbn.
  unfold session_commit. cbn.
  unfold commit_accepted in Hok.
  destruct (commit_outcomes w) as [|[] ?]; try discriminate;
    cbn; split; reflexivity.
Qed.

(** X25.  A milestone notification whose action is not [created] changes
    no row.  For [edited] and [deleted] the helper binds the new title to
    an attribute of a query object, or calls [db.session.remove] with an
    argument, and the request is answered 500: no milestone is renamed
    or deleted.  Any other action is acknowledged with 202. *)
Theorem milestone_rename_is_lost (request : Request) (payload : value)
  (action : string) (w : World) :
  is_notification "milestone" request payload action ->
  eq_str (VStr action) "created" = false ->
  fst (serve request w)
  = (if in_strs (VStr action) ["edited"; "deleted"] then 500 else 202)
  /\ committed (snd (serve request w)) = committed w.
Proof.
  intros (Hh & He & Hj & Ha) Hc.
  destruct (read_payload_object request payload _
              (set_session w (committed w)) Hj Ha) as (c & _ & Hr).
  unfold serve, issues_hooklistener. cbn. rewrite Hh. cbn.
  rewrite He, Hr. cbn. cbn in Hc. rewrite Hc. cbn.
  destruct (action =? "edited")%string; cbn;
    [|destruct (action =? "deleted")%string; cbn; [|split; reflexivity]].
  all: rewrite (dict_get_getitem _ _ _ Ha); cbn; rewrite ?Hc.
  all: unfold lift, Query_setattr, session_remove, session_commit; cbn.
  all: repeat (first
         [ match goal with
           | |- context [getitem ?a ?k] => destruct (getitem a k) eqn:?
           | |- context [contains ?a ?k] => destruct (contains a k) eqn:?
           | |- context [truthy ?a] => destruct (truthy a) eqn:?
           | |- context [commit_outcomes ?w] =>
               destruct (commit_outcomes w) as [|[] ?] eqn:?
           | |- context [if ?b then _ else _] => destruct b
           end ]; cbn; auto).
Qed.

(** X26.  An action that is none of the ten the classifier knows is not
    desirable, and the classifier writes one line to the log, which ends
    with the name of the action; nothing else changes. *)
Theorem unknown_action_is_logged (action : string) (changes : value)
  (w : World) :
  ~ In action ["opened"; "closed"; "reopened"; "labeled"; "unlabeled";
               "milestoned"; "unmilestoned"; "assigned"; "unassigned";
               "edited"] ->
  is_desirable_issue_event (VStr action) changes w
  = (inr false,
     mkWorld (committed w) (session w) (commit_outcomes w)
       (log w ++ [("Hey, GitHub sent a funky issues-event action: "
                   ++ action)%string])).
Proof.
  intros Hn.
  assert (E : forall x,
             In x ["opened"; "closed"; "reopened"; "labeled"; "unlabeled";
                   "milestoned"; "unmilestoned"; "assigned"; "unassigned";
                   "edited"] -> (action =? x)%string = false).
  { intros x Hx. apply String.eqb_neq. intros ->. exact (Hn Hx). }
  unfold is_desirable_issue_event, in_strs, lift, logger_info. cbn.
  rewrite !E by (cbn; tauto). cbn. rewrite append_empty. reflexivity.
Qed.

End EntityFacts.

(** * Further concrete runs *)

(** X3 on a signed request. *)
Lemma accepted_hook_is_signed_witness :
  let request := signed "issues" (issue_body "closed" "42" "null") in
  (exists category,
     headers_get (headers request) "X-GitHub-Event" = Some category)
  /\ headers_get (headers request) "X-Hub-Signature"
     = Some (expected_signature (H := github) request).
Proof.
  cbv zeta. apply (accepted_hook_is_signed (H := github)).
  vm_compute. reflexivity.
Defined.

(** X4 on a signed request. *)
Lemma signed_request_is_accepted_witness :
  is_github_hook (H := github)
    (signed "issues" (issue_body "closed" "42" "null"))
  = inr true.
Proof.
  apply (signed_request_is_accepted (H := github) _ "issues");
    vm_compute; reflexivity.
Defined.

(** X5 on a request whose digest is not the HMAC of its body. *)
Lemma unsigned_request_changes_nothing_witness :
  let request :=
    mkRequest [("X-GitHub-Event", "issues");
               ("X-Hub-Signature",
                "sha1=0000000000000000000000000000000000000000")]
              (issue_body "closed" "42" "null") in
  let w := world_of (one_issue true) in
  committed (snd (serve (H := github) request w)) = committed w
  /\ (fst (serve (H := github) request w) = 401
      \/ fst (serve (H := github) request w) = 500).
Proof.
  cbv zeta. apply (unsigned_request_changes_nothing (H := github)).
  vm_compute. intros [=].
Defined.

(** X6 on a request with a signature header on which the check raises. *)
Lemma request_without_event_is_answered_401_witness :
  let request :=
    mkRequest [("X-Hub-Signature", "sha1=a=b")]
              (issue_body "closed" "42" "null") in
  let w := world_of (one_issue true) in
  is_github_hook (H := github) request = inr false
  /\ fst (serve (H := github) request w) = 401
  /\ committed (snd (serve (H := github) request w)) = committed w.
Proof.
  cbv zeta. apply (request_without_event_is_answered_401 (H := github)).
  reflexivity.
Defined.

(** X9 on the payload of a [closed] notification. *)
Lemma extract_copies_the_payload_witness :
  let payload := issue_payload "closed" 42 VNone in
  let info := the (extract_issue_event_info payload (VStr "closed") VNone) in
  exists issue sender milestone,
    getitem payload "issue" = inr issue
    /\ getitem payload "sender" = inr sender
    /\ getitem issue "milestone" = inr milestone
    /\ getitem info "issue_id" = getitem issue "number"
    /\ getitem info "title" = getitem issue "title"
    /\ getitem info "created_at" = getitem issue "created_at"
    /\ getitem info "received_at" = getitem issue "updated_at"
    /\ getitem info "actor" = getitem sender "login"
    /\ getitem info "action" = inr (VStr "closed")
    /\ getitem info "milestone"
       = (if truthy milestone then dict_get milestone "title"
          else inr VNone).
Proof.
  cbv zeta.
  apply (extract_copies_the_payload (issue_payload "closed" 42 VNone)
           (VStr "closed") VNone).
  reflexivity.
Defined.

(** X10 on the payload of a title edit. *)
Lemma extract_old_title_witness :
  let payload := decoded edited_body in
  let changes := the (dict_get payload "changes") in
  let info := the (extract_issue_event_info payload (VStr "edited") changes) in
  getitem info "details"
  = (if truthy changes then
       title <- dict_get changes "title" ;;
       if truthy title then
         from <- getitem title "from" ;;
         ret (VDict [("old title", from)])
       else ret VNone
     else ret VNone).
Proof.
  cbv zeta.
  apply (extract_old_title (decoded edited_body) _ _ "edited").
  - cbn. tauto.
  - vm_compute. reflexivity.
Defined.

(** X12 on a signed [ping] whose body is no JSON text. *)
Lemma other_events_are_not_processed_witness :
  let request := signed "ping" (list_byte_of_string "not json") in
  let w := world_of (one_issue true) in
  fst (issues_hooklistener (H := github) request w)
  = inr (Some (if ("ping" =? "ping")%string then mkResponse "pong" 200
               else NO_AUTH))
  /\ fst (serve (H := github) request w)
     = (if ("ping" =? "ping")%string then 200 else 403)
  /\ committed (snd (serve (H := github) request w)) = committed w.
Proof.
  cbv zeta. apply (other_events_are_not_processed (H := github)).
  - vm_compute. reflexivity.
  - vm_compute. reflexivity.
  - cbn. intros [E|[E|[E|[]]]]; discriminate E.
Defined.

(** X13 on a signed [assigned] notification. *)
Lemma undesirable_issue_event_is_acknowledged_witness :
  let request := signed "issues" (issue_body "assigned" "42" "null") in
  let w := world_of (one_issue true) in
  fst (serve (H := github) request w) = 202
  /\ committed (snd (serve (H := github) request w)) = committed w.
Proof.
  cbv zeta.
  apply (undesirable_issue_event_is_acknowledged (H := github) _
           (issue_payload "assigned" 42 VNone) VNone "assigned").
  - split; [|split; [|split]]; vm_compute; reflexivity.
  - reflexivity.
  - reflexivity.
Defined.

(** X14 on a signed [opened] notification and an empty database. *)
Lemma opened_issue_is_never_stored_witness :
  let request := signed "issues" (issue_body "opened" "42" "null") in
  let w := world_of no_rows in
  fst (serve (H := github) request w) = 500
  /\ committed (snd (serve (H := github) request w)) = committed w.
Proof.
  cbv zeta.
  apply (opened_issue_is_never_stored (H := github) _
           (issue_payload "opened" 42 VNone)).
  split; [|split; [|split]]; vm_compute; reflexivity.
Defined.

(** X15 on a signed [closed] notification for the open issue 42, every
    commit being accepted. *)
Lemma stored_event_follows_the_mutation_witness :
  let request := signed "issues" (issue_body "closed" "42" "null") in
  let payload := issue_payload "closed" 42 VNone in
  let info := the (extract_issue_event_info payload (VStr "closed") VNone) in
  let w := world_of (one_issue true) in
  fst (serve (H := github) request w) = 500
  /\ exists e,
       records e info
       /\ committed (snd (serve (H := github) request w))
          = with_event e (one_issue false).
Proof.
  cbv zeta.
  apply (stored_event_follows_the_mutation (H := github) _
           (issue_payload "closed" 42 VNone) VNone _ "closed"
           (world_of (one_issue true)) (world_of (one_issue false))).
  - split; [|split; [|split]]; vm_compute; reflexivity.
  - reflexivity.
  - reflexivity.
  - reflexivity.
  - reflexivity.
  - reflexivity.
Defined.

(** X16 on the same notification. *)
Lemma view_runs_update_db_witness :
  let request := signed "issues" (issue_body "closed" "42" "null") in
  let payload := issue_payload "closed" 42 VNone in
  let w := world_of (one_issue true) in
  issues_hooklistener (H := github) request w
  = (issue_event_info <-
       lift (extract_issue_event_info payload (VStr "closed") VNone) ;;
     update_db (H := github) issue_event_info (VStr "closed") ;;
     ret (Some (mkResponse "Yay! Data! *munch, munch, munch*" 200))) w.
Proof.
  cbv zeta.
  apply (view_runs_update_db (H := github) _
           (issue_payload "closed" 42 VNone) VNone "closed").
  - split; [|split; [|split]]; vm_compute; reflexivity.
  - reflexivity.
  - reflexivity.
Defined.

(** X17 on the issue 42. *)
Lemma issue_title_edit_sets_the_title_witness :
  let info := VDict [("issue_id", VInt 42); ("title", VStr "Fixed")] in
  let w := world_of (one_issue true) in
  issue_title_edit info w
  = (inr tt,
     after_commit (with_issues (update_nth 0 (with_title (VStr "Fixed"))
                                  (issues (session w)))
                               (session w)) w).
Proof.
  cbv zeta.
  apply (issue_title_edit_sets_the_title _ (VInt 42)); reflexivity.
Defined.

(** X18 on the closed issue 42 and the action [reopened]. *)
Lemma issue_status_change_sets_the_status_witness :
  let info := VDict [("issue_id", VInt 42)] in
  let w := world_of (one_issue false) in
  issue_status_change info (VStr "reopened") w
  = (inr tt,
     after_commit (with_issues (update_nth 0 (with_status true)
                                  (issues (session w)))
                               (session w)) w).
Proof.
  cbv zeta.
  apply (issue_status_change_sets_the_status _ (VInt 42));
    try reflexivity.
  right. left. reflexivity.
Defined.

(** X19 on the issue 7, which refers to milestone 3, and the action
    [unmilestoned]. *)
Lemma issue_milestone_change_sets_or_clears_witness :
  let info := VDict [("issue_id", VInt 7); ("action", VStr "unmilestoned")] in
  let w := world_of (mkStore [the_issue 7 (VInt 3) true] [] [] []) in
  issue_milestone_change info w
  = if eq_str (VStr "unmilestoned") "milestoned" then
      match getitem info "milestone_id" with
      | inr m =>
          (inr tt,
           after_commit (with_issues (update_nth 0 (with_milestone m)
                                        (issues (session w)))
                                     (session w)) w)
      | inl e => (inl e, w)
      end
    else
      (inr tt,
       after_commit (with_issues (update_nth 0 (with_milestone VNone)
                                    (issues (session w)))
                                 (session w)) w).
Proof.
  cbv zeta.
  apply (issue_milestone_change_sets_or_clears _ (VInt 7)); reflexivity.
Defined.

(** X20 on the issue 42 and the label [bug], whose id is 5. *)
Lemma issue_label_change_round_trip_witness :
  let info action :=
    VDict [("issue_id", VInt 42);
           ("details", VDict [("label name", VStr "bug")]);
           ("action", VStr action)] in
  let w := world_of (mkStore [the_issue 42 VNone true]
                             [mkLabel 5 (VStr "bug")] [] []) in
  exists w1 w2,
    issue_label_change (info "labeled") w = (inr tt, w1)
    /\ nth_error (issues (committed w1)) 0
       = Some (with_labels ([] ++ [5]) (the_issue 42 VNone true))
    /\ issue_label_change (info "unlabeled") w1 = (inr tt, w2)
    /\ issues (committed w2) = issues (session w).
Proof.
  cbv zeta.
  apply (issue_label_change_round_trip _ _ (VInt 42) (VStr "bug")
           (mkLabel 5 (VStr "bug")) 0 (the_issue 42 VNone true));
    try reflexivity.
  - repeat split.
  - repeat split.
  - intros [].
Defined.

(** X21 on a signed [closed] notification and an empty database. *)
Lemma unknown_issue_is_a_server_error_witness :
  let request := signed "issues" (issue_body "closed" "42" "null") in
  let w := world_of no_rows in
  fst (serve (H := github) request w) = 500
  /\ committed (snd (serve (H := github) request w)) = committed w.
Proof.
  cbv zeta.
  apply (unknown_issue_is_a_server_error (H := github) _
           (issue_payload "closed" 42 VNone) VNone
           (the (extract_issue_event_info (issue_payload "closed" 42 VNone)
                   (VStr "closed") VNone))
           (VInt 42) "closed").
  - split; [|split; [|split]]; vm_compute; reflexivity.
  - right. left. reflexivity.
  - reflexivity.
  - reflexivity.
  - reflexivity.
  - reflexivity.
  - reflexivity.
Defined.

(** X22 on a signed [labeled] notification for the issue 42, the database
    holding no label. *)
Lemma unknown_label_is_a_server_error_witness :
  let request := signed "issues" labeled_body in
  let w := world_of (one_issue true) in
  fst (serve (H := github) request w) = 500
  /\ committed (snd (serve (H := github) request w)) = committed w.
Proof.
  cbv zeta.
  apply (unknown_label_is_a_server_error (H := github) _
           (decoded labeled_body) VNone
           (the (extract_issue_event_info (decoded labeled_body)
                   (VStr "labeled") VNone))
           (VInt 42) (VStr "bug")).
  - split; [|split; [|split]]; vm_compute; reflexivity.
  - vm_compute. reflexivity.
  - vm_compute. reflexivity.
  - split; [|split]; vm_compute; reflexivity.
  - reflexivity.
Defined.

(** X23 on a signed notification that the label [bug] was created. *)
Lemma created_label_is_stored_witness :
  let request := signed "label" label_created_body in
  let w := world_of (one_issue true) in
  fst (serve (H := github) request w) = 500
  /\ committed (snd (serve (H := github) request w))
     = with_label (mkLabel 1 (VStr "bug")) (committed w).
Proof.
  cbv zeta.
  apply (created_label_is_stored (H := github) _
           (decoded label_created_body)
           (VDict [("name", VStr "bug")]) (VStr "bug")).
  - split; [|split; [|split]]; vm_compute; reflexivity.
  - vm_compute. reflexivity.
  - reflexivity.
  - vm_compute. reflexivity.
  - reflexivity.
Defined.

(** X24 on a signed notification that the milestone [M1] was created. *)
Lemma created_milestone_is_stored_witness :
  let request := signed "milestone" milestone_created_body in
  let w := world_of (one_issue true) in
  fst (serve (H := github) request w) = 500
  /\ committed (snd (serve (H := github) request w))
     = with_milestone_row (mkMilestone 1 (VStr "M1")) (committed w).
Proof.
  cbv zeta.
  apply (created_milestone_is_stored (H := github) _
           (decoded milestone_created_body)
           (VDict [("title", VStr "M1")]) (VStr "M1")).
  - split; [|split; [|split]]; vm_compute; reflexivity.
  - vm_compute. reflexivity.
  - reflexivity.
  - vm_compute. reflexivity.
  - reflexivity.
Defined.

(** X25 on a signed notification that the milestone [M0] was renamed to
    [M1], the database holding [M0]. *)
Lemma milestone_rename_is_lost_witness :
  let request := signed "milestone" milestone_edited_body in
  let w := world_of (mkStore [] [] [mkMilestone 1 (VStr "M0")] []) in
  fst (serve (H := github) request w)
  = (if in_strs (VStr "edited") ["edited"; "deleted"] then 500 else 202)
  /\ committed (snd (serve (H := github) request w)) = committed w.
Proof.
  cbv zeta.
  apply (milestone_rename_is_lost (H := github) _
           (decoded milestone_edited_body) "edited").
  - split; [|split; [|split]]; vm_compute; reflexivity.
  - reflexivity.
Defined.

(** X26 on the action [pinned]. *)
Lemma unknown_action_is_logged_witness :
  let w := world_of no_rows in
  is_desirable_issue_event (H := github) (VStr "pinned") VNone w
  = (inr false,
     mkWorld (committed w) (session w) (commit_outcomes w)
       (log w ++ ["Hey, GitHub sent a funky issues-event action: pinned"])).
Proof.
  cbv zeta. apply (unknown_action_is_logged (H := github)).
  cbn. intros H. repeat (destruct H as [H|H]; [discriminate H|]). exact H.
Defined.

(** The same on an [edited] and on a [labeled] notification: the new title
    and the label reference are in the database, and no Event is. *)
Example edited_without_its_event :
  let row := mkIssue (VInt 42) (VStr "Site broken")
                     (VStr "2018-05-15T01:00:00Z") VNone true [] in
  let s := mkStore [row] [] [] [] in
  serve (H := github) (signed "issues" edited_body)
    (mkWorld s s [true; false] [])
  = (200,
     mkWorld (with_issue 0 (with_title (VStr "Site broken on load")) s)
             (with_issue 0 (with_title (VStr "Site broken on load")) s) []
             ["Yikes! Failed to add event to database: database is locked"]).
Proof. vm_compute. reflexivity. Qed.

Example labeled_without_its_event :
  let s := mkStore [the_issue 42 VNone true] [mkLabel 5 (VStr "bug")] [] [] in
  serve (H := github) (signed "issues" labeled_body)
    (mkWorld s s [true; false] [])
  = (200,
     mkWorld (with_issue 0 (with_labels [5]) s)
             (with_issue 0 (with_labels [5]) s) []
             ["Yikes! Failed to add event to database: database is locked"]).
Proof. vm_compute. reflexivity. Qed.

(** C4 (as amended) on the request of its counterexample: the status
    change is committed, the Event is not, and the issue 42 is closed in
    the database in the end. *)
Lemma event_failure_keeps_the_mutation_witness :
  let request := signed "issues" (issue_body "closed" "42" "null") in
  let w := mkWorld (one_issue true) (one_issue true) [true; false] [] in
  let info := the (extract_issue_event_info
                     (issue_payload "closed" 42 VNone) (VStr "closed")
                     VNone) in
  transition (H := github) info (VStr "closed")
    (set_session w (committed w))
  = (inr tt, mkWorld (one_issue false) (one_issue false) [false] [])
  /\ fst (serve (H := github) request w) = 200
  /\ committed (snd (serve (H := github) request w)) = one_issue false
  /\ commit_outcomes (snd (serve (H := github) request w)) = [].
Proof.
  cbv zeta.
  apply (event_failure_keeps_the_mutation (H := github) _
           (issue_payload "closed" 42 VNone) VNone _ (VInt 42) "closed"
           (with_status false) 0
           (mkWorld (one_issue true) (one_issue true) [true; false] []) []).
  - split; [|split; [|split]]; vm_compute; reflexivity.
  - reflexivity.
  - reflexivity.
  - reflexivity.
  - reflexivity.
  - reflexivity.
  - right. left. split; reflexivity.
  - reflexivity.
Defined.
